(** * bot_workflow: the workflow runtime, its step handlers and its journal

    A shallow embedding of
      - [app/agent/wokflow_state.py] and [app/agent/state.py] (the run state),
      - [app/agent/workflow_executor.py] (graph construction, the successor
        function of the conditional edges, the three step handlers),
      - [app/agents/workflow_decorators.py] (the journal wrapper),
      - [app/utils/decorators.py] ([timed]),
      - [app/agents/workflow_manager.py] ([process_workflow]),
    followed by the properties of the specification that concern them.

    Python dictionaries are finite maps ([gmap string pyval]); mutation of the
    run-state object is explicit state passing; exceptions are a sum type;
    the libraries the code calls (Jinja2, [eval], [json], the JSON-path
    helpers, the tool server, the clock, [uuid4]) are parameters collected
    in the class [Externals]; the catalogue and the graph runtime are
    parameters of the manager. *)

From Stdlib Require Import ZArith Ascii String.
From stdpp Require Import gmap strings list fin_maps pretty.

Set Warnings "-register-all".
Set Default Proof Using "Type".

Local Open Scope string_scope.
Local Open Scope list_scope.

(* ===================================================================== *)
(** ** Python values *)
(* ===================================================================== *)

(** JSON-shaped Python values: what a [Dict[str, Any]] of the run state
    holds. *)
Inductive pyval : Type :=
| VNone
| VBool (b : bool)
| VInt (z : Z)
| VStr (s : string)
| VList (l : list pyval)
| VDict (d : gmap string pyval).

(** Python truthiness ([if x:]). *)
Definition py_truthy (v : pyval) : bool :=
  match v with
  | VNone => false
  | VBool b => b
  | VInt z => negb (Z.eqb z 0)
  | VStr s => negb (String.eqb s "")
  | VList l => match l with [] => false | _ => true end
  | VDict d => negb (bool_decide (d = ∅))
  end.

(** Truthiness of an [Optional[str]]: neither [None] nor the empty string. *)
Definition truthy_str (o : option string) : bool :=
  match o with
  | Some s => negb (String.eqb s "")
  | None => false
  end.

(** An [Optional[str]] stored into a dictionary. *)
Definition of_opt_str (o : option string) : pyval :=
  match o with
  | Some s => VStr s
  | None => VNone
  end.

(** [f"{x}"] for an [Optional[str]]. *)
Definition fmt_opt (o : option string) : string :=
  match o with
  | Some s => s
  | None => "None"
  end.

(** Exceptions: the class name ([type(e).__name__]) and the text ([str(e)]). *)
Record exn : Type := Exn { exn_type : string; exn_msg : string }.

Inductive result (A : Type) : Type :=
| Ok (a : A)
| Raise (e : exn).
Arguments Ok {A} a.
Arguments Raise {A} e.

(* ===================================================================== *)
(** ** [a2a.types.TaskState] *)
(* ===================================================================== *)

Inductive TaskState : Type :=
| submitted | working | input_required | completed | canceled | failed
| rejected | auth_required | unknown.

(** [TaskState.<member>.value] *)
Definition value (t : TaskState) : string :=
  match t with
  | submitted => "submitted"
  | working => "working"
  | input_required => "input-required"
  | completed => "completed"
  | canceled => "canceled"
  | failed => "failed"
  | rejected => "rejected"
  | auth_required => "auth-required"
  | unknown => "unknown"
  end.

(** The [task_state] attribute is annotated [TaskState] but every assignment
    in the code stores the [.value] string; the successor function accepts
    both, so both are kept. *)
Inductive task_state_field : Type :=
| TSStr (s : string)
| TSEnum (t : TaskState).

(** [TaskState] is a [str]-mixin enumeration: a member compares equal to its
    value string, so [==] on the attribute only sees the string. *)
Definition ts_string (f : task_state_field) : string :=
  match f with
  | TSStr s => s
  | TSEnum t => value t
  end.

(* ===================================================================== *)
(** ** Step definitions (the catalogue's returned shape) *)
(* ===================================================================== *)

(** One entry of [orchestration_rules]; [None] is an absent key. *)
Record OrchestrationRule : Type := {
  condition : option string;
  go_to_step : option string
}.

Record UserInteraction : Type := {
  user_message : option string;
  expected_data_key : list string;
  orchestration_rules : option (list OrchestrationRule)
}.

(** [system_action_details]; [None] is an absent key (the handler supplies
    the default of each [.get]). *)
Record SystemActionDetails : Type := {
  sa_name : option string;                 (* "name" *)
  sa_inputs : option pyval;                (* "inputs": a JSON tree or its text *)
  sa_error_mapping : option pyval;         (* "error_mapping" *)
  sa_success_mapping : option pyval;       (* "success_mapping" *)
  sa_output_mapping : option pyval         (* "output_mapping" *)
}.

Record StepDetail : Type := {
  step_id : string;
  next_step_id : option string;
  step_type : string;               (* "type" *)
  failure_message : option string;
  user_interaction : option UserInteraction;
  system_action_details : option SystemActionDetails
}.

(* ===================================================================== *)
(** ** [WorkflowState] ([wokflow_state.py], on [CubeAssistBaseState]) *)
(* ===================================================================== *)

Record WorkflowState : Type := {
  (* CubeAssistBaseState *)
  input : option string;
  input_data : gmap string pyval;
  token : option string;
  event_log : list string;
  context_id : option string;
  is_new_conversation : bool;
  status : string;
  (* WorkflowState *)
  workflow_id : option string;
  workflow_run_id : option string;
  workflow_name : option string;
  worflow_exit_keywords : option (list string);
  current_step_run_id : option string;
  go_to_step_id : option string;
  workflow_state : gmap string pyval;
  task_state : task_state_field;
  output : pyval;
  step_ids : list string;
  next_step_ids : list string;
  start_step_id : option string;
  steps : list StepDetail;
  run_id : option string;
  user_id : option string;
  user_roles : list string
}.

(** The attributes the two dataclasses declare. *)
Definition declared_fields : list string :=
  [ "input"; "input_data"; "output"; "token"; "event_log"; "context_id";
    "is_new_conversation"; "status";
    "workflow_id"; "workflow_run_id"; "workflow_name";
    "worflow_exit_keywords"; "current_step_run_id"; "go_to_step_id";
    "workflow_state"; "task_state"; "step_ids"; "next_step_ids";
    "start_step_id"; "steps"; "run_id"; "user_id"; "user_roles" ].

(** Attribute assignment, one function per attribute the code assigns. *)
Definition set_go_to_step_id (v : option string) (st : WorkflowState) : WorkflowState :=
  {| input := input st; input_data := input_data st; token := token st;
     event_log := event_log st; context_id := context_id st;
     is_new_conversation := is_new_conversation st; status := status st;
     workflow_id := workflow_id st; workflow_run_id := workflow_run_id st;
     workflow_name := workflow_name st;
     worflow_exit_keywords := worflow_exit_keywords st;
     current_step_run_id := current_step_run_id st;
     go_to_step_id := v;
     workflow_state := workflow_state st; task_state := task_state st;
     output := output st; step_ids := step_ids st;
     next_step_ids := next_step_ids st; start_step_id := start_step_id st;
     steps := steps st; run_id := run_id st; user_id := user_id st;
     user_roles := user_roles st |}.

Definition set_task_state (v : task_state_field) (st : WorkflowState) : WorkflowState :=
  {| input := input st; input_data := input_data st; token := token st;
     event_log := event_log st; context_id := context_id st;
     is_new_conversation := is_new_conversation st; status := status st;
     workflow_id := workflow_id st; workflow_run_id := workflow_run_id st;
     workflow_name := workflow_name st;
     worflow_exit_keywords := worflow_exit_keywords st;
     current_step_run_id := current_step_run_id st;
     go_to_step_id := go_to_step_id st;
     workflow_state := workflow_state st; task_state := v;
     output := output st; step_ids := step_ids st;
     next_step_ids := next_step_ids st; start_step_id := start_step_id st;
     steps := steps st; run_id := run_id st; user_id := user_id st;
     user_roles := user_roles st |}.

Definition set_output (v : pyval) (st : WorkflowState) : WorkflowState :=
  {| input := input st; input_data := input_data st; token := token st;
     event_log := event_log st; context_id := context_id st;
     is_new_conversation := is_new_conversation st; status := status st;
     workflow_id := workflow_id st; workflow_run_id := workflow_run_id st;
     workflow_name := workflow_name st;
     worflow_exit_keywords := worflow_exit_keywords st;
     current_step_run_id := current_step_run_id st;
     go_to_step_id := go_to_step_id st;
     workflow_state := workflow_state st; task_state := task_state st;
     output := v; step_ids := step_ids st;
     next_step_ids := next_step_ids st; start_step_id := start_step_id st;
     steps := steps st; run_id := run_id st; user_id := user_id st;
     user_roles := user_roles st |}.

Definition set_workflow_state (v : gmap string pyval) (st : WorkflowState) : WorkflowState :=
  {| input := input st; input_data := input_data st; token := token st;
     event_log := event_log st; context_id := context_id st;
     is_new_conversation := is_new_conversation st; status := status st;
     workflow_id := workflow_id st; workflow_run_id := workflow_run_id st;
     workflow_name := workflow_name st;
     worflow_exit_keywords := worflow_exit_keywords st;
     current_step_run_id := current_step_run_id st;
     go_to_step_id := go_to_step_id st;
     workflow_state := v; task_state := task_state st;
     output := output st; step_ids := step_ids st;
     next_step_ids := next_step_ids st; start_step_id := start_step_id st;
     steps := steps st; run_id := run_id st; user_id := user_id st;
     user_roles := user_roles st |}.

Definition set_input_data (v : gmap string pyval) (st : WorkflowState) : WorkflowState :=
  {| input := input st; input_data := v; token := token st;
     event_log := event_log st; context_id := context_id st;
     is_new_conversation := is_new_conversation st; status := status st;
     workflow_id := workflow_id st; workflow_run_id := workflow_run_id st;
     workflow_name := workflow_name st;
     worflow_exit_keywords := worflow_exit_keywords st;
     current_step_run_id := current_step_run_id st;
     go_to_step_id := go_to_step_id st;
     workflow_state := workflow_state st; task_state := task_state st;
     output := output st; step_ids := step_ids st;
     next_step_ids := next_step_ids st; start_step_id := start_step_id st;
     steps := steps st; run_id := run_id st; user_id := user_id st;
     user_roles := user_roles st |}.

Definition set_current_step_run_id (v : option string) (st : WorkflowState) : WorkflowState :=
  {| input := input st; input_data := input_data st; token := token st;
     event_log := event_log st; context_id := context_id st;
     is_new_conversation := is_new_conversation st; status := status st;
     workflow_id := workflow_id st; workflow_run_id := workflow_run_id st;
     workflow_name := workflow_name st;
     worflow_exit_keywords := worflow_exit_keywords st;
     current_step_run_id := v;
     go_to_step_id := go_to_step_id st;
     workflow_state := workflow_state st; task_state := task_state st;
     output := output st; step_ids := step_ids st;
     next_step_ids := next_step_ids st; start_step_id := start_step_id st;
     steps := steps st; run_id := run_id st; user_id := user_id st;
     user_roles := user_roles st |}.

Definition set_event_log (v : list string) (st : WorkflowState) : WorkflowState :=
  {| input := input st; input_data := input_data st; token := token st;
     event_log := v; context_id := context_id st;
     is_new_conversation := is_new_conversation st; status := status st;
     workflow_id := workflow_id st; workflow_run_id := workflow_run_id st;
     workflow_name := workflow_name st;
     worflow_exit_keywords := worflow_exit_keywords st;
     current_step_run_id := current_step_run_id st;
     go_to_step_id := go_to_step_id st;
     workflow_state := workflow_state st; task_state := task_state st;
     output := output st; step_ids := step_ids st;
     next_step_ids := next_step_ids st; start_step_id := start_step_id st;
     steps := steps st; run_id := run_id st; user_id := user_id st;
     user_roles := user_roles st |}.

(* ===================================================================== *)
(** ** Graph runtime: edge scope and the successor function
       ([WorkflowExecutor.build_graph]) *)
(* ===================================================================== *)

(** LangGraph's [START] and [END] are reserved node names. *)
Definition START : string := "__start__".
Definition END : string := "__end__".

(** [step_ids.index(x)]: the position of the first occurrence. *)
Fixpoint index (x : string) (l : list string) : nat :=
  match l with
  | [] => 0
  | y :: l' => if String.eqb y x then 0 else S (index x l')
  end.

(** Lines 60-68: the steps before [start_step_id] are left out; when
    [start_step_id] is not a step id, all steps are used. *)
Definition step_ids_used_for_edges (start : option string) (ids : list string) : list string :=
  match start with
  | Some s =>
      if bool_decide (s ∈ ids) then drop (index s ids) ids else ids
  | None => ids
  end.

(** Lines 74-78: [step_to_next], filled in step order (a later step with the
    same id overwrites an earlier one). *)
Definition step_to_next (sts : list StepDetail) : gmap string (option string) :=
  fold_left (fun m step => <[step_id step := next_step_id step]> m) sts ∅.

(** [step_to_next.get(step_id)]: [None] for an unknown id and for a step
    without a next step. *)
Definition step_to_next_get (sts : list StepDetail) (sid : string) : option string :=
  match step_to_next sts !! sid with
  | Some n => n
  | None => None
  end.

(** Lines 114-156. The closure captures [step_ids_used_for_edges],
    [current_step_id] and [next_step_id]; it returns the successor and
    leaves its mutation of [state] in the returned state. *)
Definition should_continue (scope : list string)
    (current_step_id : string) (next_step_id : option string)
    (state : WorkflowState) : string * WorkflowState :=
  if truthy_str (go_to_step_id state) then
    let target_step_id := fmt_opt (go_to_step_id state) in
    (target_step_id, set_go_to_step_id None state)
  else
    let status_value := ts_string (task_state state) in
    if String.eqb status_value (value input_required) then (END, state)
    else if String.eqb status_value (value failed)
            || String.eqb status_value (value canceled) then (END, state)
    else
      match next_step_id with
      | Some n =>
          if negb (String.eqb n "") && bool_decide (n ∈ scope)
          then (n, state) else (END, state)
      | None => (END, state)
      end.

(* ===================================================================== *)
(** ** The libraries and services the code calls *)
(* ===================================================================== *)

(** What the tool server's session did inside [asyncio.timeout(45)]
    (lines 378-385): the budget ran out, the session or the call raised, or
    the reply's [content[0].text] arrived. *)
Inductive ToolOutcome : Type :=
| ToolTimeout
| ToolRaise (e : exn)
| ToolText (text : string).

(** The code's collaborators. The Python and Jinja2 library functions are
    taken as they are documented; [resolve_jsonpath_in_params] and
    [extract_json_path_value] belong to [app/utils/utilities.py], which is
    not part of the sources at hand: the specification (4.B) gives them as
    total readers of a document (missing paths yield null). Calls that
    depend on the outside world are indexed by the number of calls made so
    far. *)
Class Externals : Type := {
  (** [str.lower] *)
  py_lower : string -> string;
  (** [str(v)] *)
  py_str : pyval -> string;
  (** [f"{rule}"] of a rule dictionary *)
  rule_repr : OrchestrationRule -> string;
  (** [meta.find_undeclared_variables(Environment().parse(t))] *)
  find_undeclared_variables : string -> result (list string);
  (** [Environment().from_string(t)]: the template is compiled; [None] is a
      missing template *)
  jinja_from_string : option string -> result unit;
  (** [template.render(context)] of the compiled template *)
  jinja_render : option string -> gmap string pyval -> result string;
  (** [eval(text)] *)
  py_eval : string -> result pyval;
  (** [json.loads(text)]; raises [JSONDecodeError] only *)
  json_loads : string -> result pyval;
  (** [json.dumps(s)] of a string *)
  json_dumps_str : string -> string;
  (** [Utilities.resolve_jsonpath_in_params(params, doc)] *)
  resolve_jsonpath_in_params : pyval -> pyval -> pyval;
  (** [Utilities.extract_json_path_value(doc, path)] *)
  extract_json_path_value : pyval -> pyval -> pyval;
  (** the n-th tool session: [call_tool(name, params)] under the budget *)
  mcp_call_tool : nat -> option string -> pyval -> ToolOutcome;
  (** the n-th reading of [datetime.now()] *)
  datetime_now : nat -> Z;
  (** the n-th [str(uuid.uuid4())] *)
  uuid4 : nat -> string;
  (** [f"{duration:.2f}"] of the n-th timed call *)
  duration_text : nat -> string
}.

(* ===================================================================== *)
(** ** The step-run journal (table [workflow_run]) *)
(* ===================================================================== *)

Record JournalRow : Type := {
  r_workflow_run_id : option string;
  r_step_run_id : option string;
  r_workflow_id : option string;
  r_step_id : string;
  r_started_at : option Z;
  r_completed_at : option Z;
  r_status : string;
  r_workflow_state : pyval;
  r_success_response : option pyval;
  r_error_response : option pyval;
  r_created_at : option Z;
  r_created_by : option string;
  r_updated_at : option Z;
  r_updated_by : option string
}.

(** [INSERT ... ON CONFLICT (step_run_id) DO UPDATE SET ...]: the row with
    the same key is replaced by [upd old], otherwise [new] is appended. *)
Fixpoint upsert (new : JournalRow) (upd : JournalRow -> JournalRow)
    (tbl : list JournalRow) : list JournalRow :=
  match tbl with
  | [] => [new]
  | r :: tbl' =>
      if bool_decide (r_step_run_id r = r_step_run_id new)
      then upd r :: tbl'
      else r :: upsert new upd tbl'
  end.

(** The row of a step run. *)
Fixpoint find_row (key : option string) (tbl : list JournalRow) : option JournalRow :=
  match tbl with
  | [] => None
  | r :: tbl' =>
      if bool_decide (r_step_run_id r = key) then Some r else find_row key tbl'
  end.

(** Calls to the template engine and to the tool server, in the order they
    were made. *)
Inductive ExtCall : Type :=
| CallParse (template : string)
| CallRender (template : option string)
| CallEval (text : string)
| CallTool (name : option string) (params : pyval).

(** Everything outside the run-state object that a step reads or changes. *)
Record World : Type := {
  journal : list JournalRow;
  now_calls : nat;
  uuid_calls : nat;
  tool_calls : nat;
  timed_calls : nat;
  ext_calls : list ExtCall
}.

Definition set_journal (j : list JournalRow) (w : World) : World :=
  {| journal := j; now_calls := now_calls w; uuid_calls := uuid_calls w;
     tool_calls := tool_calls w; timed_calls := timed_calls w;
     ext_calls := ext_calls w |}.

Definition log_call (c : ExtCall) (w : World) : World :=
  {| journal := journal w; now_calls := now_calls w; uuid_calls := uuid_calls w;
     tool_calls := tool_calls w; timed_calls := timed_calls w;
     ext_calls := ext_calls w ++ [c] |}.

Definition tick_now (w : World) : World :=
  {| journal := journal w; now_calls := S (now_calls w);
     uuid_calls := uuid_calls w; tool_calls := tool_calls w;
     timed_calls := timed_calls w; ext_calls := ext_calls w |}.

Definition tick_uuid (w : World) : World :=
  {| journal := journal w; now_calls := now_calls w;
     uuid_calls := S (uuid_calls w); tool_calls := tool_calls w;
     timed_calls := timed_calls w; ext_calls := ext_calls w |}.

Definition tick_tool (w : World) : World :=
  {| journal := journal w; now_calls := now_calls w;
     uuid_calls := uuid_calls w; tool_calls := S (tool_calls w);
     timed_calls := timed_calls w; ext_calls := ext_calls w |}.

Definition tick_timed (w : World) : World :=
  {| journal := journal w; now_calls := now_calls w;
     uuid_calls := uuid_calls w; tool_calls := tool_calls w;
     timed_calls := S (timed_calls w); ext_calls := ext_calls w |}.

(* ===================================================================== *)
(** ** Computations on the run state *)
(* ===================================================================== *)

(** A piece of handler code: it reads and mutates the run-state object and
    the world, and returns or raises. The mutations made before a raise
    stay (the object is shared with the caller). *)
Definition M (A : Type) : Type :=
  WorkflowState -> World -> result A * WorkflowState * World.

Definition ret {A} (a : A) : M A := fun st w => (Ok a, st, w).

Definition raise {A} (e : exn) : M A := fun st w => (Raise e, st, w).

Definition bind {A B} (m : M A) (k : A -> M B) : M B :=
  fun st w =>
    match m st w with
    | (Ok a, st', w') => k a st' w'
    | (Raise e, st', w') => (Raise e, st', w')
    end.

(** [try: m except Exception as e: h e] *)
Definition try_except {A} (m : M A) (h : exn -> M A) : M A :=
  fun st w =>
    match m st w with
    | (Ok a, st', w') => (Ok a, st', w')
    | (Raise e, st', w') => h e st' w'
    end.

Definition get_state : M WorkflowState := fun st w => (Ok st, st, w).
Definition modify (f : WorkflowState -> WorkflowState) : M unit :=
  fun st w => (Ok tt, f st, w).
Definition get_world : M World := fun st w => (Ok w, st, w).
Definition modify_world (f : World -> World) : M unit :=
  fun st w => (Ok tt, st, f w).

(** A library call that returns or raises. *)
Definition lift_result {A} (r : result A) : M A :=
  fun st w => (r, st, w).

Declare Scope m_scope.
Delimit Scope m_scope with M.
Notation "x <- m ;; k" := (bind m (fun x => k))
  (at level 100, m at next level, right associativity) : m_scope.
Notation "m ;;; k" := (bind m (fun _ => k))
  (at level 100, right associativity) : m_scope.
Local Open Scope m_scope.

(** A step handler after [functools.partial]: the step definition is fixed,
    the run state is the argument, and the returned object is the argument
    itself (every handler ends in [return workflow_state]). *)
Definition Handler : Type := M unit.

Section Handlers.
Context {ext : Externals}.

(** A call to the template engine or to [eval], recorded before it runs. *)
Definition call_ext {A} (c : ExtCall) (r : result A) : M A :=
  modify_world (log_call c) ;;; lift_result r.

(** [{"summary": text}] *)
Definition summary (text : string) : pyval := VDict {[ "summary" := VStr text ]}.

(* --------------------------------------------------------------------- *)
(** *** [user_input_with_step] (lines 202-326) *)
(* --------------------------------------------------------------------- *)

(** Line 224: [text and text.lower() in [k.lower() for k in keywords]].
    The list is only built when the text is truthy; building it from [None]
    raises. *)
Definition exit_keyword_received (st : WorkflowState) : result bool :=
  if truthy_str (input st) then
    match worflow_exit_keywords st with
    | Some keywords =>
        Ok (bool_decide (py_lower (fmt_opt (input st)) ∈ map py_lower keywords))
    | None => Raise (Exn "TypeError" "'NoneType' object is not iterable")
    end
  else Ok false.

(** Lines 235-237: copy the expected keys that the reply carries. *)
Definition ingest_input_data (keys : list string) (data ws : gmap string pyval)
    : gmap string pyval :=
  fold_left
    (fun ws key => match data !! key with
                   | Some v => <[key := v]> ws
                   | None => ws
                   end)
    keys ws.

(** Lines 268-271: the variables of the template that the context lacks. *)
Definition missing_vars (template_variables : list string)
    (context : gmap string pyval) : list string :=
  filter (fun var => context !! var = None) template_variables.

(** Lines 251-298, one iteration of [for rule in orchestration_rules]. The
    result is [(stop, template_variables)]: whether the loop was left by
    [break], and the binding of the local [template_variables] after the
    iteration ([tv] is its binding before). *)
Definition process_rule (rule : OrchestrationRule) (tv : option (list string))
    : M (bool * option (list string)) :=
  try_except
    (match condition rule, go_to_step rule with
     | Some condition_template, Some target_step_id =>
         template_variables <-
           call_ext (CallParse condition_template)
                    (find_undeclared_variables condition_template) ;;
         st <- get_state ;;
         let context := workflow_state st in
         match missing_vars template_variables context with
         | _ :: _ => ret (false, Some template_variables)       (* continue *)
         | [] =>
             lift_result (jinja_from_string (Some condition_template)) ;;;
             try_except
               (rendered_condition <-
                  call_ext (CallRender (Some condition_template))
                           (jinja_render (Some condition_template) context) ;;
                condition_result <-
                  call_ext (CallEval rendered_condition)
                           (py_eval rendered_condition) ;;
                if py_truthy condition_result then
                  modify (set_go_to_step_id (Some target_step_id)) ;;;
                  ret (true, Some template_variables)            (* break *)
                else ret (false, Some template_variables))
               (fun eval_error =>
                  raise (Exn "ValueError"
                    ("Failed to evaluate orchestration rule condition '"
                       +:+ condition_template +:+ "': "
                       +:+ exn_msg eval_error)))
         end
     | _, _ => ret (false, tv)
     end)
    (fun e =>
       raise (Exn "ValueError"
         ("Invalid orchestration rule data: " +:+ rule_repr rule
            +:+ ", error: " +:+ exn_msg e))).

(** Lines 250-298: the loop, left at the first [break] or [raise]. *)
Fixpoint rules_loop (rules : list OrchestrationRule) (tv : option (list string))
    : M (option (list string)) :=
  match rules with
  | [] => ret tv
  | rule :: rules' =>
      r <- process_rule rule tv ;;
      if fst r then ret (snd r) else rules_loop rules' (snd r)
  end.

(** Lines 302-304: [template_variables] is the local of the loop body, as
    the last iteration that reached line 260 left it; it is unbound when no
    iteration did. *)
Definition reset_template_variables (tv : option (list string)) : M unit :=
  match tv with
  | None =>
      raise (Exn "UnboundLocalError"
        "cannot access local variable 'template_variables' where it is not associated with a value")
  | Some template_variables =>
      modify (fun st =>
        fold_left
          (fun st temp_var =>
             set_input_data (<[temp_var := VNone]> (input_data st))
               (set_workflow_state (<[temp_var := VNone]> (workflow_state st)) st))
          template_variables st)
  end.

(** Lines 310-324, the prompt. *)
Definition prompt_user (step_detail : StepDetail) : M unit :=
  modify (set_go_to_step_id None) ;;;
  let user_message :=
    match user_interaction step_detail with
    | Some ui => user_message ui
    | None => None
    end in
  lift_result (jinja_from_string user_message) ;;;
  st <- get_state ;;
  rendered_template <-
    call_ext (CallRender user_message)
             (jinja_render user_message (workflow_state st)) ;;
  let output :=
    match json_loads rendered_template with
    | Ok v => v
    | Raise _ => summary rendered_template
    end in
  modify (set_output output) ;;;
  modify (set_task_state (TSStr (value input_required))).

(** Lines 233-246: the reply is taken into the scratchpad. The result tells
    whether the user declined a confirmation (the handler then returns). *)
Definition ingest_reply (expected_data_keys : list string) : M bool :=
  st <- get_state ;;
  let workflow_input_text := input st in
  let workflow_input_data := input_data st in
  if negb (bool_decide (workflow_input_data = ∅))
     && bool_decide (0 < length expected_data_keys) then
    modify (fun st =>
      set_workflow_state
        (ingest_input_data expected_data_keys workflow_input_data
           (workflow_state st)) st) ;;;
    ret false
  else if truthy_str workflow_input_text
          && bool_decide (1 <= length expected_data_keys) then
    match expected_data_keys with
    | expected_data_key :: _ =>
        modify (fun st =>
          set_workflow_state
            (<[expected_data_key := VStr (fmt_opt workflow_input_text)]>
               (workflow_state st)) st) ;;;
        if String.eqb expected_data_key "confirm_action"
           && bool_decide (py_lower (fmt_opt workflow_input_text) ∈ ["no"; "n"])
        then
          modify (set_task_state (TSStr (value canceled))) ;;;
          modify (set_output (summary "Action cancelled by user")) ;;;
          ret true
        else ret false
    | [] => ret false
    end
  else ret false.

(** Lines 248-304: the rules, then the reset of [template_variables]. *)
Definition evaluate_rules (rules : option (list OrchestrationRule)) : M unit :=
  match rules with
  | Some (rule :: rules') =>
      tv <- rules_loop (rule :: rules') None ;;
      reset_template_variables tv
  | _ => ret tt
  end.

(** Line 232: the handler resumes a conversation that waits at this step. *)
Definition resumes (step_detail : StepDetail) (st : WorkflowState) : bool :=
  negb (is_new_conversation st)
  && bool_decide (Some (step_id step_detail) = start_step_id st)
  && negb (truthy_str (go_to_step_id st)).

Definition user_input_with_step (step_detail : StepDetail) : Handler :=
  st <- get_state ;;
  let expected_data_keys :=
    match user_interaction step_detail with
    | Some ui => expected_data_key ui
    | None => []
    end in
  let rules :=
    match user_interaction step_detail with
    | Some ui => orchestration_rules ui
    | None => None
    end in
  exit_kw <- lift_result (exit_keyword_received st) ;;
  if exit_kw : bool then
    modify (set_task_state (TSStr (value canceled))) ;;;
    modify (set_output (summary
      ("Workflow " +:+ fmt_opt (workflow_id st) +:+ " ("
         +:+ fmt_opt (workflow_name st) +:+ ") terminated.")))
  else if resumes step_detail st then
    declined <- ingest_reply expected_data_keys ;;
    if declined : bool then ret tt
    else
      evaluate_rules rules ;;;
      modify (set_task_state (TSStr (value completed)))
  else prompt_user step_detail.

End Handlers.

Section SystemAction.
Context {ext : Externals}.

(* --------------------------------------------------------------------- *)
(** *** [system_control_with_step] (lines 340-441) *)
(* --------------------------------------------------------------------- *)

(** [type(v).__name__] *)
Definition py_type_name (v : pyval) : string :=
  match v with
  | VNone => "NoneType"
  | VBool _ => "bool"
  | VInt _ => "int"
  | VStr _ => "str"
  | VList _ => "list"
  | VDict _ => "dict"
  end.

(** [v.get(key, dflt)]: only a dictionary has [get]. *)
Definition py_get (v : pyval) (key : string) (dflt : pyval) : result pyval :=
  match v with
  | VDict d => Ok (default dflt (d !! key))
  | _ => Raise (Exn "AttributeError"
                 ("'" +:+ py_type_name v +:+ "' object has no attribute 'get'"))
  end.

Definition is_VStr (v : pyval) (s : string) : bool :=
  match v with VStr s' => String.eqb s' s | _ => false end.

(** Line 363: [json.loads(tool_input) if isinstance(tool_input, str) else
    tool_input]. *)
Definition parse_tool_input (tool_input : pyval) : result pyval :=
  match tool_input with
  | VStr text => json_loads text
  | _ => Ok tool_input
  end.

(** Lines 363-372. When [tool_params] is truthy, [token] and [user_id] are
    put into the scratchpad, the parameters are resolved against it, and
    the two keys are deleted. *)
Definition resolve_tool_params (tool_input : pyval) : M pyval :=
  tool_params <- lift_result (parse_tool_input tool_input) ;;
  if py_truthy tool_params then
    modify (fun st =>
      set_workflow_state (<["token" := of_opt_str (token st)]> (workflow_state st)) st) ;;;
    modify (fun st =>
      set_workflow_state (<["user_id" := of_opt_str (user_id st)]> (workflow_state st)) st) ;;;
    st <- get_state ;;
    let resolved := resolve_jsonpath_in_params tool_params (VDict (workflow_state st)) in
    modify (fun st => set_workflow_state (delete "token" (workflow_state st)) st) ;;;
    modify (fun st => set_workflow_state (delete "user_id" (workflow_state st)) st) ;;;
    ret resolved
  else ret tool_params.

(** Lines 378-395, the body of the [try]: the tool session under the
    45-second budget, then the error mapping over the reply. *)
Definition call_tool_checked (tool_name : option string) (tool_params : pyval)
    (error_mapping : pyval) : M pyval :=
  w <- get_world ;;
  modify_world (fun w => tick_tool (log_call (CallTool tool_name tool_params) w)) ;;;
  match mcp_call_tool (tool_calls w) tool_name tool_params with
  | ToolTimeout => raise (Exn "TimeoutError" "")
  | ToolRaise e => raise e
  | ToolText text =>
      tool_output <- lift_result (json_loads text) ;;
      let error_mapping := resolve_jsonpath_in_params error_mapping tool_output in
      error_status <- lift_result (py_get error_mapping "error_status" VNone) ;;
      if is_VStr error_status "error" then
        error_message <-
          lift_result (py_get error_mapping "error_message"
            (VStr ("Tool " +:+ fmt_opt tool_name +:+ " returned error"))) ;;
        raise (Exn "Exception" (py_str error_message))
      else ret tool_output
  end.

(** [workflow_state.<name>] read dynamically: an attribute that neither
    dataclass declares (and that nothing assigns) raises. *)
Definition getattr (name : string) : M unit :=
  if bool_decide (name ∈ declared_fields) then ret tt
  else raise (Exn "AttributeError"
                ("'WorkflowState' object has no attribute '" +:+ name +:+ "'")).

(** Lines 410-413: [workflow_state.inputs[key] = extract(...)] for each
    item. The right-hand side is evaluated first (a pure read), then the
    attribute [inputs] is looked up. *)
Fixpoint apply_success_mapping (items : list (string * pyval)) (tool_output : pyval)
    : M unit :=
  match items with
  | [] => ret tt
  | (key, json_path) :: items' =>
      let extracted := extract_json_path_value tool_output json_path in
      getattr "inputs" ;;;
      apply_success_mapping items' tool_output
  end.

(** Lines 424-429: a string is replaced by [json.dumps(s)[1:-1]]. *)
Definition escape_extracted (v : pyval) : pyval :=
  match v with
  | VStr s =>
      let escaped_value := json_dumps_str s in
      if bool_decide (1 < String.length escaped_value)
      then VStr (String.substring 1 (String.length escaped_value - 2) escaped_value)
      else VStr s
  | _ => v
  end.

(** Lines 419-436: each mapped key is written into the scratchpad. *)
Definition apply_output_mapping (output_mapping : gmap string pyval)
    (tool_output : pyval) (ws : gmap string pyval) : gmap string pyval :=
  map_fold
    (fun key json_path ws =>
       <[key := escape_extracted (extract_json_path_value tool_output json_path)]> ws)
    ws output_mapping.

(** [step_detail.get("system_action_details", {})] *)
Definition no_system_action : SystemActionDetails :=
  {| sa_name := None; sa_inputs := None; sa_error_mapping := None;
     sa_success_mapping := None; sa_output_mapping := None |}.

(** Lines 374-441: the tool call with its two [except] clauses, then the
    mappings. *)
Definition invoke_and_map (step_detail : StepDetail) (tool_params : pyval) : M unit :=
  let system_action := default no_system_action (system_action_details step_detail) in
  let tool_name := sa_name system_action in
  let error_mapping := default (VDict ∅) (sa_error_mapping system_action) in
  let output_mapping := default VNone (sa_output_mapping system_action) in
  called <-
    try_except
      (tool_output <- call_tool_checked tool_name tool_params error_mapping ;;
       ret (Some tool_output))
      (fun e =>
         if String.eqb (exn_type e) "TimeoutError" then
           modify (set_task_state (TSStr (value failed))) ;;;
           modify (set_output (summary
             ("Tool execution timeout: " +:+ fmt_opt tool_name))) ;;;
           ret None
         else
           modify (set_task_state (TSStr (value failed))) ;;;
           modify (set_output (summary (exn_msg e))) ;;;
           ret None) ;;
  match called with
  | None => ret tt                                   (* return workflow_state *)
  | Some tool_output =>
      let success_mapping := default (VDict ∅) (sa_success_mapping system_action) in
      match success_mapping with
      | VDict d => apply_success_mapping (map_to_list d) tool_output
      | _ => ret tt
      end ;;;
      match output_mapping with
      | VDict d =>
          modify (fun st =>
            set_workflow_state (apply_output_mapping d tool_output (workflow_state st)) st)
      | _ => ret tt
      end ;;;
      modify (set_task_state (TSStr (value completed)))
  end.

Definition system_control_with_step (step_detail : StepDetail) : Handler :=
  let system_action := default no_system_action (system_action_details step_detail) in
  let tool_input := default VNone (sa_inputs system_action) in
  tool_params <- resolve_tool_params tool_input ;;
  invoke_and_map step_detail tool_params.

(* --------------------------------------------------------------------- *)
(** *** [final_response_with_step] (lines 445-482) *)
(* --------------------------------------------------------------------- *)

Definition final_response_with_step (step_detail : StepDetail) : Handler :=
  modify (set_go_to_step_id None) ;;;
  let user_message :=
    match user_interaction step_detail with
    | Some ui => user_message ui
    | None => None
    end in
  if negb (truthy_str user_message) then
    modify (set_task_state (TSStr (value failed)))
  else
    lift_result (jinja_from_string user_message) ;;;
    st <- get_state ;;
    rendered_template <-
      call_ext (CallRender user_message)
               (jinja_render user_message (workflow_state st)) ;;
    let output :=
      match json_loads rendered_template with
      | Ok v => v
      | Raise _ => summary rendered_template
      end in
    modify (set_output output) ;;;
    modify (set_task_state (TSStr (value completed))).

End SystemAction.

(* ===================================================================== *)
(** ** The journal wrapper ([workflow_decorators.process_workflow_run]) *)
(* ===================================================================== *)

(** The three [ON CONFLICT (step_run_id) DO UPDATE SET] clauses: the columns
    taken from the proposed row [new]; the others stay as in [old]. *)
Definition initial_conflict (new old : JournalRow) : JournalRow :=
  {| r_workflow_run_id := r_workflow_run_id old;
     r_step_run_id := r_step_run_id old;
     r_workflow_id := r_workflow_id old;
     r_step_id := r_step_id old;
     r_started_at := r_started_at new;
     r_completed_at := r_completed_at old;
     r_status := r_status new;
     r_workflow_state := r_workflow_state new;
     r_success_response := r_success_response old;
     r_error_response := r_error_response old;
     r_created_at := r_created_at old;
     r_created_by := r_created_by old;
     r_updated_at := r_created_at new;
     r_updated_by := r_created_by new |}.

Definition completion_conflict (new old : JournalRow) : JournalRow :=
  {| r_workflow_run_id := r_workflow_run_id old;
     r_step_run_id := r_step_run_id old;
     r_workflow_id := r_workflow_id old;
     r_step_id := r_step_id old;
     r_started_at := r_started_at old;
     r_completed_at := r_completed_at new;
     r_status := r_status new;
     r_workflow_state := r_workflow_state new;
     r_success_response := r_success_response new;
     r_error_response := r_error_response new;
     r_created_at := r_created_at old;
     r_created_by := r_created_by old;
     r_updated_at := r_updated_at new;
     r_updated_by := r_updated_by new |}.

Definition error_conflict (new old : JournalRow) : JournalRow :=
  {| r_workflow_run_id := r_workflow_run_id old;
     r_step_run_id := r_step_run_id old;
     r_workflow_id := r_workflow_id old;
     r_step_id := r_step_id old;
     r_started_at := r_started_at old;
     r_completed_at := r_completed_at new;
     r_status := r_status new;
     r_workflow_state := r_workflow_state new;
     r_success_response := r_success_response old;
     r_error_response := r_error_response new;
     r_created_at := r_created_at old;
     r_created_by := r_created_by old;
     r_updated_at := r_updated_at new;
     r_updated_by := r_updated_by new |}.

(** [database.execute_query(upsert, params, fetch=False)] *)
Definition execute_upsert (new : JournalRow) (conflict : JournalRow -> JournalRow -> JournalRow)
    : M unit :=
  modify_world (fun w => set_journal (upsert new (conflict new) (journal w)) w).

(** A list of strings as a JSON array. *)
Definition of_str_list (l : list string) : pyval := VList (map VStr l).

Section Journal.
Context {ext : Externals}.

(** [datetime.now()] *)
Definition now : M Z :=
  w <- get_world ;;
  modify_world tick_now ;;;
  ret (datetime_now (now_calls w)).

(** [str(uuid.uuid4())] *)
Definition new_uuid : M string :=
  w <- get_world ;;
  modify_world tick_uuid ;;;
  ret (uuid4 (uuid_calls w)).

(** Lines 102-109, 113-121, 124-132, 136-144: the success response. *)
Definition success_response (step_detail : StepDetail) (workflow_run_id : option string)
    (rs : WorkflowState) (with_next : bool) (status_text : string) : pyval :=
  VDict (list_to_map
    ([ ("success", VBool true);
       ("step_completed", VStr (step_id step_detail)) ]
     ++ (if with_next
         then [ ("next_step", of_opt_str (next_step_id step_detail)) ]
         else [])
     ++ [ ("workflow_run_id", of_opt_str workflow_run_id);
          ("step_run_id", of_opt_str (current_step_run_id rs));
          ("step_output", output rs);
          ("status", VStr status_text) ])).

(** Lines 197-204: [error_data]. *)
Definition error_data (step_detail : StepDetail) (workflow_run_id : option string)
    (st : WorkflowState) (e : exn) : pyval :=
  VDict (list_to_map
    [ ("error", VStr (exn_msg e));
      ("failure_message",
         VStr (default "Step execution failed" (failure_message step_detail)));
      ("step_id", VStr (step_id step_detail));
      ("workflow_run_id", of_opt_str workflow_run_id);
      ("step_run_id", of_opt_str (current_step_run_id st));
      ("exception_type", VStr (exn_type e)) ]).

(** Lines 207-219: [error_workflow_state]. *)
Definition error_workflow_state (step_detail : StepDetail) (wf_run_id : option string)
    (st : WorkflowState) (e : exn) : pyval :=
  VDict (list_to_map
    [ ("inputs", VDict (workflow_state st));
      ("status", VStr (value failed));
      ("output", output st);
      ("step_ids", of_str_list (step_ids st));
      ("next_step_ids", of_str_list (next_step_ids st));
      ("start_step_id", of_opt_str (start_step_id st));
      ("workflow_id", of_opt_str (workflow_id st));
      ("workflow_run_id", of_opt_str (workflow_run_id st));
      ("current_step_run_id", of_opt_str (current_step_run_id st));
      ("execution_phase", VStr "ERROR");
      ("error_details", error_data step_detail wf_run_id st e) ]).

(** Lines 86-144: the journal status and the two responses, from the task
    state the handler left; a failed or canceled step also gets
    [execution_phase] written into its scratchpad (the dictionary is the
    state's own). *)
Definition completion_status (step_detail : StepDetail) (workflow_run_id : option string)
    : M (string * option pyval * option pyval) :=
  rs <- get_state ;;
  let ts := ts_string (task_state rs) in
  if String.eqb ts (value failed) then
    let error_response :=
      VDict (list_to_map
        [ ("error", output rs);
          ("step_id", VStr (step_id step_detail));
          ("workflow_run_id", of_opt_str workflow_run_id);
          ("step_run_id", of_opt_str (current_step_run_id rs)) ]) in
    modify (fun st =>
      set_workflow_state (<["execution_phase" := VStr "FAILED"]> (workflow_state st)) st) ;;;
    ret (value failed, None, Some error_response)
  else if String.eqb ts (value canceled) then
    modify (fun st =>
      set_workflow_state (<["execution_phase" := VStr "CANCELED"]> (workflow_state st)) st) ;;;
    ret (value canceled,
         Some (success_response step_detail workflow_run_id rs false "canceled"), None)
  else if String.eqb ts (value working) then
    ret (value working,
         Some (success_response step_detail workflow_run_id rs true "working"), None)
  else if String.eqb ts (value input_required) then
    ret (value input_required,
         Some (success_response step_detail workflow_run_id rs true "input-required"), None)
  else
    ret (value completed,
         Some (success_response step_detail workflow_run_id rs true "completed"), None).

(** Lines 35-38: the step-run id is generated when the state has none, and
    the start time is read. *)
Definition begin_step : M Z :=
  st0 <- get_state ;;
  (if negb (truthy_str (current_step_run_id st0)) then
     u <- new_uuid ;;
     modify (set_current_step_run_id (Some u))
   else ret tt) ;;;
  now.

(** Lines 61-71: the row of the initial upsert. [st0] is the state when the
    wrapper was entered (its [workflow_id] and [workflow_run_id] are kept in
    locals), [st1] the state once the step-run id is set. *)
Definition initial_row (step_detail : StepDetail) (st0 st1 : WorkflowState)
    (started_at : Z) : JournalRow :=
  {| r_workflow_run_id := workflow_run_id st0;
     r_step_run_id := current_step_run_id st1;
     r_workflow_id := workflow_id st0;
     r_step_id := step_id step_detail;
     r_started_at := Some started_at;
     r_completed_at := None;
     r_status := value working;
     r_workflow_state := VDict (workflow_state st1);
     r_success_response := None;
     r_error_response := None;
     r_created_at := Some started_at;
     r_created_by := Some "system";
     r_updated_at := None;
     r_updated_by := None |}.

(** Lines 168-183: the row of the completion upsert. *)
Definition completion_row (step_detail : StepDetail) (st0 rs : WorkflowState)
    (started_at completed_at : Z) (outcome : string * option pyval * option pyval)
    : JournalRow :=
  {| r_workflow_run_id := workflow_run_id st0;
     r_step_run_id := current_step_run_id rs;
     r_workflow_id := workflow_id st0;
     r_step_id := step_id step_detail;
     r_started_at := Some started_at;
     r_completed_at := Some completed_at;
     r_status := fst (fst outcome);
     r_workflow_state := VDict (workflow_state rs);
     r_success_response := snd (fst outcome);
     r_error_response := snd outcome;
     r_created_at := Some started_at;
     r_created_by := Some "system";
     r_updated_at := Some completed_at;
     r_updated_by := Some "system" |}.

(** Lines 241-255: the row of the error upsert. *)
Definition error_row (step_detail : StepDetail) (st0 st : WorkflowState)
    (started_at completed_at : Z) (e : exn) : JournalRow :=
  {| r_workflow_run_id := workflow_run_id st0;
     r_step_run_id := current_step_run_id st;
     r_workflow_id := workflow_id st0;
     r_step_id := step_id step_detail;
     r_started_at := Some started_at;
     r_completed_at := Some completed_at;
     r_status := value failed;
     r_workflow_state :=
       error_workflow_state step_detail (workflow_run_id st0) st e;
     r_success_response := None;
     r_error_response := Some (error_data step_detail (workflow_run_id st0) st e);
     r_created_at := Some started_at;
     r_created_by := Some "system";
     r_updated_at := Some completed_at;
     r_updated_by := Some "system" |}.

(** The decorator applied to a handler [func]. *)
Definition process_workflow_run (step_detail : StepDetail) (func : Handler) : Handler :=
  st0 <- get_state ;;
  started_at <- begin_step ;;
  st1 <- get_state ;;
  try_except
    (execute_upsert (initial_row step_detail st0 st1 started_at) initial_conflict ;;;
     func ;;;
     outcome <- completion_status step_detail (workflow_run_id st0) ;;
     completed_at <- now ;;
     rs <- get_state ;;
     execute_upsert
       (completion_row step_detail st0 rs started_at completed_at outcome)
       completion_conflict ;;;
     if negb (String.eqb (ts_string (task_state rs)) (value input_required)) then
       u <- new_uuid ;;
       modify (set_current_step_run_id (Some u))
     else ret tt)
    (fun e =>
       completed_at <- now ;;
       st <- get_state ;;
       execute_upsert
         (error_row step_detail st0 st started_at completed_at e)
         error_conflict ;;;
       raise e).

(* --------------------------------------------------------------------- *)
(** *** [timed] ([app/utils/decorators.py]) *)
(* --------------------------------------------------------------------- *)

(** The [finally] clause runs whether [func] returned or raised. The run
    state has neither [selected_tool] nor [step], so the message is the
    label and the duration. *)
Definition timed (log_label : string) (func : Handler) : Handler :=
  fun st w =>
    let '(r, st', w') := func st w in
    let msg := log_label +:+ " execution time: "
                 +:+ duration_text (timed_calls w') +:+ " seconds" in
    (r, set_event_log (event_log st' ++ [msg]) st', tick_timed w').

End Journal.

(* ===================================================================== *)
(** ** Graph construction ([WorkflowExecutor.build_graph]) *)
(* ===================================================================== *)

(** What [build_graph] hands to LangGraph: the [add_node] calls in order,
    the entry edge, and the [add_conditional_edges] calls (source, path
    function, target names). *)
Record Graph : Type := {
  g_nodes : list (string * Handler);
  g_entry : option string;
  g_cond_edges : list (string * (WorkflowState -> string * WorkflowState) * gset string)
}.

(** Line 71: [{step.get("step_id"): step for step in steps}]. *)
Definition step_details (sts : list StepDetail) : gmap string StepDetail :=
  fold_left (fun m step => <[step_id step := step]> m) sts ∅.

Section Graph.
Context {ext : Externals}.

(** Lines 90-102: the handler of a node, with its two decorators. *)
Definition node_handler (step_detail : StepDetail) : Handler :=
  if String.eqb (step_type step_detail) "USER_INPUT" then
    timed "User Input Step"
      (process_workflow_run step_detail (user_input_with_step step_detail))
  else if String.eqb (step_type step_detail) "FINAL_RESPONSE" then
    timed "Final Step"
      (process_workflow_run step_detail (final_response_with_step step_detail))
  else
    timed "System Control Step"
      (process_workflow_run step_detail (system_control_with_step step_detail)).

(** Lines 159-167: [possible_targets]. *)
Definition possible_targets (scope ids : list string) (next_step : option string)
    : gset string :=
  {[ END ]}
  ∪ (match next_step with
     | Some n => if negb (String.eqb n "") && bool_decide (n ∈ scope)
                 then {[ n ]} else ∅
     | None => ∅
     end)
  ∪ list_to_set ids.

Definition build_graph (ws : WorkflowState) : option Graph :=
  let ids := step_ids ws in
  let sts := steps ws in
  let start := start_step_id ws in
  match ids, sts with
  | [], _ | _, [] => None
  | _, _ =>
      let scope := step_ids_used_for_edges start ids in
      Some
        {| g_nodes :=
             omap (fun sid =>
                     match step_details sts !! sid with
                     | Some step_detail => Some (sid, node_handler step_detail)
                     | None => None
                     end) ids;
           g_entry := if truthy_str start then start else None;
           g_cond_edges :=
             if truthy_str start then
               map (fun sid =>
                      let next_step := step_to_next_get sts sid in
                      (sid, should_continue scope sid next_step,
                       possible_targets scope ids next_step))
                   scope
             else [] |}
  end.

(** A sequential reading of the compiled graph, used to run examples: the
    entry node's handler runs, then the path function of its conditional
    edge picks the successor, until [END] or a node without an outgoing
    edge; an exception of a node ends the run. [fuel] bounds the number of
    node visits (LangGraph's recursion limit). *)
Fixpoint drive (fuel : nat) (g : Graph) (cur : string) : M unit :=
  match fuel with
  | 0 => raise (Exn "GraphRecursionError" "Recursion limit reached")
  | S fuel' =>
      match list_find (fun n => fst n = cur) (g_nodes g) with
      | None => raise (Exn "ValueError" ("unknown node " +:+ cur))
      | Some (_, (_, handler)) =>
          handler ;;;
          match list_find (fun e => fst (fst e) = cur) (g_cond_edges g) with
          | None => ret tt
          | Some (_, (_, path, _)) =>
              st <- get_state ;;
              modify (fun _ => snd (path st)) ;;;
              if String.eqb (fst (path st)) END then ret tt
              else drive fuel' g (fst (path st))
          end
      end
  end.

Definition recursion_limit : nat := 25.

Definition sequential_ainvoke (g : Graph) (st : WorkflowState) (w : World)
    : result WorkflowState * World :=
  match g_entry g with
  | None => (Raise (Exn "ValueError" "Graph must have an entrypoint"), w)
  | Some entry =>
      match drive recursion_limit g entry st w with
      | (Ok _, st', w') => (Ok st', w')
      | (Raise e, _, w') => (Raise e, w')
      end
  end.

End Graph.

(* ===================================================================== *)
(** ** The workflow manager ([WorkflowManager.process_workflow]) *)
(* ===================================================================== *)

(** The inbound payload ([AgentInputMessage]); [is_new_conversation] is the
    caller's advisory flag. *)
Module AgentInputMessage.
Record t : Type := {
  workflow_id : option string;
  task_id : option string;
  context_id : option string;
  token : option string;
  input : option string;
  input_data : option (gmap string pyval);
  is_new_conversation : bool
}.
End AgentInputMessage.

(** The outbound reply ([AgentOutputMessage]). *)
Module AgentOutputMessage.
Record t : Type := {
  output : pyval;
  task_state : task_state_field;
  status : string;
  event_log : list string;
  workflow_id : option string;
  workflow_name : option string
}.
End AgentOutputMessage.

(** A workflow definition as the catalogue returns it. *)
Record Workflow : Type := {
  wf_name : option string;                       (* "name" *)
  wf_exit_keywords : option (list string);       (* "workflow_exit_keywords" *)
  wf_steps : list StepDetail                     (* "steps" *)
}.

Definition is_pending (run_id : option string) (r : JournalRow) : bool :=
  bool_decide (r_workflow_run_id r = run_id)
  && String.eqb (r_status r) (value input_required).

(** Modelled from the spec: [WorkflowService.get_input_required_step]
    ([app/utils/workflow_service.py] is not among the sources). Section 4.E:
    for a workflow-run-id, return the most recent row with status
    input-required. Most recent is read as the latest [started_at], the
    later row of the table on a tie. *)
Definition get_input_required_step (tbl : list JournalRow) (run_id : option string)
    : option JournalRow :=
  fold_left
    (fun best r =>
       if is_pending run_id r then
         match best with
         | Some b =>
             if Z.leb (default 0%Z (r_started_at b)) (default 0%Z (r_started_at r))
             then Some r else Some b
         | None => Some r
         end
       else best)
    tbl None.

(** The user id of the identity reply: a string or nothing. *)
Definition as_opt_str (v : pyval) : option string :=
  match v with VStr s => Some s | _ => None end.

(** [tuple(user_roles)]: the role names of a list; anything but a list
    cannot be iterated. *)
Definition as_roles (v : pyval) : result (list string) :=
  match v with
  | VList l => Ok (omap as_opt_str l)
  | _ => Raise (Exn "TypeError" "object is not iterable")
  end.

Section Manager.
Context {ext : Externals}.

(** The catalogue read [get_steps_by_workflow_id(workflow_id, roles)]
    (memoised; the service behind it is not among the sources). *)
Variable get_steps_by_workflow_id :
  option string -> list string -> result (option Workflow).

(** LangGraph: [graph.compile()] followed by [ainvoke(state)]. *)
Variable ainvoke : Graph -> WorkflowState -> World -> result WorkflowState * World.

(** Lines 28-41: the identity lookup through the tool server. *)
Definition get_user_info (token : option string) (w : World)
    : result (pyval * pyval) * World :=
  let params := VDict {[ "token" := of_opt_str token ]} in
  let w' := tick_tool (log_call (CallTool (Some "get_user_info") params) w) in
  match mcp_call_tool (tool_calls w) (Some "get_user_info") params with
  | ToolTimeout => (Raise (Exn "TimeoutError" ""), w')
  | ToolRaise e => (Raise e, w')
  | ToolText text =>
      match json_loads text with
      | Raise e => (Raise e, w')
      | Ok user_info =>
          match py_get user_info "output" (VDict ∅) with
          | Raise e => (Raise e, w')
          | Ok out =>
              match py_get out "data" (VDict ∅) with
              | Raise e => (Raise e, w')
              | Ok data =>
                  match py_get data "userId" VNone, py_get data "roles" (VList []) with
                  | Ok user_id, Ok user_roles => (Ok (user_id, user_roles), w')
                  | Raise e, _ | _, Raise e => (Raise e, w')
                  end
              end
          end
      end
  end.

(** Lines 110-114: the first step id that no step names as its successor. *)
Definition first_unreferenced (ids next_ids : list string) : option string :=
  head (filter (fun sid => sid ∉ next_ids) ids).

(** Lines 82-143: everything up to the construction of the run state. *)
Definition seed_state (agent_input : AgentInputMessage.t) (w : World)
    : result WorkflowState * World :=
  match get_user_info (AgentInputMessage.token agent_input) w with
  | (Raise e, w1) => (Raise e, w1)
  | (Ok (user_id, user_roles), w1) =>
      let workflow_run_id := AgentInputMessage.task_id agent_input in
      let input_required_data := get_input_required_step (journal w1) workflow_run_id in
      let workflow_id :=
        match input_required_data with
        | Some row => r_workflow_id row
        | None => AgentInputMessage.workflow_id agent_input
        end in
      let start_step_id :=
        match input_required_data with
        | Some row => Some (r_step_id row)
        | None => None
        end in
      let step_run_id :=
        match input_required_data with
        | Some row => r_step_run_id row
        | None => None
        end in
      let workflow_state_data :=
        match input_required_data with
        | Some row => r_workflow_state row
        | None => VDict ∅
        end in
      let is_new_conversation :=
        match input_required_data with
        | Some _ => false
        | None => true
        end in
      match as_roles user_roles with
      | Raise e => (Raise e, w1)
      | Ok roles =>
          match get_steps_by_workflow_id workflow_id roles with
          | Raise e => (Raise e, w1)
          | Ok None =>
              (Raise (Exn "ValueError"
                 ("Workflow '" +:+ fmt_opt workflow_id
                    +:+ "' not found or access denied for roles '"
                    +:+ py_str user_roles +:+ "'")), w1)
          | Ok (Some workflow) =>
              let steps := wf_steps workflow in
              let step_ids := map step_id steps in
              let next_step_ids := omap next_step_id steps in
              let start_step_id :=
                match start_step_id with
                | Some s => Some s
                | None => first_unreferenced step_ids next_step_ids
                end in
              match py_get workflow_state_data "workflow_name" VNone with
              | Raise e => (Raise e, w1)
              | Ok known_name =>
                  let scratch :=
                    match workflow_state_data with
                    | VDict d => d
                    | _ => ∅
                    end in
                  let scratch :=
                    if py_truthy known_name then scratch
                    else <["workflow_id" := of_opt_str workflow_id]>
                           (<["workflow_name" := of_opt_str (wf_name workflow)]> scratch) in
                  (Ok {| input := AgentInputMessage.input agent_input;
                         input_data :=
                           default ∅ (AgentInputMessage.input_data agent_input);
                         token := AgentInputMessage.token agent_input;
                         event_log := [];
                         context_id := None;
                         is_new_conversation := is_new_conversation;
                         status := "in_progress";
                         workflow_id := workflow_id;
                         workflow_run_id := workflow_run_id;
                         workflow_name := wf_name workflow;
                         worflow_exit_keywords := wf_exit_keywords workflow;
                         current_step_run_id := step_run_id;
                         go_to_step_id := None;
                         workflow_state := scratch;
                         task_state := TSStr (value working);
                         output := VDict ∅;
                         step_ids := step_ids;
                         next_step_ids := next_step_ids;
                         start_step_id := start_step_id;
                         steps := steps;
                         run_id := None;
                         user_id := as_opt_str user_id;
                         user_roles := roles |}, w1)
              end
          end
      end
  end.

(** Lines 146-158: build the graph, run it, project the final state. *)
Definition process_workflow (agent_input : AgentInputMessage.t) (w : World)
    : result AgentOutputMessage.t * World :=
  match seed_state agent_input w with
  | (Raise e, w1) => (Raise e, w1)
  | (Ok workflow_state, w1) =>
      match build_graph workflow_state with
      | None =>
          (Raise (Exn "AttributeError"
                    "'NoneType' object has no attribute 'ainvoke'"), w1)
      | Some graph =>
          match ainvoke graph workflow_state w1 with
          | (Raise e, w2) => (Raise e, w2)
          | (Ok final, w2) =>
              (Ok {| AgentOutputMessage.output := output final;
                     AgentOutputMessage.task_state := task_state final;
                     AgentOutputMessage.status := status final;
                     AgentOutputMessage.event_log := event_log final;
                     AgentOutputMessage.workflow_id := workflow_id final;
                     AgentOutputMessage.workflow_name := workflow_name final |}, w2)
          end
      end
  end.

End Manager.

(* ===================================================================== *)
(** ** A small instance of the libraries, to run the code on examples *)
(* ===================================================================== *)

(** The instance agrees with the Python libraries on the inputs the
    examples below use: templates made of literal text and [{{ name }}]
    placeholders over scalar values, conditions of the form
    [literal==literal], and the JSON texts listed in [json_table]. *)
Module Sample.

(** [str.lower] on ASCII. *)
Definition lower_ascii (c : ascii) : ascii :=
  let n := Ascii.nat_of_ascii c in
  if (65 <=? n)%nat && (n <=? 90)%nat then Ascii.ascii_of_nat (n + 32) else c.

Fixpoint lower (s : string) : string :=
  match s with
  | EmptyString => EmptyString
  | String c s' => String (lower_ascii c) (lower s')
  end.

(** The double quote. *)
Definition dq_char : ascii := Ascii.ascii_of_nat 34.
Definition dq : string := String dq_char EmptyString.

Fixpoint contains_char (c : ascii) (s : string) : bool :=
  match s with
  | EmptyString => false
  | String c' s' => Ascii.eqb c c' || contains_char c s'
  end.

(** [repr] of a string without backslashes: single quotes unless the text
    has a single quote and no double quote. *)
Definition repr_str (s : string) : string :=
  if contains_char "'"%char s && negb (contains_char dq_char s)
  then dq +:+ s +:+ dq
  else "'" +:+ s +:+ "'".

(** [str] of a scalar; containers are outside the instance. *)
Definition str (v : pyval) : string :=
  match v with
  | VNone => "None"
  | VBool true => "True"
  | VBool false => "False"
  | VInt z => pretty z
  | VStr s => s
  | VList _ => "[...]"
  | VDict _ => "{...}"
  end.

(** [repr] of a rule dictionary (keys in the order of the definition). *)
Definition repr_rule (r : OrchestrationRule) : string :=
  "{"
  +:+ match condition r with
      | Some c => "'condition': " +:+ repr_str c
      | None => ""
      end
  +:+ match condition r, go_to_step r with
      | Some _, Some _ => ", "
      | _, _ => ""
      end
  +:+ match go_to_step r with
      | Some g => "'go_to_step': " +:+ repr_str g
      | None => ""
      end
  +:+ "}".

(** A template cut into literal text and placeholders. *)
Inductive piece : Type :=
| Lit (text : string)
| Var (name : string).

Fixpoint reverse_onto (s acc : string) : string :=
  match s with
  | EmptyString => acc
  | String c s' => reverse_onto s' (String c acc)
  end.

Fixpoint drop_spaces (s : string) : string :=
  match s with
  | EmptyString => EmptyString
  | String c s' => if Ascii.eqb c " "%char then drop_spaces s' else s
  end.

(** [str.strip] of blanks. *)
Definition strip_spaces (s : string) : string :=
  reverse_onto (drop_spaces (reverse_onto (drop_spaces s) EmptyString)) EmptyString.

Definition snoc (s : string) (c : ascii) : string := s +:+ String c EmptyString.

(** [inside] tells whether the scan is between [{{] and [}}]; [acc] is the
    text read since the last delimiter. *)
Fixpoint scan (inside : bool) (acc : string) (s : string) : list piece :=
  match s with
  | EmptyString => if inside then [] else [Lit acc]
  | String c s' =>
      if inside then
        match s' with
        | String c' s'' =>
            if Ascii.eqb c "}"%char && Ascii.eqb c' "}"%char
            then Var (strip_spaces acc) :: scan false EmptyString s''
            else scan true (snoc acc c) s'
        | EmptyString => []
        end
      else
        match s' with
        | String c' s'' =>
            if Ascii.eqb c "{"%char && Ascii.eqb c' "{"%char
            then Lit acc :: scan true EmptyString s''
            else scan false (snoc acc c) s'
        | EmptyString => [Lit (snoc acc c)]
        end
  end.

Definition variables (t : string) : list string :=
  remove_dups (omap (fun p => match p with Var x => Some x | Lit _ => None end)
                    (scan false EmptyString t)).

(** Every text compiles; there must be one. *)
Definition from_string (t : option string) : result unit :=
  match t with
  | None => Raise (Exn "TypeError" "Can't compile non template nodes")
  | Some _ => Ok tt
  end.

(** Rendering: an undefined name renders as the empty text. *)
Definition render (t : option string) (context : gmap string pyval) : result string :=
  match t with
  | None => Raise (Exn "TypeError" "Can't compile non template nodes")
  | Some t =>
      Ok (foldr (fun p out =>
                   match p with
                   | Lit text => text +:+ out
                   | Var x => match context !! x with
                              | Some v => str v +:+ out
                              | None => out
                              end
                   end) EmptyString (scan false EmptyString t))
  end.

(** The text before and after the first [==]. *)
Fixpoint split_eq (acc : string) (s : string) : option (string * string) :=
  match s with
  | EmptyString => None
  | String c s' =>
      match s' with
      | String c' s'' =>
          if Ascii.eqb c "="%char && Ascii.eqb c' "="%char
          then Some (acc, s'')
          else split_eq (snoc acc c) s'
      | EmptyString => None
      end
  end.

Fixpoint all_digits (s : string) : bool :=
  match s with
  | EmptyString => true
  | String c s' =>
      let n := Ascii.nat_of_ascii c in
      (48 <=? n)%nat && (n <=? 57)%nat && all_digits s'
  end.

Fixpoint last_char (s : string) : option ascii :=
  match s with
  | EmptyString => None
  | String c EmptyString => Some c
  | String _ s' => last_char s'
  end.

(** An integer literal without a leading zero, or a single-quoted text
    without quotes inside. *)
Definition is_literal (s : string) : bool :=
  match s with
  | EmptyString => false
  | String c s' =>
      if Ascii.eqb c "'"%char then
        match last_char s' with
        | Some q =>
            Ascii.eqb q "'"%char
            && negb (contains_char "'"%char
                       (String.substring 0 (String.length s' - 1) s'))
        | None => false
        end
      else
        all_digits s
        && (negb (Ascii.eqb c "0"%char) || bool_decide (s' = EmptyString))
  end.

Definition is_letter (c : ascii) : bool :=
  let n := Ascii.nat_of_ascii c in
  ((65 <=? n)%nat && (n <=? 90)%nat) || ((97 <=? n)%nat && (n <=? 122)%nat)
  || (n =? 95)%nat.

Fixpoint all_name_chars (s : string) : bool :=
  match s with
  | EmptyString => true
  | String c s' =>
      let n := Ascii.nat_of_ascii c in
      (is_letter c || ((48 <=? n)%nat && (n <=? 57)%nat)) && all_name_chars s'
  end.

(** An identifier. *)
Definition is_name (s : string) : bool :=
  match s with
  | EmptyString => false
  | String c s' => is_letter c && all_name_chars s'
  end.

(** [eval] of [operand==operand]: two literals compare by kind and content;
    a bare name, being no variable of the handler, is not defined; any
    other text is outside the instance. *)
Definition eval (text : string) : result pyval :=
  match split_eq EmptyString text with
  | Some (l, r) =>
      let l := strip_spaces l in
      let r := strip_spaces r in
      if is_literal l then
        if is_literal r then Ok (VBool (String.eqb l r))
        else if is_name r
             then Raise (Exn "NameError" ("name '" +:+ r +:+ "' is not defined"))
             else Raise (Exn "SyntaxError" "invalid syntax")
      else if is_name l
           then Raise (Exn "NameError" ("name '" +:+ l +:+ "' is not defined"))
           else Raise (Exn "SyntaxError" "invalid syntax")
  | None => Raise (Exn "SyntaxError" "invalid syntax")
  end.

(** The reply of the sample tools: the text [{"r": 42}]. *)
Definition reply_text : string :=
  "{" +:+ dq +:+ "r" +:+ dq +:+ ": 42}".

(** The reply of [get_user_info]: the text
    [{"output": {"data": {"userId": "u1", "roles": ["admin"]}}}]. *)
Definition user_info_text : string :=
  "{" +:+ dq +:+ "output" +:+ dq +:+ ": {" +:+ dq +:+ "data" +:+ dq +:+ ": {"
    +:+ dq +:+ "userId" +:+ dq +:+ ": " +:+ dq +:+ "u1" +:+ dq +:+ ", "
    +:+ dq +:+ "roles" +:+ dq +:+ ": [" +:+ dq +:+ "admin" +:+ dq +:+ "]}}}".

(** The JSON texts of the examples and their values. *)
Definition json_table : list (string * pyval) :=
  [ ("{}", VDict ∅);
    ("42", VInt 42);
    (reply_text, VDict {[ "r" := VInt 42 ]});
    (user_info_text,
       VDict {[ "output" :=
         VDict {[ "data" :=
           VDict (<["userId" := VStr "u1"]>
                    {[ "roles" := VList [VStr "admin"] ]}) ]} ]}) ].

Definition loads (text : string) : result pyval :=
  match list_find (fun e => fst e = text) json_table with
  | Some (_, (_, v)) => Ok v
  | None => Raise (Exn "JSONDecodeError" "Expecting value: line 1 column 1 (char 0)")
  end.

(** A reference [$.key] read from a document. *)
Definition extract (doc path : pyval) : pyval :=
  match path, doc with
  | VStr (String "$" (String "." key)), VDict d => default VNone (d !! key)
  | _, _ => VNone
  end.

Definition is_reference (v : pyval) : bool :=
  match v with
  | VStr (String "$" (String "." _)) => true
  | _ => false
  end.

(** The references among the top-level leaves of a parameter object. *)
Definition resolve (params doc : pyval) : pyval :=
  match params with
  | VDict d => VDict ((fun v => if is_reference v then extract doc v else v) <$> d)
  | v => if is_reference v then extract doc v else v
  end.

(** The tool server of the examples: [slow] never answers in time, [down]
    fails, [get_user_info] knows one user, any other tool answers [{"r": 42}]. *)
Definition tool (n : nat) (name : option string) (params : pyval) : ToolOutcome :=
  match name with
  | Some "slow" => ToolTimeout
  | Some "down" => ToolRaise (Exn "ConnectionError" "All connection attempts failed")
  | Some "get_user_info" => ToolText user_info_text
  | _ => ToolText reply_text
  end.

#[export] Instance externals : Externals := {|
  py_lower := lower;
  py_str := str;
  rule_repr := repr_rule;
  find_undeclared_variables := fun t => Ok (variables t);
  jinja_from_string := from_string;
  jinja_render := render;
  py_eval := eval;
  json_loads := loads;
  json_dumps_str := fun s => dq +:+ s +:+ dq;
  resolve_jsonpath_in_params := resolve;
  extract_json_path_value := extract;
  mcp_call_tool := tool;
  datetime_now := fun n => Z.of_nat (1000 + n);
  uuid4 := fun n => "uuid-" +:+ pretty n;
  duration_text := fun _ => "0.00"
|}.

End Sample.

(* ===================================================================== *)
(** ** Vocabulary of the properties *)
(* ===================================================================== *)

(** [go-to-step-id] is set: it holds a non-empty step id. *)
Definition go_to_set (st : WorkflowState) (target : string) : Prop :=
  go_to_step_id st = Some target ∧ target ≠ "".

Definition go_to_unset (st : WorkflowState) : Prop :=
  go_to_step_id st = None ∨ go_to_step_id st = Some "".

(** The task states at which a run stops after a step: waiting for input,
    failed, or canceled. *)
Definition stops_run (st : WorkflowState) : Prop :=
  ts_string (task_state st) ∈ [value input_required; value failed; value canceled].

(** Two requests that agree on every field but the advisory flag. *)
Definition same_but_advisory (a1 a2 : AgentInputMessage.t) : Prop :=
  AgentInputMessage.workflow_id a1 = AgentInputMessage.workflow_id a2
  ∧ AgentInputMessage.task_id a1 = AgentInputMessage.task_id a2
  ∧ AgentInputMessage.context_id a1 = AgentInputMessage.context_id a2
  ∧ AgentInputMessage.token a1 = AgentInputMessage.token a2
  ∧ AgentInputMessage.input a1 = AgentInputMessage.input a2
  ∧ AgentInputMessage.input_data a1 = AgentInputMessage.input_data a2.

(** The journal has a pending input-required row for the run. *)
Definition has_pending_row (tbl : list JournalRow) (run_id : option string) : Prop :=
  ∃ r, r ∈ tbl ∧ r_workflow_run_id r = run_id ∧ r_status r = value input_required.

(** The sample workflow of the examples: [A] asks, [B] acts, [C] answers. *)
Definition sample_rule_x : OrchestrationRule :=
  {| condition := Some "'{{ selected }}'=='x'"; go_to_step := Some "C" |}.

Definition sample_A : StepDetail :=
  {| step_id := "A"; next_step_id := Some "B"; step_type := "USER_INPUT";
     failure_message := None;
     user_interaction :=
       Some {| user_message := Some "Pick a region";
               expected_data_key := ["selected"];
               orchestration_rules := Some [sample_rule_x] |};
     system_action_details := None |}.

Definition sample_B : StepDetail :=
  {| step_id := "B"; next_step_id := Some "C"; step_type := "SYSTEM_ACTION";
     failure_message := None;
     user_interaction := None;
     system_action_details :=
       Some {| sa_name := Some "lookup";
               sa_inputs := Some (VDict {[ "q" := VStr "$.selected" ]});
               sa_error_mapping := None;
               sa_success_mapping := None;
               sa_output_mapping := Some (VDict {[ "answer" := VStr "$.r" ]}) |} |}.

Definition sample_C : StepDetail :=
  {| step_id := "C"; next_step_id := None; step_type := "FINAL_RESPONSE";
     failure_message := None;
     user_interaction :=
       Some {| user_message := Some "Done: {{ answer }}";
               expected_data_key := [];
               orchestration_rules := None |};
     system_action_details := None |}.

(** A run state of the sample workflow, resumed at [A]. *)
Definition sample_state : WorkflowState :=
  {| input := None; input_data := ∅; token := Some "secret";
     event_log := []; context_id := None; is_new_conversation := false;
     status := "in_progress";
     workflow_id := Some "wf1"; workflow_run_id := Some "run1";
     workflow_name := Some "Sample";
     worflow_exit_keywords := Some ["quit"];
     current_step_run_id := Some "sr1"; go_to_step_id := None;
     workflow_state := ∅; task_state := TSStr (value working);
     output := VDict ∅;
     step_ids := ["A"; "B"; "C"]; next_step_ids := ["B"; "C"];
     start_step_id := Some "A";
     steps := [sample_A; sample_B; sample_C];
     run_id := None; user_id := Some "u1"; user_roles := ["admin"] |}.

(** The same state with the reply [QUIT]. *)
Definition sample_state_quit : WorkflowState :=
  {| input := Some "QUIT"; input_data := ∅; token := Some "secret";
     event_log := []; context_id := None; is_new_conversation := false;
     status := "in_progress";
     workflow_id := Some "wf1"; workflow_run_id := Some "run1";
     workflow_name := Some "Sample";
     worflow_exit_keywords := Some ["quit"];
     current_step_run_id := Some "sr1"; go_to_step_id := None;
     workflow_state := ∅; task_state := TSStr (value working);
     output := VDict ∅;
     step_ids := ["A"; "B"; "C"]; next_step_ids := ["B"; "C"];
     start_step_id := Some "A";
     steps := [sample_A; sample_B; sample_C];
     run_id := None; user_id := Some "u1"; user_roles := ["admin"] |}.

(** An empty reply text in a workflow whose exit keyword is the empty text. *)
Definition sample_state_blank : WorkflowState :=
  {| input := Some ""; input_data := ∅; token := Some "secret";
     event_log := []; context_id := None; is_new_conversation := false;
     status := "in_progress";
     workflow_id := Some "wf1"; workflow_run_id := Some "run1";
     workflow_name := Some "Sample";
     worflow_exit_keywords := Some [""];
     current_step_run_id := Some "sr1"; go_to_step_id := None;
     workflow_state := ∅; task_state := TSStr (value working);
     output := VDict ∅;
     step_ids := ["A"; "B"; "C"]; next_step_ids := ["B"; "C"];
     start_step_id := Some "A";
     steps := [sample_A; sample_B; sample_C];
     run_id := None; user_id := Some "u1"; user_roles := ["admin"] |}.

(** Step [A] with four rules: the first refers to a variable that is never
    supplied, the second does not hold for the reply [x], the third and the
    fourth both hold. *)
Definition rule_region : OrchestrationRule :=
  {| condition := Some "{{ region }}==1"; go_to_step := Some "B" |}.
Definition rule_y : OrchestrationRule :=
  {| condition := Some "'{{ selected }}'=='y'"; go_to_step := Some "B" |}.
Definition rule_x_late : OrchestrationRule :=
  {| condition := Some "'{{ selected }}'=='x'"; go_to_step := Some "B" |}.

Definition sample_A4 : StepDetail :=
  {| step_id := "A"; next_step_id := Some "B"; step_type := "USER_INPUT";
     failure_message := None;
     user_interaction :=
       Some {| user_message := Some "Pick a region";
               expected_data_key := ["selected"];
               orchestration_rules :=
                 Some [rule_region; rule_y; sample_rule_x; rule_x_late] |};
     system_action_details := None |}.

(** The sample state with the reply data [{selected: "x"}], before and
    after the reply is ingested. *)
Definition sample_state_x : WorkflowState :=
  set_input_data {[ "selected" := VStr "x" ]} sample_state.

Definition sample_state_x_ingested : WorkflowState :=
  set_workflow_state {[ "selected" := VStr "x" ]} sample_state_x.

(** Step [A] with the rule of scenario S4, whose condition renders the
    reply without quotes. *)
Definition rule_bare : OrchestrationRule :=
  {| condition := Some "{{ selected }}=='x'"; go_to_step := Some "C" |}.

Definition sample_A_bare : StepDetail :=
  {| step_id := "A"; next_step_id := Some "B"; step_type := "USER_INPUT";
     failure_message := None;
     user_interaction :=
       Some {| user_message := Some "Pick a region";
               expected_data_key := ["selected"];
               orchestration_rules := Some [rule_bare] |};
     system_action_details := None |}.

(** The sample workflow with the rule of scenario S4, a journal in which
    run [run1] waits for input at [A], and the second-turn request with
    the reply data [{selected: "x"}]. *)
Definition sample_workflow_bare : Workflow :=
  {| wf_name := Some "Sample"; wf_exit_keywords := Some ["quit"];
     wf_steps := [sample_A_bare; sample_B; sample_C] |}.

Definition sample_catalogue (wid : option string) (roles : list string)
    : result (option Workflow) :=
  if bool_decide (wid = Some "wf1") && bool_decide ("admin" ∈ roles)
  then Ok (Some sample_workflow_bare) else Ok None.

Definition sample_pending_row : JournalRow :=
  {| r_workflow_run_id := Some "run1"; r_step_run_id := Some "sr1";
     r_workflow_id := Some "wf1"; r_step_id := "A";
     r_started_at := Some 900%Z; r_completed_at := Some 901%Z;
     r_status := value input_required;
     r_workflow_state :=
       VDict (<["workflow_name" := VStr "Sample"]> {[ "workflow_id" := VStr "wf1" ]});
     r_success_response := None; r_error_response := None;
     r_created_at := Some 900%Z; r_created_by := Some "system";
     r_updated_at := Some 901%Z; r_updated_by := Some "system" |}.

Definition sample_world_pending : World :=
  {| journal := [sample_pending_row]; now_calls := 0; uuid_calls := 0;
     tool_calls := 0; timed_calls := 0; ext_calls := [] |}.

Definition sample_request (advisory : bool) : AgentInputMessage.t :=
  {| AgentInputMessage.workflow_id := Some "wf1";
     AgentInputMessage.task_id := Some "run1";
     AgentInputMessage.context_id := Some "ctx1";
     AgentInputMessage.token := Some "secret";
     AgentInputMessage.input := None;
     AgentInputMessage.input_data := Some {[ "selected" := VStr "x" ]};
     AgentInputMessage.is_new_conversation := advisory |}.

(** The text of the exception of scenario S4. *)
Definition sample_rule_error : string :=
  "Invalid orchestration rule data: "
    +:+ "{'condition': " +:+ Sample.dq +:+ "{{ selected }}=='x'" +:+ Sample.dq
    +:+ ", 'go_to_step': 'C'}, error: "
    +:+ "Failed to evaluate orchestration rule condition "
    +:+ "'{{ selected }}=='x'': name 'x' is not defined".

(** Step [A] with two rules over two variables, and the reply data
    [{a: 2, b: 1}]: the first rule is false, the second holds. *)
Definition rule_a : OrchestrationRule :=
  {| condition := Some "{{ a }}==1"; go_to_step := Some "B" |}.
Definition rule_b : OrchestrationRule :=
  {| condition := Some "{{ b }}==1"; go_to_step := Some "C" |}.

Definition sample_A_ab : StepDetail :=
  {| step_id := "A"; next_step_id := Some "B"; step_type := "USER_INPUT";
     failure_message := None;
     user_interaction :=
       Some {| user_message := Some "Pick a and b";
               expected_data_key := ["a"; "b"];
               orchestration_rules := Some [rule_a; rule_b] |};
     system_action_details := None |}.

Definition sample_state_ab : WorkflowState :=
  set_input_data (<["a" := VInt 2]> {[ "b" := VInt 1 ]}) sample_state.

(** Step [A] whose only rule lacks its [go_to_step]. *)
Definition sample_A_partial : StepDetail :=
  {| step_id := "A"; next_step_id := Some "B"; step_type := "USER_INPUT";
     failure_message := None;
     user_interaction :=
       Some {| user_message := Some "Pick a region";
               expected_data_key := ["selected"];
               orchestration_rules :=
                 Some [ {| condition := Some "{{ a }}==1"; go_to_step := None |} ] |};
     system_action_details := None |}.

(** Variants of the system action [B]: without inputs; with an output
    mapping onto the key [token]; with the tool [slow]; with a success
    mapping. *)
Definition system_step (name : string) (inputs success output : option pyval)
    : StepDetail :=
  {| step_id := "B"; next_step_id := Some "C"; step_type := "SYSTEM_ACTION";
     failure_message := None;
     user_interaction := None;
     system_action_details :=
       Some {| sa_name := Some name;
               sa_inputs := inputs;
               sa_error_mapping := None;
               sa_success_mapping := success;
               sa_output_mapping := output |} |}.

Definition sample_B_no_inputs : StepDetail :=
  system_step "lookup" None None (Some (VDict {[ "answer" := VStr "$.r" ]})).

Definition sample_B_token_output : StepDetail :=
  system_step "lookup" (Some (VDict {[ "q" := VStr "$.selected" ]})) None
    (Some (VDict {[ "token" := VStr "$.r" ]})).

Definition sample_B_slow : StepDetail :=
  system_step "slow" (Some (VDict {[ "q" := VStr "$.selected" ]})) None
    (Some (VDict {[ "answer" := VStr "$.r" ]})).

Definition sample_B_success : StepDetail :=
  system_step "lookup" (Some (VDict {[ "q" := VStr "$.selected" ]}))
    (Some (VDict {[ "x" := VStr "$.r" ]}))
    (Some (VDict {[ "answer" := VStr "$.r" ]})).

(** The sample state at [B]: the user's earlier reply named a colleague
    under the key [user_id]. *)
Definition sample_state_B : WorkflowState :=
  set_workflow_state
    (<["selected" := VStr "x"]> {[ "user_id" := VStr "bob" ]}) sample_state.

Definition sample_world : World :=
  {| journal := []; now_calls := 0; uuid_calls := 0; tool_calls := 0;
     timed_calls := 0; ext_calls := [] |}.

(** Scenario S1: the sample workflow in the catalogue, a first request for
    a fresh run, the world it leaves, and the second request with the
    reply data [{selected: "y"}]. *)
Definition sample_workflow : Workflow :=
  {| wf_name := Some "Sample"; wf_exit_keywords := Some ["quit"];
     wf_steps := [sample_A; sample_B; sample_C] |}.

Definition sample_catalogue_S1 (wid : option string) (roles : list string)
    : result (option Workflow) :=
  if bool_decide (wid = Some "wf1") && bool_decide ("admin" ∈ roles)
  then Ok (Some sample_workflow) else Ok None.

Definition sample_first_request : AgentInputMessage.t :=
  {| AgentInputMessage.workflow_id := Some "wf1";
     AgentInputMessage.task_id := Some "run1";
     AgentInputMessage.context_id := Some "ctx1";
     AgentInputMessage.token := Some "secret";
     AgentInputMessage.input := Some "hello";
     AgentInputMessage.input_data := None;
     AgentInputMessage.is_new_conversation := true |}.

Definition sample_world_after_first_turn : World :=
  Eval vm_compute in
    snd (process_workflow (ext := Sample.externals) sample_catalogue_S1
           sequential_ainvoke
           sample_first_request sample_world).

Definition sample_second_request : AgentInputMessage.t :=
  {| AgentInputMessage.workflow_id := Some "wf1";
     AgentInputMessage.task_id := Some "run1";
     AgentInputMessage.context_id := Some "ctx1";
     AgentInputMessage.token := Some "secret";
     AgentInputMessage.input := None;
     AgentInputMessage.input_data := Some {[ "selected" := VStr "y" ]};
     AgentInputMessage.is_new_conversation := true |}.

(** The world after more calls were recorded. *)
Definition log_calls (cs : list ExtCall) (w : World) : World :=
  {| journal := journal w; now_calls := now_calls w; uuid_calls := uuid_calls w;
     tool_calls := tool_calls w; timed_calls := timed_calls w;
     ext_calls := ext_calls w ++ cs |}.

Section RuleVocabulary.
Context {ext : Externals}.

(** A rule without [condition] or without [go_to_step]: the loop passes
    over it. *)
Definition rule_ignored (r : OrchestrationRule) : Prop :=
  condition r = None ∨ go_to_step r = None.

(** The condition [c] of the rule references a variable that the
    scratchpad [ctx] lacks. *)
Definition rule_skipped (ctx : gmap string pyval) (r : OrchestrationRule)
    (c : string) : Prop :=
  ∃ g tv x,
    condition r = Some c ∧ go_to_step r = Some g
    ∧ find_undeclared_variables c = Ok tv
    ∧ x ∈ tv ∧ ctx !! x = None.

(** The condition [c] of the rule has all its variables in [ctx], compiles
    and renders to [text]; [g] is the rule's target. *)
Definition rule_renders (ctx : gmap string pyval) (r : OrchestrationRule)
    (c text g : string) : Prop :=
  ∃ tv,
    condition r = Some c ∧ go_to_step r = Some g
    ∧ find_undeclared_variables c = Ok tv
    ∧ (∀ x, x ∈ tv → is_Some (ctx !! x))
    ∧ jinja_from_string (Some c) = Ok tt
    ∧ jinja_render (Some c) ctx = Ok text.

(** [passed_over ctx rules calls]: none of [rules] matches under [ctx], each
    being ignored, skipped, or evaluated to a falsy value; [calls] are the
    calls to the template engine and to [eval] that this takes, in order. *)
Inductive passed_over (ctx : gmap string pyval)
    : list OrchestrationRule -> list ExtCall -> Prop :=
| po_nil : passed_over ctx [] []
| po_ignored r rs cs :
    rule_ignored r → passed_over ctx rs cs →
    passed_over ctx (r :: rs) cs
| po_skipped r c rs cs :
    rule_skipped ctx r c → passed_over ctx rs cs →
    passed_over ctx (r :: rs) (CallParse c :: cs)
| po_falsy r c text g v rs cs :
    rule_renders ctx r c text g → py_eval text = Ok v → py_truthy v = false →
    passed_over ctx rs cs →
    passed_over ctx (r :: rs)
      (CallParse c :: CallRender (Some c) :: CallEval text :: cs).

End RuleVocabulary.

(** The sample run state with a given reply text, reply data, conversation
    flag and list of exit keywords. *)
Definition sample_turn (text : option string) (data : gmap string pyval)
    (fresh : bool) (keywords : option (list string)) : WorkflowState :=
  {| input := text; input_data := data; token := Some "secret";
     event_log := []; context_id := None; is_new_conversation := fresh;
     status := "in_progress";
     workflow_id := Some "wf1"; workflow_run_id := Some "run1";
     workflow_name := Some "Sample";
     worflow_exit_keywords := keywords;
     current_step_run_id := Some "sr1"; go_to_step_id := None;
     workflow_state := ∅; task_state := TSStr (value working);
     output := VDict ∅;
     step_ids := ["A"; "B"; "C"]; next_step_ids := ["B"; "C"];
     start_step_id := Some "A";
     steps := [sample_A; sample_B; sample_C];
     run_id := None; user_id := Some "u1"; user_roles := ["admin"] |}.

(** Step [A] asking for a confirmation. *)
Definition sample_A_confirm : StepDetail :=
  {| step_id := "A"; next_step_id := Some "B"; step_type := "USER_INPUT";
     failure_message := None;
     user_interaction :=
       Some {| user_message := Some "Proceed?";
               expected_data_key := ["confirm_action"];
               orchestration_rules := Some [sample_rule_x] |};
     system_action_details := None |}.


(** Lines 302-304 as a function of the state: each variable of the list is
    set to null in the scratchpad and in the reply data. *)
Definition reset_state (template_variables : list string) (st : WorkflowState)
    : WorkflowState :=
  fold_left
    (fun st temp_var =>
       set_input_data (<[temp_var := VNone]> (input_data st))
         (set_workflow_state (<[temp_var := VNone]> (workflow_state st)) st))
    template_variables st.

(** The sample state with the reply data [{selected: "y"}], before and
    after the reply is ingested. *)
Definition sample_state_y : WorkflowState :=
  set_input_data {[ "selected" := VStr "y" ]} sample_state.

Definition sample_state_y_ingested : WorkflowState :=
  set_workflow_state {[ "selected" := VStr "y" ]} sample_state_y.


(** More variants of the system action [B]: the tool [down]; an error
    mapping that reports an error whatever the reply, with the reply's [r]
    as the message. *)
Definition sample_B_down : StepDetail :=
  system_step "down" (Some (VDict {[ "q" := VStr "$.selected" ]})) None
    (Some (VDict {[ "answer" := VStr "$.r" ]})).

Definition sample_B_error : StepDetail :=
  {| step_id := "B"; next_step_id := Some "C"; step_type := "SYSTEM_ACTION";
     failure_message := None;
     user_interaction := None;
     system_action_details :=
       Some {| sa_name := Some "lookup";
               sa_inputs := Some (VDict {[ "q" := VStr "$.selected" ]});
               sa_error_mapping :=
                 Some (VDict (<["error_status" := VStr "error"]>
                                {[ "error_message" := VStr "$.r" ]}));
               sa_success_mapping := None;
               sa_output_mapping := Some (VDict {[ "answer" := VStr "$.r" ]}) |} |}.

(** The sample state at [C]: the scratchpad holds the answer, and a routing
    hint is left over. *)
Definition sample_state_C : WorkflowState :=
  set_go_to_step_id (Some "A")
    (set_workflow_state {[ "answer" := VInt 42 ]} sample_state).

(** Step [C] without a response template. *)
Definition sample_C_silent : StepDetail :=
  {| step_id := "C"; next_step_id := None; step_type := "FINAL_RESPONSE";
     failure_message := None;
     user_interaction := None;
     system_action_details := None |}.

(** The world a step's handler is entered with, when the state already has
    a step-run id: the clock was read once and the initial row is in the
    journal. *)
Definition sample_entered (sd : StepDetail) (st : WorkflowState) (w : World) : World :=
  let started_at := datetime_now (Externals := Sample.externals) (now_calls w) in
  set_journal
    (upsert (initial_row sd st st started_at)
            (initial_conflict (initial_row sd st st started_at))
            (journal w))
    (tick_now w).

(** The sample state after the tool [down] failed at [B]. *)
Definition sample_state_B_down : WorkflowState :=
  set_output (summary "All connection attempts failed")
    (set_task_state (TSStr (value failed))
       (set_workflow_state {[ "selected" := VStr "x" ]} sample_state_B)).

(** The sample state after the prompt of [A] on the first turn. *)
Definition sample_state_prompted : WorkflowState :=
  set_task_state (TSStr (value input_required))
    (set_output (summary "Pick a region")
       (set_go_to_step_id None (sample_turn (Some "hello") ∅ true (Some ["quit"])))).

(** What the request, the identity lookup and the catalogue put into the
    run state. *)
Definition run_definition (st : WorkflowState) :=
  (input st, token st, context_id st, is_new_conversation st, status st,
   workflow_id st, workflow_run_id st, workflow_name st,
   worflow_exit_keywords st, step_ids st, next_step_ids st, start_step_id st,
   steps st, run_id st, user_id st, user_roles st).

(** The part of the run state that belongs to the decorators: the
    definition of the run, the event log and the step-run id. *)
Definition handler_frame (st : WorkflowState) :=
  (run_definition st, event_log st, current_step_run_id st).

(** The part of the world that belongs to the decorators: the journal, the
    clock, the id generator and the timer. *)
Definition world_frame (w : World) :=
  (journal w, now_calls w, uuid_calls w, timed_calls w).

(** A computation that leaves [f] of the run state and [g] of the world as
    they are, whether it returns or raises. *)
Definition keeps {A F G : Type} (f : WorkflowState -> F) (g : World -> G)
    (m : M A) : Prop :=
  ∀ st w r st' w', m st w = (r, st', w') → f st' = f st ∧ g w' = g w.

(** The step-run id a step runs under (lines 35-36). *)
Definition step_run_key {ext : Externals} (st : WorkflowState) (w : World) : option string :=
  if truthy_str (current_step_run_id st) then current_step_run_id st
  else Some (uuid4 (uuid_calls w)).

(** The labels of the three [timed] decorators. *)
Definition timed_label (step_detail : StepDetail) : string :=
  if String.eqb (step_type step_detail) "USER_INPUT" then "User Input Step"
  else if String.eqb (step_type step_detail) "FINAL_RESPONSE" then "Final Step"
  else "System Control Step".

(** A catalogue that knows one workflow, whatever the id and the roles. *)
Definition sample_catalogue_of (wf : Workflow) (wid : option string)
    (roles : list string) : result (option Workflow) :=
  Ok (Some wf).

(** A workflow without steps, and one whose two steps name each other as
    the next step. *)
Definition sample_workflow_empty : Workflow :=
  {| wf_name := Some "Empty"; wf_exit_keywords := None; wf_steps := [] |}.

Definition sample_B_back : StepDetail :=
  {| step_id := "B"; next_step_id := Some "A"; step_type := "SYSTEM_ACTION";
     failure_message := None;
     user_interaction := None;
     system_action_details := None |}.

Definition sample_workflow_cycle : Workflow :=
  {| wf_name := Some "Cycle"; wf_exit_keywords := None;
     wf_steps := [sample_A; sample_B_back] |}.

(** The first request of scenario S1 for a workflow the catalogue does not
    have. *)
Definition sample_request_unknown : AgentInputMessage.t :=
  {| AgentInputMessage.workflow_id := Some "wf9";
     AgentInputMessage.task_id := Some "run1";
     AgentInputMessage.context_id := Some "ctx1";
     AgentInputMessage.token := Some "secret";
     AgentInputMessage.input := Some "hello";
     AgentInputMessage.input_data := None;
     AgentInputMessage.is_new_conversation := true |}.

(** A request with another workflow id. *)
Definition with_workflow_id (wid : option string) (a : AgentInputMessage.t)
    : AgentInputMessage.t :=
  {| AgentInputMessage.workflow_id := wid;
     AgentInputMessage.task_id := AgentInputMessage.task_id a;
     AgentInputMessage.context_id := AgentInputMessage.context_id a;
     AgentInputMessage.token := AgentInputMessage.token a;
     AgentInputMessage.input := AgentInputMessage.input a;
     AgentInputMessage.input_data := AgentInputMessage.input_data a;
     AgentInputMessage.is_new_conversation :=
       AgentInputMessage.is_new_conversation a |}.


(* ===================================================================== *)
(** * Properties *)
(* ===================================================================== *)

(** Membership in a list written out. *)
Ltac in_list :=
  repeat first [ apply list_elem_of_here | apply list_elem_of_further ].
Ltac not_in_list :=
  rewrite ?elem_of_cons, ?elem_of_nil; intuition discriminate.

(** ** Edge scope and the successor function *)

Lemma index_drop (s : string) (ids : list string) :
  s ∈ ids →
  ∃ pre, ids = pre ++ drop (index s ids) ids
         ∧ (s ∉ pre)
         ∧ head (drop (index s ids) ids) = Some s.
Proof.
  induction ids as [|y ids IH]; intros Hin.
  - by apply elem_of_nil in Hin.
  - simpl. destruct (String.eqb y s) eqn:E.
    + apply String.eqb_eq in E as ->. exists []. split; [done|].
      split; [apply not_elem_of_nil | done].
    + apply String.eqb_neq in E.
      apply elem_of_cons in Hin as [->|Hin]; [done|].
      destruct (IH Hin) as (pre & Heq & Hpre & Hhd).
      exists (y :: pre). split; [simpl; by rewrite <- Heq|].
      split; [|done].
      intros [->|?]%elem_of_cons; [done|by apply Hpre].
Qed.

(** The edge scope is the part of the step list that starts at the first
    occurrence of the start step. *)
Lemma step_ids_used_for_edges_from_start (s : string) (ids : list string) :
  s ∈ ids →
  ∃ pre, ids = pre ++ step_ids_used_for_edges (Some s) ids
         ∧ (s ∉ pre)
         ∧ head (step_ids_used_for_edges (Some s) ids) = Some s.
Proof.
  intros Hin. unfold step_ids_used_for_edges.
  rewrite bool_decide_eq_true_2 by done. by apply index_drop.
Qed.

(** Without a start step among the step ids, every step is in scope. *)
Lemma step_ids_used_for_edges_all (start : option string) (ids : list string) :
  (∀ s, start = Some s → s ∉ ids) →
  step_ids_used_for_edges start ids = ids.
Proof.
  intros Hout. unfold step_ids_used_for_edges.
  destruct start as [s|]; [|done].
  by rewrite bool_decide_eq_false_2 by (by apply Hout).
Qed.

Lemma step_to_next_fold (sts : list StepDetail) (m : gmap string (option string)) (sid : string) :
  sid ∉ map step_id sts →
  fold_left (fun m step => <[step_id step := next_step_id step]> m) sts m !! sid
  = m !! sid.
Proof.
  revert m. induction sts as [|sd sts IH]; intros m Hout; [done|].
  simpl in *. rewrite IH.
  - apply lookup_insert_ne. intros Heq. apply Hout, elem_of_cons. by left.
  - intros ?. apply Hout, elem_of_cons. by right.
Qed.

(** With distinct step ids, [step_to_next] gives each step its own
    [next_step_id]. *)
Lemma step_to_next_get_unique (sts : list StepDetail) (sd : StepDetail) :
  NoDup (map step_id sts) → sd ∈ sts →
  step_to_next_get sts (step_id sd) = next_step_id sd.
Proof.
  unfold step_to_next_get, step_to_next. generalize (∅ : gmap string (option string)).
  induction sts as [|sd' sts IH]; intros m Hnd Hin.
  - by apply elem_of_nil in Hin.
  - simpl in *. apply NoDup_cons in Hnd as [Hfresh Hnd].
    apply elem_of_cons in Hin as [->|Hin].
    + rewrite step_to_next_fold by done. by rewrite lookup_insert_eq.
    + by apply IH.
Qed.

Section GraphProperties.
Context {ext : Externals}.

Lemma build_graph_cond_edges (ws : WorkflowState) (g : Graph) :
  build_graph ws = Some g →
  g_cond_edges g =
    if truthy_str (start_step_id ws) then
      map (fun sid =>
             (sid,
              should_continue
                (step_ids_used_for_edges (start_step_id ws) (step_ids ws)) sid
                (step_to_next_get (steps ws) sid),
              possible_targets
                (step_ids_used_for_edges (start_step_id ws) (step_ids ws))
                (step_ids ws) (step_to_next_get (steps ws) sid)))
          (step_ids_used_for_edges (start_step_id ws) (step_ids ws))
    else [].
Proof.
  unfold build_graph. destruct (step_ids ws) eqn:Hi; [done|].
  destruct (steps ws) eqn:Hs; [done|].
  intros [= <-]. done.
Qed.

(** C1. For every conditional edge that [build_graph] adds (one per step in
    edge scope, the step ids from the start step onward) and every run
    state, the successor function decides by priority: a set
    [go_to_step_id] is returned and cleared on the state; otherwise a task
    state of input-required, failed or canceled gives [END]; otherwise the
    step's configured [next_step_id] is returned when it is set and in edge
    scope; otherwise [END]. *)
Theorem should_continue_priority
    (ws : WorkflowState) (g : Graph) (sid : string)
    (path : WorkflowState -> string * WorkflowState) (targets : gset string) :
  build_graph ws = Some g →
  (sid, path, targets) ∈ g_cond_edges g →
  let scope := step_ids_used_for_edges (start_step_id ws) (step_ids ws) in
  let configured := step_to_next_get (steps ws) sid in
  sid ∈ scope ∧
  (∀ s, start_step_id ws = Some s → s ∈ step_ids ws →
     ∃ pre, step_ids ws = pre ++ scope ∧ (s ∉ pre) ∧ head scope = Some s) ∧
  ∀ st : WorkflowState,
    (∀ target, go_to_set st target →
       path st = (target, set_go_to_step_id None st)
       ∧ go_to_step_id (snd (path st)) = None)
    ∧ (go_to_unset st → stops_run st → path st = (END, st))
    ∧ (go_to_unset st → ¬ stops_run st →
       ∀ n, configured = Some n → n ≠ "" → n ∈ scope → path st = (n, st))
    ∧ (go_to_unset st → ¬ stops_run st →
       (configured = None ∨ configured = Some ""
        ∨ ∃ n, configured = Some n ∧ n ∉ scope) →
       path st = (END, st)).
Proof.
  intros Hg Hin scope configured.
  rewrite (build_graph_cond_edges _ _ Hg) in Hin.
  destruct (truthy_str (start_step_id ws)); [|by apply elem_of_nil in Hin].
  apply list_elem_of_fmap in Hin as (sid' & [= -> -> ->] & Hscope).
  split; [done|].
  split.
  { intros s Hstart Hs. unfold scope. rewrite Hstart.
    by apply step_ids_used_for_edges_from_start. }
  intros st.
  fold scope. fold configured. unfold should_continue.
  assert (Hunset : go_to_unset st → truthy_str (go_to_step_id st) = false).
  { intros [->| ->]; done. }
  assert (Hstop : stops_run st ↔
            String.eqb (ts_string (task_state st)) (value input_required) = true
            ∨ (String.eqb (ts_string (task_state st)) (value failed)
               || String.eqb (ts_string (task_state st)) (value canceled)) = true).
  { unfold stops_run. rewrite !elem_of_cons, elem_of_nil, orb_true_iff.
    rewrite !String.eqb_eq. tauto. }
  split; [|split; [|split]].
  - intros target [Hgo Hne]. rewrite Hgo. simpl.
    by rewrite (proj2 (String.eqb_neq _ _) Hne).
  - intros Hu Hs. rewrite (Hunset Hu). apply Hstop in Hs as [-> | Hs]; [done|].
    destruct (String.eqb _ (value input_required)); [done|]. by rewrite Hs.
  - intros Hu Hs n Hn Hne Hscn. rewrite (Hunset Hu).
    destruct (String.eqb _ (value input_required)) eqn:E1;
      [exfalso; apply Hs, Hstop; by left|].
    destruct (_ || _) eqn:E2; [exfalso; apply Hs, Hstop; by right|].
    rewrite Hn, (proj2 (String.eqb_neq _ _) Hne). simpl.
    by rewrite bool_decide_eq_true_2.
  - intros Hu Hs Hcfg. rewrite (Hunset Hu).
    destruct (String.eqb _ (value input_required)) eqn:E1; [done|].
    destruct (_ || _) eqn:E2; [done|].
    destruct Hcfg as [-> | [-> | (n & -> & Hout)]]; [done|done|].
    rewrite bool_decide_eq_false_2 by done. by rewrite andb_false_r.
Qed.

End GraphProperties.

Section GraphSample.
Local Existing Instance Sample.externals.

(** The sample workflow resumed at [A]: the edge of [A] exists and follows
    the priority. *)
Lemma should_continue_priority_witness :
  ∃ g path targets,
    build_graph sample_state = Some g
    ∧ ("A", path, targets) ∈ g_cond_edges g
    ∧ path (set_go_to_step_id (Some "C") sample_state)
      = ("C", set_go_to_step_id None sample_state)
    ∧ path (set_task_state (TSStr (value failed)) sample_state)
      = (END, set_task_state (TSStr (value failed)) sample_state)
    ∧ path (set_task_state (TSStr (value completed)) sample_state)
      = ("B", set_task_state (TSStr (value completed)) sample_state).
Proof.
  destruct (build_graph sample_state) as [g|] eqn:Hg; [|discriminate Hg].
  pose proof (build_graph_cond_edges _ _ Hg) as He. simpl in He.
  eexists g, _, _. split; [done|].
  assert (Hin : ("A",
                 should_continue ["A"; "B"; "C"] "A" (Some "B"),
                 possible_targets ["A"; "B"; "C"] ["A"; "B"; "C"] (Some "B"))
                ∈ g_cond_edges g).
  { rewrite He. apply elem_of_cons. by left. }
  split; [exact Hin|].
  destruct (should_continue_priority sample_state g "A" _ _ Hg Hin) as (_ & _ & Hp).
  split; [|split].
  - destruct (Hp (set_go_to_step_id (Some "C") sample_state)) as (Hgo & _).
    by apply (Hgo "C").
  - destruct (Hp (set_task_state (TSStr (value failed)) sample_state))
      as (_ & Hstop & _).
    apply Hstop; [by left|]. unfold stops_run. simpl. in_list.
  - destruct (Hp (set_task_state (TSStr (value completed)) sample_state))
      as (_ & _ & Hnext & _).
    apply Hnext; [by left| | done | done |].
    + unfold stops_run. simpl. not_in_list.
    + simpl. in_list.
Defined.

End GraphSample.

(** ** The user-input handler *)

Ltac run_M :=
  unfold bind, ret, raise, modify, modify_world, get_state, get_world,
    lift_result, try_except, call_ext; simpl.

Section UserInputProperties.
Context {ext : Externals}.

Lemma truthy_str_Some (s : string) : s ≠ "" → truthy_str (Some s) = true.
Proof. intros Hne. simpl. by rewrite (proj2 (String.eqb_neq _ _) Hne). Qed.

Lemma exit_keyword_received_true (st : WorkflowState)
    (text keyword : string) (keywords : list string) :
  input st = Some text → text ≠ "" →
  worflow_exit_keywords st = Some keywords →
  keyword ∈ keywords → py_lower text = py_lower keyword →
  exit_keyword_received st = Ok true.
Proof.
  intros Hin Hne Hkw Hk Heq. unfold exit_keyword_received.
  rewrite Hin, (truthy_str_Some _ Hne), Hkw. simpl. f_equal.
  apply bool_decide_eq_true_2. rewrite Heq.
  apply list_elem_of_In, in_map. by apply list_elem_of_In.
Qed.

(** C4, as the code has it. At a USER_INPUT step, if the user's free text is
    not empty and equals one of the workflow's exit keywords up to case, the
    handler sets [task_state] to canceled and [output] to
    [{summary: "Workflow <id> (<name>) terminated."}] and returns: the
    scratchpad, the reply data and the routing hint are as before (nothing
    was ingested) and the world is unchanged (no template was parsed,
    rendered or evaluated). *)
Theorem exit_keyword_cancels (sd : StepDetail) (st : WorkflowState) (w : World)
    (text keyword : string) (keywords : list string) :
  input st = Some text → text ≠ "" →
  worflow_exit_keywords st = Some keywords →
  keyword ∈ keywords → py_lower text = py_lower keyword →
  ∃ st',
    user_input_with_step sd st w = (Ok tt, st', w)
    ∧ task_state st' = TSStr (value canceled)
    ∧ output st' =
        summary ("Workflow " +:+ fmt_opt (workflow_id st) +:+ " ("
                   +:+ fmt_opt (workflow_name st) +:+ ") terminated.")
    ∧ workflow_state st' = workflow_state st
    ∧ input_data st' = input_data st
    ∧ go_to_step_id st' = go_to_step_id st.
Proof.
  intros Hin Hne Hkw Hk Heq.
  pose proof (exit_keyword_received_true _ _ _ _ Hin Hne Hkw Hk Heq) as Hexit.
  unfold user_input_with_step. run_M. rewrite Hexit.
  eexists. split; [reflexivity|]. by repeat split.
Qed.

End UserInputProperties.

Section UserInputSample.
Local Existing Instance Sample.externals.

(** The second turn of scenario S2: the reply [QUIT] ends the sample run. *)
Lemma exit_keyword_cancels_witness :
  ∃ st',
    user_input_with_step sample_A sample_state_quit sample_world
      = (Ok tt, st', sample_world)
    ∧ task_state st' = TSStr (value canceled)
    ∧ output st' = summary "Workflow wf1 (Sample) terminated."
    ∧ workflow_state st' = workflow_state sample_state_quit
    ∧ input_data st' = input_data sample_state_quit
    ∧ go_to_step_id st' = go_to_step_id sample_state_quit.
Proof.
  apply (exit_keyword_cancels sample_A sample_state_quit sample_world
           "QUIT" "quit" ["quit"]);
    [reflexivity | discriminate | reflexivity | in_list | reflexivity].
Defined.

(** C4 as stated fails for an empty text: the empty text equals the exit
    keyword [""] up to case, yet the handler goes on (here it resumes,
    evaluates the rules and completes the step). *)
Lemma exit_keyword_empty_text :
  input sample_state_blank = Some ""
  ∧ worflow_exit_keywords sample_state_blank = Some [""]
  ∧ py_lower "" = py_lower ""
  ∧ ∃ st' w',
      user_input_with_step sample_A sample_state_blank sample_world
        = (Ok tt, st', w')
      ∧ task_state st' = TSStr (value completed)
      ∧ output st' = VDict ∅
      ∧ ext_calls w' = [CallParse "'{{ selected }}'=='x'"].
Proof.
  repeat split. eexists _, _. split; [vm_compute; reflexivity|]. by repeat split.
Qed.

End UserInputSample.

(** ** Orchestration rules *)

Lemma log_calls_nil (w : World) : log_calls [] w = w.
Proof. destruct w. unfold log_calls. simpl. by rewrite app_nil_r. Qed.

Lemma log_calls_log_calls (cs1 cs2 : list ExtCall) (w : World) :
  log_calls cs2 (log_calls cs1 w) = log_calls (cs1 ++ cs2) w.
Proof. unfold log_calls. simpl. by rewrite app_assoc. Qed.

Section RuleProperties.
Context {ext : Externals}.

Lemma missing_vars_nil (tv : list string) (ctx : gmap string pyval) :
  (∀ x, x ∈ tv → is_Some (ctx !! x)) → missing_vars tv ctx = [].
Proof.
  intros Hall. unfold missing_vars. induction tv as [|x tv IH]; [done|].
  rewrite filter_cons_False.
  - apply IH. intros y Hy. apply Hall, elem_of_cons. by right.
  - destruct (Hall x) as [v Hv]; [apply elem_of_cons; by left|]. by rewrite Hv.
Qed.

Lemma missing_vars_cons (tv : list string) (ctx : gmap string pyval) (x : string) :
  x ∈ tv → ctx !! x = None → ∃ y ys, missing_vars tv ctx = y :: ys.
Proof.
  intros Hx Hnone.
  assert (Hin : x ∈ missing_vars tv ctx) by (by apply list_elem_of_filter).
  destruct (missing_vars tv ctx) as [|y ys]; [by apply elem_of_nil in Hin|eauto].
Qed.

Lemma process_rule_ignored (r : OrchestrationRule) (tv : option (list string))
    (st : WorkflowState) (w : World) :
  rule_ignored r → process_rule r tv st w = (Ok (false, tv), st, w).
Proof.
  intros [Hc|Hg]; unfold process_rule; run_M.
  - by rewrite Hc.
  - rewrite Hg. by destruct (condition r).
Qed.

Lemma process_rule_skipped (r : OrchestrationRule) (c : string)
    (tv : option (list string)) (st : WorkflowState) (w : World) :
  rule_skipped (workflow_state st) r c →
  ∃ tv', process_rule r tv st w = (Ok (false, Some tv'), st, log_calls [CallParse c] w).
Proof.
  intros (g & tv' & x & Hc & Hg & Hv & Hx & Hnone). exists tv'.
  unfold process_rule. run_M. rewrite Hc, Hg, Hv.
  destruct (missing_vars_cons _ _ _ Hx Hnone) as (y & ys & ->). done.
Qed.

Lemma process_rule_falsy (r : OrchestrationRule) (c text g : string) (v : pyval)
    (tv : option (list string)) (st : WorkflowState) (w : World) :
  rule_renders (workflow_state st) r c text g →
  py_eval text = Ok v → py_truthy v = false →
  ∃ tv', process_rule r tv st w
         = (Ok (false, Some tv'), st,
            log_calls [CallParse c; CallRender (Some c); CallEval text] w).
Proof.
  intros (tv' & Hc & Hg & Hv & Hall & Hfs & Hr) He Hf. exists tv'.
  unfold process_rule. run_M. rewrite Hc, Hg, Hv.
  rewrite (missing_vars_nil _ _ Hall), Hfs, Hr, He, Hf.
  unfold log_calls, log_call. simpl. by rewrite <- !app_assoc.
Qed.

Lemma process_rule_truthy (r : OrchestrationRule) (c text g : string) (v : pyval)
    (tv : option (list string)) (st : WorkflowState) (w : World) :
  rule_renders (workflow_state st) r c text g →
  py_eval text = Ok v → py_truthy v = true →
  ∃ tv', process_rule r tv st w
         = (Ok (true, Some tv'), set_go_to_step_id (Some g) st,
            log_calls [CallParse c; CallRender (Some c); CallEval text] w).
Proof.
  intros (tv' & Hc & Hg & Hv & Hall & Hfs & Hr) He Hf. exists tv'.
  unfold process_rule. run_M. rewrite Hc, Hg, Hv.
  rewrite (missing_vars_nil _ _ Hall), Hfs, Hr, He, Hf.
  unfold log_calls, log_call. simpl. by rewrite <- !app_assoc.
Qed.

(** A rule whose evaluation raises: the loop body raises [ValueError] twice
    wrapped, and the state is as before. *)
Lemma process_rule_eval_raises (r : OrchestrationRule) (c text g : string) (e : exn)
    (tv : option (list string)) (st : WorkflowState) (w : World) :
  rule_renders (workflow_state st) r c text g →
  py_eval text = Raise e →
  process_rule r tv st w
  = (Raise (Exn "ValueError"
       ("Invalid orchestration rule data: " +:+ rule_repr r +:+ ", error: "
          +:+ ("Failed to evaluate orchestration rule condition '" +:+ c
                 +:+ "': " +:+ exn_msg e))),
     st, log_calls [CallParse c; CallRender (Some c); CallEval text] w).
Proof.
  intros (tv' & Hc & Hg & Hv & Hall & Hfs & Hr) He.
  unfold process_rule. run_M. rewrite Hc, Hg, Hv.
  rewrite (missing_vars_nil _ _ Hall), Hfs, Hr, He.
  unfold log_calls, log_call. simpl. by rewrite <- !app_assoc.
Qed.

(** The loop runs through rules that do not match, in list order, and
    leaves the state as it was. *)
Lemma rules_loop_passed_over (pre rest : list OrchestrationRule)
    (calls : list ExtCall) (tv : option (list string))
    (st : WorkflowState) (w : World) :
  passed_over (workflow_state st) pre calls →
  ∃ tv', rules_loop (pre ++ rest) tv st w = rules_loop rest tv' st (log_calls calls w).
Proof.
  intros Hpre. revert tv w.
  induction Hpre as [|r rs cs Hr _ IH|r c rs cs Hr _ IH|r c text g v rs cs Hr He Hf _ IH];
    intros tv w.
  - exists tv. by rewrite log_calls_nil.
  - destruct (IH tv w) as [tv' Htv']. exists tv'. simpl.
    unfold bind at 1. by rewrite (process_rule_ignored _ _ _ _ Hr).
  - destruct (process_rule_skipped r c tv st w Hr) as [tv1 H1].
    destruct (IH (Some tv1) (log_calls [CallParse c] w)) as [tv' Htv'].
    exists tv'. simpl. unfold bind at 1. rewrite H1. simpl.
    by rewrite Htv', log_calls_log_calls.
  - destruct (process_rule_falsy r c text g v tv st w Hr He Hf) as [tv1 H1].
    destruct (IH (Some tv1)
                (log_calls [CallParse c; CallRender (Some c); CallEval text] w))
      as [tv' Htv'].
    exists tv'. simpl. unfold bind at 1. rewrite H1. simpl.
    by rewrite Htv', log_calls_log_calls.
Qed.

End RuleProperties.

Section ResumeProperties.
Context {ext : Externals}.

Lemma evaluate_rules_cons (rules : list OrchestrationRule) :
  rules ≠ [] →
  evaluate_rules (Some rules)
  = bind (rules_loop rules None) reset_template_variables.
Proof. by destruct rules. Qed.

(** The reset changes the scratchpad and the reply data only. *)
Lemma reset_fold_fields (tv : list string) (st : WorkflowState) :
  let st' :=
    fold_left
      (fun st temp_var =>
         set_input_data (<[temp_var := VNone]> (input_data st))
           (set_workflow_state (<[temp_var := VNone]> (workflow_state st)) st))
      tv st in
  go_to_step_id st' = go_to_step_id st
  ∧ task_state st' = task_state st
  ∧ output st' = output st
  ∧ current_step_run_id st' = current_step_run_id st.
Proof.
  revert st. induction tv as [|x tv IH]; intros st; simpl; [done|].
  destruct (IH (set_input_data (<[x := VNone]> (input_data st))
                  (set_workflow_state (<[x := VNone]> (workflow_state st)) st)))
    as (-> & -> & -> & ->).
  done.
Qed.

(** C5. In resume mode the rules are evaluated in list order: the rules
    before the first match are passed over one after the other (a rule that
    references a variable absent from the scratchpad is only parsed, never
    rendered or evaluated), the first rule whose rendered condition
    evaluates truthy sets [go_to_step_id] to its [go_to_step], and the rules
    after it are not touched: the recorded calls end with that rule's
    evaluation. *)
Theorem first_matching_rule_wins
    (sd : StepDetail) (ui : UserInteraction)
    (pre post : list OrchestrationRule) (r : OrchestrationRule)
    (st st1 : WorkflowState) (w : World)
    (calls : list ExtCall) (c text g : string) (v : pyval) :
  user_interaction sd = Some ui →
  orchestration_rules ui = Some (pre ++ r :: post) →
  exit_keyword_received st = Ok false →
  resumes sd st = true →
  ingest_reply (expected_data_key ui) st w = (Ok false, st1, w) →
  passed_over (workflow_state st1) pre calls →
  rule_renders (workflow_state st1) r c text g →
  py_eval text = Ok v → py_truthy v = true →
  ∃ st' w',
    user_input_with_step sd st w = (Ok tt, st', w')
    ∧ go_to_step_id st' = Some g
    ∧ task_state st' = TSStr (value completed)
    ∧ ext_calls w'
      = ext_calls w ++ calls ++ [CallParse c; CallRender (Some c); CallEval text].
Proof.
  intros Hui Hrules Hexit Hres Hing Hpre Hr He Ht.
  destruct (rules_loop_passed_over pre (r :: post) calls None st1 w Hpre)
    as [tv1 Hloop].
  destruct (process_rule_truthy r c text g v tv1 st1 (log_calls calls w) Hr He Ht)
    as [tvr Hrule].
  unfold user_input_with_step. rewrite Hui, Hrules.
  unfold bind at 1. unfold get_state at 1.
  unfold bind at 1. unfold lift_result at 1. rewrite Hexit, Hres.
  unfold bind at 1. rewrite Hing.
  rewrite evaluate_rules_cons by (by destruct pre).
  unfold bind at 1. unfold bind at 1. rewrite Hloop.
  simpl rules_loop. unfold bind at 1. rewrite Hrule. simpl.
  unfold modify.
  eexists _, _. split; [reflexivity|]. simpl.
  destruct (reset_fold_fields tvr (set_go_to_step_id (Some g) st1))
    as (Hgo & _).
  split; [by rewrite Hgo|]. split; [done|]. by rewrite <- app_assoc.
Qed.

End ResumeProperties.

Section ResumeSample.
Local Existing Instance Sample.externals.

(** Four rules and the reply [{selected: "x"}]: the first rule is skipped,
    the second is false, the third wins, the fourth is never looked at. *)
Lemma first_matching_rule_wins_witness :
  ∃ st' w',
    user_input_with_step sample_A4 sample_state_x sample_world = (Ok tt, st', w')
    ∧ go_to_step_id st' = Some "C"
    ∧ task_state st' = TSStr (value completed)
    ∧ ext_calls w'
      = ext_calls sample_world
        ++ [CallParse "{{ region }}==1";
            CallParse "'{{ selected }}'=='y'";
            CallRender (Some "'{{ selected }}'=='y'");
            CallEval "'x'=='y'"]
        ++ [CallParse "'{{ selected }}'=='x'";
            CallRender (Some "'{{ selected }}'=='x'");
            CallEval "'x'=='x'"].
Proof.
  eapply (first_matching_rule_wins sample_A4 _ [rule_region; rule_y] [rule_x_late]
            sample_rule_x sample_state_x sample_state_x_ingested sample_world
            _ "'{{ selected }}'=='x'" "'x'=='x'" "C" (VBool true)).
  - reflexivity.
  - reflexivity.
  - reflexivity.
  - reflexivity.
  - vm_compute. reflexivity.
  - eapply po_skipped.
    { exists "B", ["region"], "region".
      split; [reflexivity|]. split; [reflexivity|]. split; [reflexivity|].
      split; [in_list|]. vm_compute. reflexivity. }
    eapply (po_falsy _ _ _ "'x'=='y'" "B" (VBool false)).
    { exists ["selected"].
      split; [reflexivity|]. split; [reflexivity|]. split; [reflexivity|].
      split; [|split; [reflexivity|vm_compute; reflexivity]].
      intros x Hx. apply list_elem_of_singleton in Hx as ->.
      vm_compute. eauto. }
    { reflexivity. }
    { reflexivity. }
    apply po_nil.
  - exists ["selected"].
    split; [reflexivity|]. split; [reflexivity|]. split; [reflexivity|].
    split; [|split; [reflexivity|vm_compute; reflexivity]].
    intros x Hx. apply list_elem_of_singleton in Hx as ->.
    vm_compute. eauto.
  - reflexivity.
  - reflexivity.
Defined.

End ResumeSample.

(** ** The journal wrapper *)

Lemma find_row_upsert (new : JournalRow) (upd : JournalRow -> JournalRow)
    (tbl : list JournalRow) :
  (∀ old, r_step_run_id (upd old) = r_step_run_id old) →
  find_row (r_step_run_id new) (upsert new upd tbl)
  = Some (match find_row (r_step_run_id new) tbl with
          | Some old => upd old
          | None => new
          end).
Proof.
  intros Hkey. induction tbl as [|r tbl IH]; simpl.
  - by rewrite bool_decide_eq_true_2.
  - destruct (bool_decide (r_step_run_id r = r_step_run_id new)) eqn:E; simpl.
    + apply bool_decide_eq_true_1 in E.
      by rewrite bool_decide_eq_true_2 by (by rewrite Hkey).
    + by rewrite E.
Qed.

(** The upsert never leaves two rows with one key. *)
Lemma upsert_keys_NoDup (new : JournalRow) (upd : JournalRow -> JournalRow)
    (tbl : list JournalRow) :
  (∀ old, r_step_run_id (upd old) = r_step_run_id old) →
  NoDup (map r_step_run_id tbl) →
  NoDup (map r_step_run_id (upsert new upd tbl)).
Proof.
  intros Hkey. induction tbl as [|r tbl IH]; simpl; intros Hnd.
  - apply NoDup_singleton.
  - apply NoDup_cons in Hnd as [Hr Hnd].
    destruct (bool_decide (r_step_run_id r = r_step_run_id new)) eqn:E; simpl.
    + rewrite Hkey. by apply NoDup_cons.
    + apply bool_decide_eq_false_1 in E. apply NoDup_cons. split; [|by apply IH].
      intros Hin. apply Hr. clear -Hin E Hkey.
      induction tbl as [|r' tbl IH]; simpl in *.
      * apply list_elem_of_singleton in Hin. congruence.
      * destruct (bool_decide (r_step_run_id r' = r_step_run_id new)); simpl in *.
        -- by rewrite Hkey in Hin.
        -- apply elem_of_cons in Hin as [->|Hin]; [by left|].
           right. by apply IH.
Qed.

Section JournalProperties.
Context {ext : Externals}.

(** The prologue always returns. *)
Lemma begin_step_ok (st : WorkflowState) (w : World) :
  ∃ t st1 w1, begin_step st w = (Ok t, st1, w1).
Proof.
  unfold begin_step, new_uuid, now. run_M.
  destruct (negb (truthy_str (current_step_run_id st))); simpl; eauto.
Qed.

(** A handler that raises: the wrapper writes the error row under the
    state's step-run id and raises the same exception. *)
Lemma process_workflow_run_raises (sd : StepDetail) (func : Handler)
    (st st1 st2 : WorkflowState) (w w1 w2 : World) (started_at : Z) (e : exn) :
  begin_step st w = (Ok started_at, st1, w1) →
  func st1
    (set_journal
       (upsert (initial_row sd st st1 started_at)
               (initial_conflict (initial_row sd st st1 started_at))
               (journal w1)) w1)
  = (Raise e, st2, w2) →
  process_workflow_run sd func st w
  = (Raise e, st2,
     set_journal
       (upsert (error_row sd st st2 started_at (datetime_now (now_calls w2)) e)
               (error_conflict
                  (error_row sd st st2 started_at (datetime_now (now_calls w2)) e))
               (journal w2))
       (tick_now w2)).
Proof.
  intros Hbegin Hfunc. unfold process_workflow_run.
  unfold bind at 1. unfold get_state at 1.
  unfold bind at 1. rewrite Hbegin.
  unfold bind at 1. unfold get_state at 1.
  unfold try_except.
  unfold bind at 1. unfold execute_upsert at 1. unfold modify_world at 1.
  unfold bind at 1. rewrite Hfunc.
  unfold now, execute_upsert. run_M. done.
Qed.

(** C8. If the handler raises, the journal wrapper upserts a row keyed by
    the current step-run id with status failed, a [completed_at] timestamp
    and the exception's text and type in [error_response], and raises the
    same exception again. *)
Theorem handler_exception_journaled (sd : StepDetail) (func : Handler)
    (st st1 st2 : WorkflowState) (w w1 w2 : World) (started_at : Z) (e : exn) :
  begin_step st w = (Ok started_at, st1, w1) →
  func st1
    (set_journal
       (upsert (initial_row sd st st1 started_at)
               (initial_conflict (initial_row sd st st1 started_at))
               (journal w1)) w1)
  = (Raise e, st2, w2) →
  ∃ w3 row d,
    process_workflow_run sd func st w = (Raise e, st2, w3)
    ∧ find_row (current_step_run_id st2) (journal w3) = Some row
    ∧ r_status row = value failed
    ∧ r_completed_at row = Some (datetime_now (now_calls w2))
    ∧ r_error_response row = Some (VDict d)
    ∧ d !! "error" = Some (VStr (exn_msg e))
    ∧ d !! "exception_type" = Some (VStr (exn_type e)).
Proof.
  intros Hbegin Hfunc.
  rewrite (process_workflow_run_raises _ _ _ _ _ _ _ _ _ _ Hbegin Hfunc).
  set (new := error_row sd st st2 started_at (datetime_now (now_calls w2)) e).
  pose proof (find_row_upsert new (error_conflict new) (journal w2)
                (fun old => eq_refl)) as Hfind.
  change (r_step_run_id new) with (current_step_run_id st2) in Hfind.
  eexists _, _, _. split; [reflexivity|]. split; [exact Hfind|].
  destruct (find_row (current_step_run_id st2) (journal w2)); simpl;
    (split; [done|]; split; [done|]; split; [reflexivity|]; split;
     by simplify_map_eq).
Qed.

End JournalProperties.

Section JournalSample.
Local Existing Instance Sample.externals.

(** The rule of scenario S4 on the reply [x]: its condition renders to
    [x=='x'], whose evaluation raises; the wrapper journals the failure of
    step run [sr1] and raises the handler's exception. *)
Lemma handler_exception_journaled_witness :
  ∃ st2 w2 w3 row d,
    process_workflow_run sample_A_bare (user_input_with_step sample_A_bare)
      sample_state_x sample_world
    = (Raise (Exn "ValueError" sample_rule_error), st2, w3)
    ∧ find_row (current_step_run_id st2) (journal w3) = Some row
    ∧ r_status row = value failed
    ∧ r_completed_at row = Some (datetime_now (now_calls w2))
    ∧ r_error_response row = Some (VDict d)
    ∧ d !! "error" = Some (VStr sample_rule_error)
    ∧ d !! "exception_type" = Some (VStr "ValueError").
Proof.
  eexists _, _.
  eapply (handler_exception_journaled sample_A_bare
            (user_input_with_step sample_A_bare) sample_state_x).
  - vm_compute. reflexivity.
  - vm_compute. reflexivity.
Defined.

End JournalSample.

(** ** A rule whose evaluation raises *)

Section RuleFailureProperties.
Context {ext : Externals}.

(** Ingesting a reply that is not a refusal touches the scratchpad only. *)
Lemma ingest_reply_fields (keys : list string) (st st1 : WorkflowState)
    (w w1 : World) :
  ingest_reply keys st w = (Ok false, st1, w1) →
  w1 = w
  ∧ task_state st1 = task_state st
  ∧ output st1 = output st
  ∧ go_to_step_id st1 = go_to_step_id st
  ∧ current_step_run_id st1 = current_step_run_id st
  ∧ input_data st1 = input_data st.
Proof.
  unfold ingest_reply. run_M.
  destruct (negb (bool_decide (input_data st = ∅)) && bool_decide (0 < length keys)).
  { intros [= <- <-]. done. }
  destruct (truthy_str (input st) && bool_decide (1 <= length keys)).
  - destruct keys as [|k keys]; [intros [= <- <-]; done|].
    destruct (String.eqb k "confirm_action"
              && bool_decide (py_lower (fmt_opt (input st)) ∈ ["no"; "n"]));
      [discriminate|].
    intros [= <- <-]. done.
  - intros [= <- <-]. done.
Qed.

Lemma user_input_rule_raises
    (sd : StepDetail) (ui : UserInteraction)
    (pre post : list OrchestrationRule) (r : OrchestrationRule)
    (st st1 : WorkflowState) (w : World)
    (calls : list ExtCall) (c text g : string) (e : exn) :
  user_interaction sd = Some ui →
  orchestration_rules ui = Some (pre ++ r :: post) →
  exit_keyword_received st = Ok false →
  resumes sd st = true →
  ingest_reply (expected_data_key ui) st w = (Ok false, st1, w) →
  passed_over (workflow_state st1) pre calls →
  rule_renders (workflow_state st1) r c text g →
  py_eval text = Raise e →
  user_input_with_step sd st w
  = (Raise (Exn "ValueError"
       ("Invalid orchestration rule data: " +:+ rule_repr r +:+ ", error: "
          +:+ ("Failed to evaluate orchestration rule condition '" +:+ c
                 +:+ "': " +:+ exn_msg e))),
     st1,
     log_calls (calls ++ [CallParse c; CallRender (Some c); CallEval text]) w).
Proof.
  intros Hui Hrules Hexit Hres Hing Hpre Hr He.
  destruct (rules_loop_passed_over pre (r :: post) calls None st1 w Hpre)
    as [tv1 Hloop].
  unfold user_input_with_step. rewrite Hui, Hrules.
  unfold bind at 1. unfold get_state at 1.
  unfold bind at 1. unfold lift_result at 1. rewrite Hexit, Hres.
  unfold bind at 1. rewrite Hing.
  rewrite evaluate_rules_cons by (by destruct pre).
  unfold bind at 1. unfold bind at 1. rewrite Hloop.
  simpl rules_loop. unfold bind at 1.
  rewrite (process_rule_eval_raises r c text g e tv1 st1 _ Hr He).
  by rewrite log_calls_log_calls.
Qed.

(** C7, as the code has it. When a rule's condition renders and its
    evaluation raises (no earlier rule having matched), the handler does not
    end the run: it raises [ValueError] carrying the rule and the error
    text, with [task_state] and [output] as they were when the step was
    entered; the journal wrapper records the step run as failed and raises
    the exception on to the caller. *)
Theorem rule_evaluation_failure_propagates
    (sd : StepDetail) (ui : UserInteraction)
    (pre post : list OrchestrationRule) (r : OrchestrationRule)
    (st0 st st1 : WorkflowState) (w0 wb : World) (started_at : Z)
    (calls : list ExtCall) (c text g : string) (e : exn) :
  user_interaction sd = Some ui →
  orchestration_rules ui = Some (pre ++ r :: post) →
  begin_step st0 w0 = (Ok started_at, st, wb) →
  let w :=
    set_journal
      (upsert (initial_row sd st0 st started_at)
              (initial_conflict (initial_row sd st0 st started_at))
              (journal wb)) wb in
  exit_keyword_received st = Ok false →
  resumes sd st = true →
  ingest_reply (expected_data_key ui) st w = (Ok false, st1, w) →
  passed_over (workflow_state st1) pre calls →
  rule_renders (workflow_state st1) r c text g →
  py_eval text = Raise e →
  ∃ w' row,
    process_workflow_run sd (user_input_with_step sd) st0 w0
    = (Raise (Exn "ValueError"
         ("Invalid orchestration rule data: " +:+ rule_repr r +:+ ", error: "
            +:+ ("Failed to evaluate orchestration rule condition '" +:+ c
                   +:+ "': " +:+ exn_msg e))),
       st1, w')
    ∧ task_state st1 = task_state st
    ∧ output st1 = output st
    ∧ go_to_step_id st1 = go_to_step_id st
    ∧ find_row (current_step_run_id st1) (journal w') = Some row
    ∧ r_status row = value failed.
Proof.
  intros Hui Hrules Hbegin w Hexit Hres Hing Hpre Hr He.
  pose proof (user_input_rule_raises sd ui pre post r st st1 w calls c text g e
                Hui Hrules Hexit Hres Hing Hpre Hr He) as Hraise.
  rewrite (process_workflow_run_raises _ _ _ _ _ _ _ _ _ _ Hbegin Hraise).
  destruct (ingest_reply_fields _ _ _ _ _ Hing) as (_ & Hts & Hout & Hgo & _).
  match goal with
  | |- context [upsert ?new _ ?tbl] =>
      pose proof (find_row_upsert new (error_conflict new) tbl
                    (fun old => eq_refl)) as Hfind
  end.
  eexists _, _. split; [reflexivity|].
  split; [done|]. split; [done|]. split; [done|].
  split; [exact Hfind|].
  match goal with
  | |- context [find_row ?k ?tbl] => by destruct (find_row k tbl)
  end.
Qed.

End RuleFailureProperties.

Section RuleFailureSample.
Local Existing Instance Sample.externals.

(** Scenario S4 with the reply [x]: the condition renders to [x=='x'] and
    the step raises. *)
Lemma rule_evaluation_failure_propagates_witness :
  ∃ st1 w' row,
    process_workflow_run sample_A_bare (user_input_with_step sample_A_bare)
      sample_state_x sample_world
    = (Raise (Exn "ValueError" sample_rule_error), st1, w')
    ∧ task_state st1 = TSStr (value working)
    ∧ output st1 = VDict ∅
    ∧ go_to_step_id st1 = None
    ∧ find_row (current_step_run_id st1) (journal w') = Some row
    ∧ r_status row = value failed.
Proof.
  exists sample_state_x_ingested.
  refine (rule_evaluation_failure_propagates sample_A_bare _ [] [] rule_bare
            sample_state_x sample_state_x sample_state_x_ingested
            sample_world (tick_now sample_world) 1000 []
            "{{ selected }}=='x'" "x=='x'" "C"
            (Exn "NameError" "name 'x' is not defined")
            _ _ _ _ _ _ _ _ _).
  - reflexivity.
  - reflexivity.
  - vm_compute. reflexivity.
  - reflexivity.
  - reflexivity.
  - vm_compute. reflexivity.
  - apply po_nil.
  - exists ["selected"].
    split; [reflexivity|]. split; [reflexivity|]. split; [reflexivity|].
    split; [|split; [reflexivity|vm_compute; reflexivity]].
    intros x Hx. apply list_elem_of_singleton in Hx as ->.
    vm_compute. eauto.
  - reflexivity.
Defined.

(** C7 as stated fails. On the second turn of scenario S4 the node of step
    [A] raises instead of returning a failed state: [task_state] is still
    working and [output] has no summary; run through the graph, the request
    ends in that exception, not in a reply. *)
Lemma rule_evaluation_failure_not_clean :
  (∃ st' w',
     node_handler sample_A_bare sample_state_x sample_world
     = (Raise (Exn "ValueError" sample_rule_error), st', w')
     ∧ task_state st' = TSStr (value working)
     ∧ output st' = VDict ∅)
  ∧ ∃ w',
      process_workflow sample_catalogue sequential_ainvoke
        (sample_request false) sample_world_pending
      = (Raise (Exn "ValueError" sample_rule_error), w').
Proof.
  split.
  - eexists _, _. split; [vm_compute; reflexivity|]. by split.
  - eexists. vm_compute. reflexivity.
Qed.

End RuleFailureSample.

(** ** The reset of the rule variables *)

Section ResetProperties.
Context {ext : Externals}.

(** What lines 302-304 do: the variables of the list they are given are
    null afterwards in the scratchpad and in the reply data; every other
    key is as before. *)
Lemma reset_fold_lookup (tv : list string) (st : WorkflowState) (x : string) :
  let st' :=
    fold_left
      (fun st temp_var =>
         set_input_data (<[temp_var := VNone]> (input_data st))
           (set_workflow_state (<[temp_var := VNone]> (workflow_state st)) st))
      tv st in
  (x ∈ tv →
   workflow_state st' !! x = Some VNone ∧ input_data st' !! x = Some VNone)
  ∧ (x ∉ tv →
     workflow_state st' !! x = workflow_state st !! x
     ∧ input_data st' !! x = input_data st !! x).
Proof.
  revert st. induction tv as [|y tv IH]; intros st; simpl.
  - split; [by intros ?%elem_of_nil|done].
  - specialize (IH (set_input_data (<[y := VNone]> (input_data st))
                      (set_workflow_state (<[y := VNone]> (workflow_state st)) st))).
    simpl in IH. destruct IH as [IHin IHout].
    destruct (decide (x ∈ tv)) as [Hx|Hx].
    + split; [intros _; by apply IHin|].
      intros Hout. exfalso. apply Hout, elem_of_cons. by right.
    + destruct (IHout Hx) as [-> ->]. split.
      * intros [->|?]%elem_of_cons; [|done]. by rewrite !lookup_insert_eq.
      * intros Hout. apply not_elem_of_cons in Hout as [Hne _].
        by rewrite !lookup_insert_ne.
Qed.

End ResetProperties.

Section ResetSample.
Local Existing Instance Sample.externals.

(** C2 on the code: two rules over [a] and [b] and the reply [{a: 2, b: 1}].
    Both rules are evaluated ([2==1] is false, [1==1] holds); afterwards
    only [b], the variable of the last rule the loop reached, is null:
    [a] keeps its value in the scratchpad and in the reply data. *)
Theorem rule_variables_reset_last_only :
  ∃ st' w',
    user_input_with_step sample_A_ab sample_state_ab sample_world = (Ok tt, st', w')
    ∧ ext_calls w'
      = [CallParse "{{ a }}==1"; CallRender (Some "{{ a }}==1"); CallEval "2==1";
         CallParse "{{ b }}==1"; CallRender (Some "{{ b }}==1"); CallEval "1==1"]
    ∧ go_to_step_id st' = Some "C"
    ∧ workflow_state st' !! "b" = Some VNone
    ∧ input_data st' !! "b" = Some VNone
    ∧ workflow_state st' !! "a" = Some (VInt 2)
    ∧ input_data st' !! "a" = Some (VInt 2).
Proof.
  eexists _, _. split; [vm_compute; reflexivity|].
  split; [reflexivity|]. split; [reflexivity|].
  repeat split; vm_compute; reflexivity.
Qed.

(** The same slip when no rule has both keys: the local was never bound and
    the handler raises. *)
Example reset_unbound_local :
  ∃ st' w',
    user_input_with_step sample_A_partial sample_state_x sample_world
    = (Raise (Exn "UnboundLocalError"
         "cannot access local variable 'template_variables' where it is not associated with a value"),
       st', w').
Proof. eexists _, _. vm_compute. reflexivity. Qed.

End ResetSample.

(** ** The system-action handler *)

Section SystemActionProperties.
Context {ext : Externals}.

(** The tool call reads the parameters and changes the world only. *)
Lemma call_tool_checked_state (name : option string) (p em : pyval)
    (st st1 : WorkflowState) (w w1 : World) (r : result pyval) :
  call_tool_checked name p em st w = (r, st1, w1) → st1 = st.
Proof.
  unfold call_tool_checked. run_M.
  destruct (mcp_call_tool (tool_calls w) name p) as [|e|text];
    [by intros [= _ <- _]|by intros [= _ <- _]|].
  destruct (json_loads text) as [out|e]; [|by intros [= _ <- _]].
  destruct (py_get _ "error_status" VNone) as [status|e]; [|by intros [= _ <- _]].
  destruct (is_VStr status "error"); [|by intros [= _ <- _]].
  destruct (py_get _ "error_message" _); by intros [= _ <- _].
Qed.

(** The output mapping writes exactly its own keys. *)
Lemma apply_output_mapping_lookup (d : gmap string pyval) (out : pyval)
    (ws : gmap string pyval) (k : string) :
  apply_output_mapping d out ws !! k
  = match d !! k with
    | Some json_path => Some (escape_extracted (extract_json_path_value out json_path))
    | None => ws !! k
    end.
Proof.
  unfold apply_output_mapping.
  apply (map_fold_weak_ind
           (fun r m => r !! k = match m !! k with
                                | Some json_path =>
                                    Some (escape_extracted
                                            (extract_json_path_value out json_path))
                                | None => ws !! k
                                end)).
  - by rewrite lookup_empty.
  - intros i x m r Hi IH. destruct (decide (i = k)) as [->|Hne].
    + by rewrite !lookup_insert_eq.
    + by rewrite !lookup_insert_ne.
Qed.

(** A success mapping with an entry: the first item already fails on the
    attribute [inputs]. *)
Lemma apply_success_mapping_raises (items : list (string * pyval)) (out : pyval)
    (st : WorkflowState) (w : World) :
  items ≠ [] →
  apply_success_mapping items out st w
  = (Raise (Exn "AttributeError" "'WorkflowState' object has no attribute 'inputs'"),
     st, w).
Proof. destruct items as [|[key json_path] items]; [done|]. intros _. reflexivity. Qed.

(** The three outcomes of lines 363-372. *)
Lemma resolve_tool_params_unparsed (tool_input : pyval) (e : exn)
    (st : WorkflowState) (w : World) :
  parse_tool_input tool_input = Raise e →
  resolve_tool_params tool_input st w = (Raise e, st, w).
Proof. intros Hp. unfold resolve_tool_params. run_M. by rewrite Hp. Qed.

Lemma resolve_tool_params_falsy (tool_input p : pyval)
    (st : WorkflowState) (w : World) :
  parse_tool_input tool_input = Ok p → py_truthy p = false →
  resolve_tool_params tool_input st w = (Ok p, st, w).
Proof. intros Hp Ht. unfold resolve_tool_params. run_M. by rewrite Hp, Ht. Qed.

Lemma resolve_tool_params_truthy (tool_input p : pyval)
    (st : WorkflowState) (w : World) :
  parse_tool_input tool_input = Ok p → py_truthy p = true →
  resolve_tool_params tool_input st w
  = (Ok (resolve_jsonpath_in_params p
           (VDict (<["user_id" := of_opt_str (user_id st)]>
                     (<["token" := of_opt_str (token st)]> (workflow_state st))))),
     set_workflow_state
       (delete "user_id"
          (delete "token"
             (<["user_id" := of_opt_str (user_id st)]>
                (<["token" := of_opt_str (token st)]> (workflow_state st))))) st,
     w).
Proof. intros Hp Ht. unfold resolve_tool_params. run_M. by rewrite Hp, Ht. Qed.

Lemma scrubbed_lookup (ws : gmap string pyval) (tok uid : pyval) (k : string) :
  delete "user_id" (delete "token" (<["user_id" := uid]> (<["token" := tok]> ws))) !! k
  = if decide (k = "token" ∨ k = "user_id") then None else ws !! k.
Proof.
  destruct (decide (k = "token" ∨ k = "user_id")) as [[->| ->]|Hne].
  - by rewrite lookup_delete_ne, lookup_delete_eq.
  - by rewrite lookup_delete_eq.
  - rewrite lookup_delete_ne, lookup_delete_ne, lookup_insert_ne, lookup_insert_ne;
      [done|intros <-; apply Hne; by left|intros <-; apply Hne; by right
      |intros <-; apply Hne; by left|intros <-; apply Hne; by right].
Qed.

(** After the resolution the scratchpad changes through the output
    mapping only. *)
Lemma invoke_and_map_scratch (sd : StepDetail) (p : pyval)
    (st st' : WorkflowState) (w w' : World) (r : result unit) :
  invoke_and_map sd p st w = (r, st', w') →
  workflow_state st' = workflow_state st
  ∨ ∃ d out,
      sa_output_mapping (default no_system_action (system_action_details sd))
      = Some (VDict d)
      ∧ workflow_state st' = apply_output_mapping d out (workflow_state st).
Proof.
  unfold invoke_and_map.
  set (sa := default no_system_action (system_action_details sd)).
  unfold bind at 1. unfold try_except. unfold bind at 1.
  destruct (call_tool_checked (sa_name sa) p (default (VDict ∅) (sa_error_mapping sa)) st w)
    as [[[out|e] st1] w1] eqn:Hcall;
    apply call_tool_checked_state in Hcall as ->.
  - unfold ret at 1. unfold bind at 1.
    destruct (default (VDict ∅) (sa_success_mapping sa)) as [| | | | |sm] eqn:Hsm.
    6: { destruct (map_to_list sm) as [|item items] eqn:Hitems.
         2: { rewrite apply_success_mapping_raises by done.
              intros [= _ <- _]. by left. }
         simpl. unfold ret at 1. unfold bind at 1.
         destruct (sa_output_mapping sa) as [[| | | | |d]|] eqn:Hout; run_M;
           intros [= _ <- _]; try (by left).
         right. by exists d, out. }
    all: unfold ret at 1; unfold bind at 1;
      destruct (sa_output_mapping sa) as [[| | | | |d]|] eqn:Hout; run_M;
      intros [= _ <- _]; try (by left); right; by exists d, out.
  - destruct (String.eqb (exn_type e) "TimeoutError"); run_M;
      intros [= _ <- _]; by left.
Qed.

(** C3, as the code has it. (1) When the step has truthy inputs, [token] and
    [user_id] are in the scratchpad for the JSON-path resolution only: the
    parameters are resolved against the scratchpad with the two entries
    added, and the rest of the handler, which calls the tool and applies the
    mappings, starts from a scratchpad without the two keys and with every
    other key as before. (2) When the step is over, returned or raised, one of the
    two keys is in the scratchpad only if [output_mapping] names it, or if
    the inputs were not truthy and the key was there before the step. *)
Theorem token_keys_scrubbed (sd : StepDetail) (st : WorkflowState) (w : World) :
  let sa := default no_system_action (system_action_details sd) in
  let tool_input := default VNone (sa_inputs sa) in
  (∀ p, parse_tool_input tool_input = Ok p → py_truthy p = true →
     ∃ st1 p',
       system_control_with_step sd st w = invoke_and_map sd p' st1 w
       ∧ p' = resolve_jsonpath_in_params p
                (VDict (<["user_id" := of_opt_str (user_id st)]>
                          (<["token" := of_opt_str (token st)]> (workflow_state st))))
       ∧ workflow_state st1 !! "token" = None
       ∧ workflow_state st1 !! "user_id" = None
       ∧ ∀ k, k ≠ "token" → k ≠ "user_id" →
              workflow_state st1 !! k = workflow_state st !! k)
  ∧ (∀ r st' w' k,
       system_control_with_step sd st w = (r, st', w') →
       k = "token" ∨ k = "user_id" →
       is_Some (workflow_state st' !! k) →
       (∃ d, sa_output_mapping sa = Some (VDict d) ∧ is_Some (d !! k))
       ∨ ((∀ p, parse_tool_input tool_input = Ok p → py_truthy p = false)
          ∧ is_Some (workflow_state st !! k))).
Proof.
  intros sa tool_input. split.
  - intros p Hp Ht. eexists _, _.
    unfold system_control_with_step. fold sa. fold tool_input.
    unfold bind at 1. rewrite (resolve_tool_params_truthy _ _ _ _ Hp Ht).
    split; [reflexivity|]. split; [reflexivity|]. simpl. rewrite !scrubbed_lookup.
    split; [by rewrite decide_True by (by left)|].
    split; [by rewrite decide_True by (by right)|].
    intros k Hk1 Hk2. rewrite scrubbed_lookup.
    by rewrite decide_False by (intros [?|?]; done).
  - intros r st' w' k. unfold system_control_with_step. fold sa. fold tool_input.
    unfold bind at 1.
    destruct (parse_tool_input tool_input) as [p|e] eqn:Hp.
    2: { rewrite (resolve_tool_params_unparsed _ _ _ _ Hp).
         intros [= _ <- _] _ Hk. right. split; [|done]. intros p' [=]. }
    destruct (py_truthy p) eqn:Ht.
    + rewrite (resolve_tool_params_truthy _ _ _ _ Hp Ht).
      intros Hrun Hk Hsome.
      apply invoke_and_map_scratch in Hrun as [Heq|(d & out & Hd & Heq)];
        rewrite Heq in Hsome; simpl in Hsome.
      * rewrite scrubbed_lookup, decide_True in Hsome by done.
        by destruct Hsome.
      * left. exists d. split; [done|].
        rewrite apply_output_mapping_lookup in Hsome.
        destruct (d !! k); [eauto|].
        rewrite scrubbed_lookup, decide_True in Hsome by done.
        by destruct Hsome.
    + rewrite (resolve_tool_params_falsy _ _ _ _ Hp Ht).
      intros Hrun Hk Hsome.
      apply invoke_and_map_scratch in Hrun as [Heq|(d & out & Hd & Heq)];
        rewrite Heq in Hsome.
      * right. split; [|done]. by intros p' [= <-].
      * rewrite apply_output_mapping_lookup in Hsome.
        destruct (d !! k) eqn:Hdk.
        -- left. exists d. split; [done|]. rewrite Hdk. eauto.
        -- right. split; [|done]. by intros p' [= <-].
Qed.

End SystemActionProperties.

Section SystemActionSample.
Local Existing Instance Sample.externals.

(** C3 as stated fails. A step without inputs leaves a [user_id] entry of
    the scratchpad where it was; and an output mapping onto [token] puts
    that key into the scratchpad after the tool call. Both steps return
    normally. *)
Lemma token_keys_present_after_step :
  (∃ st' w',
     system_control_with_step sample_B_no_inputs sample_state_B sample_world
     = (Ok tt, st', w')
     ∧ task_state st' = TSStr (value completed)
     ∧ workflow_state st' !! "user_id" = Some (VStr "bob"))
  ∧ (∃ st' w',
       system_control_with_step sample_B_token_output sample_state_B sample_world
       = (Ok tt, st', w')
       ∧ task_state st' = TSStr (value completed)
       ∧ workflow_state st' !! "token" = Some (VInt 42)).
Proof.
  split; eexists _, _; (split; [vm_compute; reflexivity|]);
    (split; [reflexivity|vm_compute; reflexivity]).
Qed.

(** Scenario S5 on the sample step [B]: the caller's [user_id] replaces the
    entry of the scratchpad during the resolution and is deleted with it. *)
Example system_action_sample :
  ∃ st' w',
    system_control_with_step sample_B sample_state_B sample_world = (Ok tt, st', w')
    ∧ task_state st' = TSStr (value completed)
    ∧ workflow_state st'
      = <["answer" := VInt 42]> {[ "selected" := VStr "x" ]}
    ∧ ext_calls w' = [CallTool (Some "lookup") (VDict {[ "q" := VStr "x" ]})].
Proof.
  eexists _, _. split; [vm_compute; reflexivity|].
  split; [reflexivity|]. split; vm_compute; reflexivity.
Qed.

End SystemActionSample.

(** ** Tool timeout and the success mapping *)

Section ToolProperties.
Context {ext : Externals}.

(** Lines 363-372 change the scratchpad only. *)
Lemma resolve_tool_params_fields (tool_input : pyval) (r : result pyval)
    (st st1 : WorkflowState) (w w1 : World) :
  resolve_tool_params tool_input st w = (r, st1, w1) →
  w1 = w ∧ task_state st1 = task_state st ∧ output st1 = output st.
Proof.
  destruct (parse_tool_input tool_input) as [p|e] eqn:Hp.
  - destruct (py_truthy p) eqn:Ht.
    + rewrite (resolve_tool_params_truthy _ _ _ _ Hp Ht). by intros [= _ <- <-].
    + rewrite (resolve_tool_params_falsy _ _ _ _ Hp Ht). by intros [= _ <- <-].
  - rewrite (resolve_tool_params_unparsed _ _ _ _ Hp). by intros [= _ <- <-].
Qed.

(** C6. When the tool session runs out of its 45-second budget, the handler
    sets [task_state] to failed and [output] to
    [{summary: "Tool execution timeout: <name>"}] and returns: the state is
    otherwise the one the resolution left, so neither the error mapping nor
    the success or output mapping was applied. *)
Theorem tool_timeout_fails (sd : StepDetail) (p : pyval)
    (st st1 : WorkflowState) (w w1 : World) :
  let sa := default no_system_action (system_action_details sd) in
  let tool_input := default VNone (sa_inputs sa) in
  resolve_tool_params tool_input st w = (Ok p, st1, w1) →
  mcp_call_tool (tool_calls w1) (sa_name sa) p = ToolTimeout →
  ∃ st',
    system_control_with_step sd st w
    = (Ok tt, st', tick_tool (log_call (CallTool (sa_name sa) p) w1))
    ∧ st' = set_output (summary ("Tool execution timeout: " +:+ fmt_opt (sa_name sa)))
              (set_task_state (TSStr (value failed)) st1)
    ∧ task_state st' = TSStr (value failed)
    ∧ output st' = summary ("Tool execution timeout: " +:+ fmt_opt (sa_name sa))
    ∧ workflow_state st' = workflow_state st1.
Proof.
  intros sa tool_input Hres Htool. eexists.
  unfold system_control_with_step. fold sa. fold tool_input.
  unfold bind at 1. rewrite Hres.
  unfold invoke_and_map. fold sa.
  unfold call_tool_checked. run_M. rewrite Htool. simpl.
  split; [reflexivity|]. by repeat split.
Qed.

(** C9. When [success_mapping] is a dictionary with an entry and the tool
    call succeeded, the handler raises [AttributeError] on
    [workflow_state.inputs], an attribute that the dataclasses do not
    declare: the state is the one the resolution left, so the output mapping
    was not applied and [task_state] was not set to completed. *)
Theorem success_mapping_raises (sd : StepDetail) (d : gmap string pyval)
    (p out : pyval) (st st1 st2 : WorkflowState) (w w1 w2 : World) :
  let sa := default no_system_action (system_action_details sd) in
  let tool_input := default VNone (sa_inputs sa) in
  sa_success_mapping sa = Some (VDict d) → d ≠ ∅ →
  resolve_tool_params tool_input st w = (Ok p, st1, w1) →
  call_tool_checked (sa_name sa) p (default (VDict ∅) (sa_error_mapping sa)) st1 w1
  = (Ok out, st2, w2) →
  system_control_with_step sd st w
  = (Raise (Exn "AttributeError" "'WorkflowState' object has no attribute 'inputs'"),
     st1, w2)
  ∧ ("inputs" ∉ declared_fields)
  ∧ task_state st1 = task_state st
  ∧ output st1 = output st.
Proof.
  intros sa tool_input Hsm Hne Hres Hcall.
  pose proof (call_tool_checked_state _ _ _ _ _ _ _ _ Hcall) as ->.
  destruct (resolve_tool_params_fields _ _ _ _ _ _ Hres) as (_ & Hts & Hout).
  split; [|split; [|done]].
  - unfold system_control_with_step. fold sa. fold tool_input.
    unfold bind at 1. rewrite Hres.
    unfold invoke_and_map. fold sa.
    unfold bind at 1. unfold try_except. unfold bind at 1. rewrite Hcall.
    unfold ret at 1. unfold bind at 1. rewrite Hsm. simpl.
    unfold bind at 1.
    rewrite apply_success_mapping_raises; [done|].
    by intros ?%map_to_list_empty_iff.
  - unfold declared_fields. not_in_list.
Qed.

End ToolProperties.

Section ToolSample.
Local Existing Instance Sample.externals.

(** Scenario S6: the tool [slow] never replies in time. *)
Lemma tool_timeout_fails_witness :
  ∃ st' w',
    system_control_with_step sample_B_slow sample_state_B sample_world
    = (Ok tt, st', w')
    ∧ task_state st' = TSStr (value failed)
    ∧ output st' = summary "Tool execution timeout: slow"
    ∧ workflow_state st' = {[ "selected" := VStr "x" ]}.
Proof.
  destruct (tool_timeout_fails sample_B_slow (VDict {[ "q" := VStr "x" ]})
              sample_state_B
              (set_workflow_state {[ "selected" := VStr "x" ]} sample_state_B)
              sample_world sample_world)
    as (st' & Hrun & Hst & Hts & Hout & Hws).
  - vm_compute. reflexivity.
  - reflexivity.
  - exists st', (tick_tool (log_call (CallTool (Some "slow") (VDict {[ "q" := VStr "x" ]}))
                             sample_world)).
    split; [exact Hrun|]. split; [exact Hts|]. split; [exact Hout|]. exact Hws.
Defined.

(** A success mapping with one entry after a successful call of [lookup]. *)
Lemma success_mapping_raises_witness :
  ∃ st1 w2,
    system_control_with_step sample_B_success sample_state_B sample_world
    = (Raise (Exn "AttributeError" "'WorkflowState' object has no attribute 'inputs'"),
       st1, w2)
    ∧ task_state st1 = TSStr (value working)
    ∧ workflow_state st1 !! "answer" = None.
Proof.
  destruct (success_mapping_raises sample_B_success {[ "x" := VStr "$.r" ]}
              (VDict {[ "q" := VStr "x" ]}) (VDict {[ "r" := VInt 42 ]})
              sample_state_B
              (set_workflow_state {[ "selected" := VStr "x" ]} sample_state_B)
              (set_workflow_state {[ "selected" := VStr "x" ]} sample_state_B)
              sample_world sample_world
              (tick_tool (log_call (CallTool (Some "lookup")
                                      (VDict {[ "q" := VStr "x" ]})) sample_world)))
    as (Hrun & _ & Hts & _).
  - reflexivity.
  - intros Hempty. by apply (f_equal (fun m => m !! "x")) in Hempty.
  - vm_compute. reflexivity.
  - vm_compute. reflexivity.
  - eexists _, _. split; [exact Hrun|]. split; [exact Hts|]. vm_compute. reflexivity.
Defined.

End ToolSample.

(** ** The workflow manager *)

Lemma is_pending_spec (run_id : option string) (r : JournalRow) :
  is_pending run_id r = true
  ↔ r_workflow_run_id r = run_id ∧ r_status r = value input_required.
Proof.
  unfold is_pending. rewrite andb_true_iff, bool_decide_eq_true, String.eqb_eq. done.
Qed.

Lemma get_input_required_step_fold (tbl : list JournalRow) (run_id : option string)
    (best : option JournalRow) :
  fold_left
    (fun best r =>
       if is_pending run_id r then
         match best with
         | Some b =>
             if Z.leb (default 0%Z (r_started_at b)) (default 0%Z (r_started_at r))
             then Some r else Some b
         | None => Some r
         end
       else best)
    tbl best = None
  ↔ best = None ∧ ∀ r, r ∈ tbl → is_pending run_id r = false.
Proof.
  revert best. induction tbl as [|r tbl IH]; intros best; simpl.
  - split; [intros ->; split; [done|by intros ? ?%elem_of_nil]|by intros [-> _]].
  - rewrite IH. destruct (is_pending run_id r) eqn:E.
    + split.
      * intros [Hbest _]. destruct best as [b|]; [|done].
        by destruct (Z.leb _ _).
      * intros [_ Hall]. specialize (Hall r (list_elem_of_here _ _)). congruence.
    + split.
      * intros [-> Hall]. split; [done|].
        intros r' [->|?]%elem_of_cons; [done|by apply Hall].
      * intros [-> Hall]. split; [done|].
        intros r' Hr'. apply Hall, elem_of_cons. by right.
Qed.

(** The probe finds nothing exactly when the journal has no pending
    input-required row for the run. *)
Lemma get_input_required_step_None (tbl : list JournalRow) (run_id : option string) :
  get_input_required_step tbl run_id = None ↔ ¬ has_pending_row tbl run_id.
Proof.
  unfold get_input_required_step. rewrite get_input_required_step_fold.
  unfold has_pending_row. split.
  - intros [_ Hall] (r & Hr & Hrun & Hst).
    specialize (Hall r Hr). assert (is_pending run_id r = true) by (by apply is_pending_spec).
    congruence.
  - intros Hno. split; [done|]. intros r Hr.
    destruct (is_pending run_id r) eqn:E; [|done].
    exfalso. apply Hno. exists r. split; [done|]. by apply is_pending_spec.
Qed.

Section ManagerProperties.
Context {ext : Externals}.
Variable get_steps_by_workflow_id :
  option string -> list string -> result (option Workflow).
Variable ainvoke : Graph -> WorkflowState -> World -> result WorkflowState * World.

(** The identity lookup does not write the journal. *)
Lemma get_user_info_journal (tok : option string) (w w1 : World)
    (r : result (pyval * pyval)) :
  get_user_info tok w = (r, w1) → journal w1 = journal w.
Proof.
  unfold get_user_info.
  destruct (mcp_call_tool _ _ _) as [|e|text]; [by intros [= _ <-]..|].
  destruct (json_loads text) as [info|e]; [|by intros [= _ <-]].
  destruct (py_get info _ _) as [out|e]; [|by intros [= _ <-]].
  destruct (py_get out _ _) as [data|e]; [|by intros [= _ <-]].
  destruct (py_get data "userId" VNone), (py_get data "roles" (VList []));
    by intros [= _ <-].
Qed.

(** The state that [process_workflow] builds does not depend on the
    advisory flag. *)
Lemma seed_state_advisory (a1 a2 : AgentInputMessage.t) (w : World) :
  same_but_advisory a1 a2 →
  seed_state get_steps_by_workflow_id a1 w = seed_state get_steps_by_workflow_id a2 w.
Proof.
  intros (Hwid & Htask & Hctx & Htok & Hin & Hdata).
  unfold seed_state. by rewrite Hwid, Htask, Htok, Hin, Hdata.
Qed.

(** C10. The [is_new_conversation] flag of the run state is true exactly
    when the journal has no pending input-required row for the
    workflow-run id; the advisory flag of the request is not read: two
    requests that differ in it only are processed alike, down to the reply
    and the final world. *)
Theorem is_new_conversation_from_probe (a1 a2 : AgentInputMessage.t) (w : World) :
  same_but_advisory a1 a2 →
  process_workflow get_steps_by_workflow_id ainvoke a1 w
  = process_workflow get_steps_by_workflow_id ainvoke a2 w
  ∧ ∀ st w1,
      seed_state get_steps_by_workflow_id a1 w = (Ok st, w1) →
      (is_new_conversation st = true
       ↔ ¬ has_pending_row (journal w) (AgentInputMessage.task_id a1)).
Proof.
  intros Hsame. split.
  - unfold process_workflow. by rewrite (seed_state_advisory a1 a2 w Hsame).
  - intros st w1. unfold seed_state.
    destruct (get_user_info (AgentInputMessage.token a1) w)
      as [[[uid roles]|e] wu] eqn:Hinfo; [|discriminate].
    apply get_user_info_journal in Hinfo as Hj. rewrite Hj.
    rewrite <- get_input_required_step_None.
    destruct (as_roles roles) as [rs|e]; [|discriminate].
    destruct (get_steps_by_workflow_id _ rs) as [[wf|]|e]; [|discriminate..].
    destruct (py_get _ "workflow_name" VNone) as [known|e]; [|discriminate].
    intros [= <- _]. simpl.
    destruct (get_input_required_step (journal w) (AgentInputMessage.task_id a1));
      split; done.
Qed.

End ManagerProperties.

Section ManagerSample.
Local Existing Instance Sample.externals.

(** The resumed run [run1], requested once with the advisory flag set and
    once without: the replies agree, and the run state is not a new
    conversation, as the journal has a pending row. *)
Lemma is_new_conversation_from_probe_witness :
  process_workflow sample_catalogue sequential_ainvoke
    (sample_request true) sample_world_pending
  = process_workflow sample_catalogue sequential_ainvoke
      (sample_request false) sample_world_pending
  ∧ ∃ st w1,
      seed_state sample_catalogue (sample_request true) sample_world_pending
      = (Ok st, w1)
      ∧ is_new_conversation st = false
      ∧ has_pending_row (journal sample_world_pending) (Some "run1").
Proof.
  destruct (is_new_conversation_from_probe sample_catalogue sequential_ainvoke
              (sample_request true) (sample_request false) sample_world_pending)
    as [Heq Hflag].
  { by repeat split. }
  split; [exact Heq|].
  destruct (seed_state sample_catalogue (sample_request true) sample_world_pending)
    as [[st|e] w1] eqn:Hseed; [|by vm_compute in Hseed].
  exists st, w1. split; [done|].
  assert (Hpending : has_pending_row (journal sample_world_pending) (Some "run1")).
  { exists sample_pending_row. split; [in_list|]. by split. }
  split; [|done].
  destruct (is_new_conversation st) eqn:E; [|done].
  exfalso. by apply (proj1 (Hflag st w1 eq_refl)).
Defined.

End ManagerSample.

(** ** Scenarios *)

Section Scenarios.
Local Existing Instance Sample.externals.

(** S1, first turn: the run is new, [A] prompts and the run is suspended;
    the journal holds the pending row of [A]. *)
Example scenario_first_turn :
  ∃ reply w',
    process_workflow sample_catalogue_S1 sequential_ainvoke
      sample_first_request sample_world = (Ok reply, w')
    ∧ AgentOutputMessage.task_state reply = TSStr (value input_required)
    ∧ AgentOutputMessage.output reply = summary "Pick a region"
    ∧ (r_step_id <$> get_input_required_step (journal w') (Some "run1")) = Some "A".
Proof.
  eexists _, _. split; [vm_compute; reflexivity|].
  split; [reflexivity|]. split; vm_compute; reflexivity.
Qed.

(** S1, second turn: the run resumes at [A] although the request calls it
    a new conversation; no rule matches the reply [y], so [B] calls the
    tool and [C] answers. *)
Example scenario_second_turn :
  ∃ reply w',
    process_workflow sample_catalogue_S1 sequential_ainvoke
      sample_second_request sample_world_after_first_turn = (Ok reply, w')
    ∧ AgentOutputMessage.task_state reply = TSStr (value completed)
    ∧ AgentOutputMessage.output reply = summary "Done: 42"
    ∧ map r_step_id (journal w') = ["A"; "B"; "C"]
    ∧ map r_status (journal w') = [value completed; value completed; value completed].
Proof.
  eexists _, _. split; [vm_compute; reflexivity|].
  split; [reflexivity|]. split; [vm_compute; reflexivity|].
  split; vm_compute; reflexivity.
Qed.

End Scenarios.

(* ===================================================================== *)
(** * Further properties of the handlers, the journal wrapper, the graph
      and the manager *)
(* ===================================================================== *)

(** ** The user-input handler: refusal, prompt, ingestion *)

Section UserInputMore.
Context {ext : Externals}.

(** X1. A resumed step whose first expected key is [confirm_action], a
    reply without data and a reply text that is [no] or [n] up to case: the
    text is stored under [confirm_action], the run is canceled with
    [{summary: "Action cancelled by user"}], and the handler returns at
    once: no rule is parsed or evaluated and the routing hint is as
    before. *)
Theorem confirmation_declined (sd : StepDetail) (ui : UserInteraction)
    (keys : list string) (text : string) (st : WorkflowState) (w : World) :
  user_interaction sd = Some ui →
  expected_data_key ui = "confirm_action" :: keys →
  exit_keyword_received st = Ok false →
  resumes sd st = true →
  input_data st = ∅ →
  input st = Some text → text ≠ "" →
  py_lower text ∈ ["no"; "n"] →
  user_input_with_step sd st w
  = (Ok tt,
     set_output (summary "Action cancelled by user")
       (set_task_state (TSStr (value canceled))
          (set_workflow_state
             (<["confirm_action" := VStr text]> (workflow_state st)) st)),
     w).
Proof.
  intros Hui Hkeys Hexit Hres Hdata Hin Hne Hno.
  unfold user_input_with_step. rewrite Hui, Hkeys.
  unfold bind at 1. unfold get_state at 1.
  unfold bind at 1. unfold lift_result at 1. rewrite Hexit, Hres.
  unfold bind at 1. unfold ingest_reply. run_M.
  rewrite Hdata, Hin. rewrite bool_decide_eq_true_2 by done. simpl.
  rewrite (proj2 (String.eqb_neq _ _) Hne). simpl.
  by rewrite bool_decide_eq_true_2 by done.
Qed.

(** X2. Outside resume mode (a new conversation, a step that is not the
    start step, or a pending routing hint) the handler prompts: the reply
    text and data are not ingested, no rule is evaluated, the routing hint
    is cleared, [output] is the rendered [user_message] parsed as JSON or
    else wrapped as [{summary: ...}], and [task_state] is input-required. *)
Theorem prompt_when_not_resuming (sd : StepDetail) (st : WorkflowState) (w : World)
    (rendered : string) :
  let message :=
    match user_interaction sd with
    | Some ui => user_message ui
    | None => None
    end in
  exit_keyword_received st = Ok false →
  resumes sd st = false →
  jinja_from_string message = Ok tt →
  jinja_render message (workflow_state st) = Ok rendered →
  ∃ st',
    user_input_with_step sd st w = (Ok tt, st', log_calls [CallRender message] w)
    ∧ task_state st' = TSStr (value input_required)
    ∧ go_to_step_id st' = None
    ∧ output st' = match json_loads rendered with
                   | Ok v => v
                   | Raise _ => summary rendered
                   end
    ∧ workflow_state st' = workflow_state st
    ∧ input_data st' = input_data st.
Proof.
  intros message Hexit Hres Hfs Hrender.
  unfold user_input_with_step.
  unfold bind at 1. unfold get_state at 1.
  unfold bind at 1. unfold lift_result at 1. rewrite Hexit, Hres.
  unfold prompt_user. fold message. run_M. rewrite Hfs, Hrender.
  eexists. split; [reflexivity|]. by repeat split.
Qed.

(** What lines 235-237 leave in the scratchpad. *)
Lemma ingest_input_data_lookup (keys : list string) (data ws : gmap string pyval)
    (k : string) :
  ingest_input_data keys data ws !! k
  = if decide (k ∈ keys)
    then match data !! k with
         | Some v => Some v
         | None => ws !! k
         end
    else ws !! k.
Proof.
  unfold ingest_input_data. revert ws.
  induction keys as [|key keys IH]; intros ws; cbn [fold_left].
  - by rewrite decide_False by apply not_elem_of_nil.
  - rewrite IH. destruct (decide (k = key)) as [->|Hne].
    + rewrite (decide_True (P := key ∈ key :: keys)) by apply list_elem_of_here.
      destruct (data !! key) as [v|] eqn:Hv.
      * rewrite lookup_insert_eq. by destruct (decide (key ∈ keys)).
      * by destruct (decide (key ∈ keys)).
    + assert (Hws : (match data !! key with
                     | Some v => <[key := v]> ws
                     | None => ws
                     end) !! k = ws !! k).
      { destruct (data !! key); [by rewrite lookup_insert_ne|done]. }
      rewrite Hws. destruct (decide (k ∈ keys)) as [Hin|Hout].
      * by rewrite decide_True by (by apply list_elem_of_further).
      * rewrite decide_False; [done|].
        intros [?|?]%elem_of_cons; done.
Qed.

(** X3. A reply that carries data, at a step that expects keys: exactly the
    expected keys that the data has are copied into the scratchpad, every
    other entry stays; the reply text is not stored, and the reply is never
    taken as a refusal, whatever the text says. *)
Theorem reply_data_copies_expected_keys (keys : list string)
    (st : WorkflowState) (w : World) :
  input_data st ≠ ∅ → keys ≠ [] →
  ∃ st',
    ingest_reply keys st w = (Ok false, st', w)
    ∧ (∀ k, workflow_state st' !! k
            = if decide (k ∈ keys)
              then match input_data st !! k with
                   | Some v => Some v
                   | None => workflow_state st !! k
                   end
              else workflow_state st !! k)
    ∧ task_state st' = task_state st
    ∧ output st' = output st.
Proof.
  intros Hdata Hkeys. unfold ingest_reply. run_M.
  rewrite bool_decide_eq_false_2 by done.
  rewrite bool_decide_eq_true_2 by (destruct keys; [done|simpl; lia]).
  simpl. eexists. split; [reflexivity|]. simpl.
  split; [intros k; apply ingest_input_data_lookup|done].
Qed.

(** X4. A step reached with a reply text while the workflow has no list of
    exit keywords (the catalogue's value is null): building the lower-cased
    list fails, and the handler raises [TypeError] before it reads the
    step, with the state and the world untouched. *)
Theorem exit_keywords_missing (sd : StepDetail) (st : WorkflowState) (w : World)
    (text : string) :
  input st = Some text → text ≠ "" →
  worflow_exit_keywords st = None →
  user_input_with_step sd st w
  = (Raise (Exn "TypeError" "'NoneType' object is not iterable"), st, w).
Proof.
  intros Hin Hne Hkw. unfold user_input_with_step, exit_keyword_received.
  run_M. rewrite Hin, Hkw. simpl.
  by rewrite (proj2 (String.eqb_neq _ _) Hne).
Qed.

End UserInputMore.

Section UserInputMoreSample.
Local Existing Instance Sample.externals.

(** Scenario S3: the reply [No] to a confirmation. *)
Lemma confirmation_declined_witness :
  user_input_with_step sample_A_confirm
    (sample_turn (Some "No") ∅ false (Some ["quit"])) sample_world
  = (Ok tt,
     set_output (summary "Action cancelled by user")
       (set_task_state (TSStr (value canceled))
          (set_workflow_state {[ "confirm_action" := VStr "No" ]}
             (sample_turn (Some "No") ∅ false (Some ["quit"])))),
     sample_world).
Proof.
  refine (confirmation_declined sample_A_confirm _ [] "No"
            (sample_turn (Some "No") ∅ false (Some ["quit"])) sample_world
            _ _ _ _ _ _ _ _).
  - reflexivity.
  - reflexivity.
  - vm_compute. reflexivity.
  - reflexivity.
  - reflexivity.
  - reflexivity.
  - discriminate.
  - vm_compute. in_list.
Defined.

(** The first turn of a run: the text [hello] is not stored. *)
Lemma prompt_when_not_resuming_witness :
  ∃ st',
    user_input_with_step sample_A
      (sample_turn (Some "hello") ∅ true (Some ["quit"])) sample_world
    = (Ok tt, st', log_calls [CallRender (Some "Pick a region")] sample_world)
    ∧ task_state st' = TSStr (value input_required)
    ∧ go_to_step_id st' = None
    ∧ output st' = summary "Pick a region"
    ∧ workflow_state st' = ∅
    ∧ input_data st' = ∅.
Proof.
  refine (prompt_when_not_resuming sample_A
            (sample_turn (Some "hello") ∅ true (Some ["quit"])) sample_world
            "Pick a region" _ _ _ _).
  - vm_compute. reflexivity.
  - reflexivity.
  - reflexivity.
  - reflexivity.
Defined.

(** The reply data [{selected: "x", other: 1}] with the text [no]: only
    [selected] is copied. *)
Lemma reply_data_copies_expected_keys_witness :
  ∃ st',
    ingest_reply ["selected"]
      (sample_turn (Some "no")
         (<["selected" := VStr "x"]> {[ "other" := VInt 1 ]}) false (Some ["quit"]))
      sample_world
    = (Ok false, st', sample_world)
    ∧ workflow_state st' !! "selected" = Some (VStr "x")
    ∧ workflow_state st' !! "other" = None.
Proof.
  destruct (reply_data_copies_expected_keys ["selected"]
              (sample_turn (Some "no")
                 (<["selected" := VStr "x"]> {[ "other" := VInt 1 ]})
                 false (Some ["quit"]))
              sample_world)
    as (st' & Hrun & Hlookup & _).
  - intros Hempty. by apply (f_equal (fun m => m !! "other")) in Hempty.
  - discriminate.
  - exists st'. split; [exact Hrun|].
    split; [rewrite Hlookup|rewrite Hlookup]; vm_compute; reflexivity.
Defined.

(** A workflow whose exit keywords are null, and the reply [hello]. *)
Lemma exit_keywords_missing_witness :
  user_input_with_step sample_A (sample_turn (Some "hello") ∅ false None) sample_world
  = (Raise (Exn "TypeError" "'NoneType' object is not iterable"),
     sample_turn (Some "hello") ∅ false None, sample_world).
Proof.
  apply (exit_keywords_missing sample_A (sample_turn (Some "hello") ∅ false None)
           sample_world "hello"); [reflexivity|discriminate|reflexivity].
Defined.

End UserInputMoreSample.

(** ** The user-input handler: the outcome of the rules *)

Section RuleOutcomes.
Context {ext : Externals}.

Lemma process_rule_truthy_vars (r : OrchestrationRule) (c text g : string) (v : pyval)
    (tv : option (list string)) (st : WorkflowState) (w : World) :
  rule_renders (workflow_state st) r c text g →
  py_eval text = Ok v → py_truthy v = true →
  ∃ tv', find_undeclared_variables c = Ok tv'
         ∧ process_rule r tv st w
           = (Ok (true, Some tv'), set_go_to_step_id (Some g) st,
              log_calls [CallParse c; CallRender (Some c); CallEval text] w).
Proof.
  intros (tv' & Hc & Hg & Hv & Hall & Hfs & Hr) He Hf. exists tv'.
  split; [done|].
  unfold process_rule. run_M. rewrite Hc, Hg, Hv.
  rewrite (missing_vars_nil _ _ Hall), Hfs, Hr, He, Hf.
  unfold log_calls, log_call. simpl. by rewrite <- !app_assoc.
Qed.

(** The binding of [template_variables] after rules that do not match: as
    before when none of them was parsed, bound otherwise. *)
Lemma rules_loop_passed_over_binding (pre rest : list OrchestrationRule)
    (calls : list ExtCall) (tv : option (list string))
    (st : WorkflowState) (w : World) :
  passed_over (workflow_state st) pre calls →
  ∃ tv', rules_loop (pre ++ rest) tv st w = rules_loop rest tv' st (log_calls calls w)
         ∧ (calls = [] → tv' = tv)
         ∧ (is_Some tv → is_Some tv')
         ∧ (calls ≠ [] → is_Some tv').
Proof.
  intros Hpre. revert tv w.
  induction Hpre as [|r rs cs Hr _ IH|r c rs cs Hr _ IH|r c text g v rs cs Hr He Hf _ IH];
    intros tv w.
  - exists tv. rewrite log_calls_nil. by repeat split.
  - destruct (IH tv w) as (tv' & Htv' & Hnil & Hsome & Hcons). exists tv'.
    split; [|done]. simpl.
    unfold bind at 1. by rewrite (process_rule_ignored _ _ _ _ Hr).
  - destruct (process_rule_skipped r c tv st w Hr) as [tv1 H1].
    destruct (IH (Some tv1) (log_calls [CallParse c] w))
      as (tv' & Htv' & _ & Hsome & _).
    exists tv'. split.
    { simpl. unfold bind at 1. rewrite H1. simpl.
      by rewrite Htv', log_calls_log_calls. }
    split; [done|]. split; intros _; apply Hsome; eauto.
  - destruct (process_rule_falsy r c text g v tv st w Hr He Hf) as [tv1 H1].
    destruct (IH (Some tv1)
                (log_calls [CallParse c; CallRender (Some c); CallEval text] w))
      as (tv' & Htv' & _ & Hsome & _).
    exists tv'. split.
    { simpl. unfold bind at 1. rewrite H1. simpl.
      by rewrite Htv', log_calls_log_calls. }
    split; [done|]. split; intros _; apply Hsome; eauto.
Qed.

(** The state a resumed step returns when a rule matches. *)
Lemma user_input_rule_matches
    (sd : StepDetail) (ui : UserInteraction)
    (pre post : list OrchestrationRule) (r : OrchestrationRule)
    (st st1 : WorkflowState) (w : World)
    (calls : list ExtCall) (c text g : string) (v : pyval) :
  user_interaction sd = Some ui →
  orchestration_rules ui = Some (pre ++ r :: post) →
  exit_keyword_received st = Ok false →
  resumes sd st = true →
  ingest_reply (expected_data_key ui) st w = (Ok false, st1, w) →
  passed_over (workflow_state st1) pre calls →
  rule_renders (workflow_state st1) r c text g →
  py_eval text = Ok v → py_truthy v = true →
  ∃ tv,
    find_undeclared_variables c = Ok tv
    ∧ user_input_with_step sd st w
      = (Ok tt,
         set_task_state (TSStr (value completed))
           (reset_state tv (set_go_to_step_id (Some g) st1)),
         log_calls (calls ++ [CallParse c; CallRender (Some c); CallEval text]) w).
Proof.
  intros Hui Hrules Hexit Hres Hing Hpre Hr He Ht.
  destruct (rules_loop_passed_over pre (r :: post) calls None st1 w Hpre)
    as [tv1 Hloop].
  destruct (process_rule_truthy_vars r c text g v tv1 st1 (log_calls calls w) Hr He Ht)
    as (tvr & Hvars & Hrule).
  exists tvr. split; [done|].
  unfold user_input_with_step. rewrite Hui, Hrules.
  unfold bind at 1. unfold get_state at 1.
  unfold bind at 1. unfold lift_result at 1. rewrite Hexit, Hres.
  unfold bind at 1. rewrite Hing.
  rewrite evaluate_rules_cons by (by destruct pre).
  unfold bind at 1. unfold bind at 1. rewrite Hloop.
  simpl rules_loop. unfold bind at 1. rewrite Hrule. simpl.
  unfold modify. by rewrite log_calls_log_calls.
Qed.

(** The state a resumed step returns when no rule matches. *)
Lemma user_input_no_rule_matches
    (sd : StepDetail) (ui : UserInteraction) (rules : list OrchestrationRule)
    (st st1 : WorkflowState) (w : World) (calls : list ExtCall) :
  user_interaction sd = Some ui →
  orchestration_rules ui = Some rules →
  exit_keyword_received st = Ok false →
  resumes sd st = true →
  ingest_reply (expected_data_key ui) st w = (Ok false, st1, w) →
  passed_over (workflow_state st1) rules calls →
  calls ≠ [] →
  ∃ tv,
    user_input_with_step sd st w
    = (Ok tt, set_task_state (TSStr (value completed)) (reset_state tv st1),
       log_calls calls w).
Proof.
  intros Hui Hrules Hexit Hres Hing Hpre Hcalls.
  destruct (rules_loop_passed_over_binding rules [] calls None st1 w Hpre)
    as (tv' & Hloop & _ & _ & Hsome).
  destruct (Hsome Hcalls) as [tv ->]. exists tv.
  rewrite app_nil_r in Hloop.
  unfold user_input_with_step. rewrite Hui, Hrules.
  unfold bind at 1. unfold get_state at 1.
  unfold bind at 1. unfold lift_result at 1. rewrite Hexit, Hres.
  unfold bind at 1. rewrite Hing.
  rewrite evaluate_rules_cons by (intros ->; by inversion Hpre).
  unfold bind at 1. unfold bind at 1. rewrite Hloop. reflexivity.
Qed.

Lemma reset_state_lookup (tv : list string) (st : WorkflowState) (x : string) :
  (x ∈ tv →
   workflow_state (reset_state tv st) !! x = Some VNone
   ∧ input_data (reset_state tv st) !! x = Some VNone)
  ∧ (x ∉ tv →
     workflow_state (reset_state tv st) !! x = workflow_state st !! x
     ∧ input_data (reset_state tv st) !! x = input_data st !! x).
Proof. apply reset_fold_lookup. Qed.

Lemma reset_state_fields (tv : list string) (st : WorkflowState) :
  go_to_step_id (reset_state tv st) = go_to_step_id st
  ∧ task_state (reset_state tv st) = task_state st
  ∧ output (reset_state tv st) = output st
  ∧ current_step_run_id (reset_state tv st) = current_step_run_id st.
Proof. apply reset_fold_fields. Qed.

(** X5. When a rule matches in resume mode, the template variables of that
    rule are null afterwards, in the scratchpad and in the reply data, and
    every other key of the two maps is as the ingestion of the reply left
    it. *)
Theorem matching_rule_variables_reset
    (sd : StepDetail) (ui : UserInteraction)
    (pre post : list OrchestrationRule) (r : OrchestrationRule)
    (st st1 : WorkflowState) (w : World)
    (calls : list ExtCall) (c text g : string) (v : pyval) :
  user_interaction sd = Some ui →
  orchestration_rules ui = Some (pre ++ r :: post) →
  exit_keyword_received st = Ok false →
  resumes sd st = true →
  ingest_reply (expected_data_key ui) st w = (Ok false, st1, w) →
  passed_over (workflow_state st1) pre calls →
  rule_renders (workflow_state st1) r c text g →
  py_eval text = Ok v → py_truthy v = true →
  ∃ st' w' tv,
    user_input_with_step sd st w = (Ok tt, st', w')
    ∧ find_undeclared_variables c = Ok tv
    ∧ (∀ x, x ∈ tv →
         workflow_state st' !! x = Some VNone ∧ input_data st' !! x = Some VNone)
    ∧ (∀ x, x ∉ tv →
         workflow_state st' !! x = workflow_state st1 !! x
         ∧ input_data st' !! x = input_data st1 !! x).
Proof.
  intros Hui Hrules Hexit Hres Hing Hpre Hr He Ht.
  destruct (user_input_rule_matches sd ui pre post r st st1 w calls c text g v
              Hui Hrules Hexit Hres Hing Hpre Hr He Ht) as (tv & Hvars & ->).
  eexists _, _, tv. split; [reflexivity|]. split; [done|]. simpl.
  split; intros x Hx.
  - by apply (reset_state_lookup tv (set_go_to_step_id (Some g) st1) x).
  - by apply (reset_state_lookup tv (set_go_to_step_id (Some g) st1) x).
Qed.

(** X6. The target of a matching rule overrides the step's own successor:
    applied to the state the handler returns, the successor function of any
    edge gives the rule's [go_to_step], whatever the configured next step
    and whether or not the target lies in the edge scope, and clears the
    hint. *)
Theorem matching_rule_overrides_next_step
    (sd : StepDetail) (ui : UserInteraction)
    (pre post : list OrchestrationRule) (r : OrchestrationRule)
    (st st1 : WorkflowState) (w : World)
    (calls : list ExtCall) (c text g : string) (v : pyval) :
  user_interaction sd = Some ui →
  orchestration_rules ui = Some (pre ++ r :: post) →
  exit_keyword_received st = Ok false →
  resumes sd st = true →
  ingest_reply (expected_data_key ui) st w = (Ok false, st1, w) →
  passed_over (workflow_state st1) pre calls →
  rule_renders (workflow_state st1) r c text g →
  py_eval text = Ok v → py_truthy v = true →
  g ≠ "" →
  ∃ st' w',
    user_input_with_step sd st w = (Ok tt, st', w')
    ∧ ∀ (scope : list string) (current : string) (next : option string),
        should_continue scope current next st' = (g, set_go_to_step_id None st').
Proof.
  intros Hui Hrules Hexit Hres Hing Hpre Hr He Ht Hg.
  destruct (user_input_rule_matches sd ui pre post r st st1 w calls c text g v
              Hui Hrules Hexit Hres Hing Hpre Hr He Ht) as (tv & Hvars & ->).
  eexists _, _. split; [reflexivity|]. intros scope current next.
  unfold should_continue. simpl.
  destruct (reset_state_fields tv (set_go_to_step_id (Some g) st1)) as (-> & _).
  simpl. by rewrite (proj2 (String.eqb_neq _ _) Hg).
Qed.

(** X7. When the rules are gone through without a match (at least one of
    them having been parsed), the step completes with the routing hint
    unset, so the successor function sends the run to the step's configured
    next step when that is set and in the edge scope. *)
Theorem no_matching_rule_follows_next_step
    (sd : StepDetail) (ui : UserInteraction) (rules : list OrchestrationRule)
    (st st1 : WorkflowState) (w : World) (calls : list ExtCall) :
  user_interaction sd = Some ui →
  orchestration_rules ui = Some rules →
  exit_keyword_received st = Ok false →
  resumes sd st = true →
  ingest_reply (expected_data_key ui) st w = (Ok false, st1, w) →
  passed_over (workflow_state st1) rules calls →
  calls ≠ [] →
  ∃ st',
    user_input_with_step sd st w = (Ok tt, st', log_calls calls w)
    ∧ task_state st' = TSStr (value completed)
    ∧ go_to_step_id st' = go_to_step_id st
    ∧ ∀ (scope : list string) (n : string),
        n ≠ "" → n ∈ scope →
        should_continue scope (step_id sd) (Some n) st' = (n, st').
Proof.
  intros Hui Hrules Hexit Hres Hing Hpre Hcalls.
  destruct (user_input_no_rule_matches sd ui rules st st1 w calls
              Hui Hrules Hexit Hres Hing Hpre Hcalls) as (tv & ->).
  destruct (ingest_reply_fields _ _ _ _ _ Hing) as (_ & _ & _ & Hgo & _).
  destruct (reset_state_fields tv st1) as (Hgo' & _).
  assert (Hunset : truthy_str (go_to_step_id st) = false).
  { unfold resumes in Hres. apply andb_true_iff in Hres as [_ Hres].
    by apply negb_true_iff in Hres. }
  eexists. split; [reflexivity|]. simpl.
  split; [done|]. split; [by rewrite Hgo', Hgo|].
  intros scope n Hn Hscope. unfold should_continue. simpl.
  rewrite Hgo', Hgo, Hunset. simpl.
  rewrite (proj2 (String.eqb_neq _ _) Hn). simpl.
  by rewrite bool_decide_eq_true_2.
Qed.

(** X8. A non-empty rule list in which every rule lacks [condition] or
    [go_to_step]: no rule is parsed, the local [template_variables] is
    never bound, and the handler raises [UnboundLocalError] at the reset,
    after the reply was ingested and before [task_state] is set. *)
Theorem malformed_rules_raise
    (sd : StepDetail) (ui : UserInteraction) (rules : list OrchestrationRule)
    (st st1 : WorkflowState) (w : World) :
  user_interaction sd = Some ui →
  orchestration_rules ui = Some rules →
  rules ≠ [] →
  Forall rule_ignored rules →
  exit_keyword_received st = Ok false →
  resumes sd st = true →
  ingest_reply (expected_data_key ui) st w = (Ok false, st1, w) →
  user_input_with_step sd st w
  = (Raise (Exn "UnboundLocalError"
       "cannot access local variable 'template_variables' where it is not associated with a value"),
     st1, w).
Proof.
  intros Hui Hrules Hne Hall Hexit Hres Hing.
  assert (Hpre : passed_over (workflow_state st1) rules []).
  { clear -Hall. induction Hall; [apply po_nil|by apply po_ignored]. }
  destruct (rules_loop_passed_over_binding rules [] [] None st1 w Hpre)
    as (tv' & Hloop & Hnil & _).
  rewrite (Hnil eq_refl), app_nil_r, log_calls_nil in Hloop.
  unfold user_input_with_step. rewrite Hui, Hrules.
  unfold bind at 1. unfold get_state at 1.
  unfold bind at 1. unfold lift_result at 1. rewrite Hexit, Hres.
  unfold bind at 1. rewrite Hing.
  rewrite evaluate_rules_cons by done.
  unfold bind at 1. unfold bind at 1. rewrite Hloop. reflexivity.
Qed.

End RuleOutcomes.

Section RuleOutcomesSample.
Local Existing Instance Sample.externals.

Lemma sample_skipped_then_false :
  passed_over (workflow_state sample_state_x_ingested) [rule_region; rule_y]
    [CallParse "{{ region }}==1";
     CallParse "'{{ selected }}'=='y'";
     CallRender (Some "'{{ selected }}'=='y'");
     CallEval "'x'=='y'"].
Proof.
  eapply po_skipped.
  { exists "B", ["region"], "region".
    split; [reflexivity|]. split; [reflexivity|]. split; [reflexivity|].
    split; [in_list|]. vm_compute. reflexivity. }
  eapply (po_falsy _ _ _ "'x'=='y'" "B" (VBool false)).
  { exists ["selected"].
    split; [reflexivity|]. split; [reflexivity|]. split; [reflexivity|].
    split; [|split; [reflexivity|vm_compute; reflexivity]].
    intros x Hx. apply list_elem_of_singleton in Hx as ->.
    vm_compute. eauto. }
  { reflexivity. }
  { reflexivity. }
  apply po_nil.
Qed.

Lemma sample_rule_x_renders :
  rule_renders (workflow_state sample_state_x_ingested) sample_rule_x
    "'{{ selected }}'=='x'" "'x'=='x'" "C".
Proof.
  exists ["selected"].
  split; [reflexivity|]. split; [reflexivity|]. split; [reflexivity|].
  split; [|split; [reflexivity|vm_compute; reflexivity]].
  intros x Hx. apply list_elem_of_singleton in Hx as ->.
  vm_compute. eauto.
Qed.

Lemma sample_rule_x_not_y :
  passed_over (workflow_state sample_state_y_ingested) [sample_rule_x]
    [CallParse "'{{ selected }}'=='x'";
     CallRender (Some "'{{ selected }}'=='x'");
     CallEval "'y'=='x'"].
Proof.
  eapply (po_falsy _ _ _ "'y'=='x'" "C" (VBool false)).
  { exists ["selected"].
    split; [reflexivity|]. split; [reflexivity|]. split; [reflexivity|].
    split; [|split; [reflexivity|vm_compute; reflexivity]].
    intros x Hx. apply list_elem_of_singleton in Hx as ->.
    vm_compute. eauto. }
  { reflexivity. }
  { reflexivity. }
  apply po_nil.
Qed.

(** The four rules of [sample_A4] and the reply [{selected: "x"}]: the
    winner's variable [selected] is null afterwards. *)
Lemma matching_rule_variables_reset_witness :
  ∃ st' w',
    user_input_with_step sample_A4 sample_state_x sample_world = (Ok tt, st', w')
    ∧ workflow_state st' !! "selected" = Some VNone
    ∧ input_data st' !! "selected" = Some VNone
    ∧ workflow_state st' !! "region" = None.
Proof.
  assert (Hexit : exit_keyword_received sample_state_x = Ok false)
    by (vm_compute; reflexivity).
  assert (Hres : resumes sample_A4 sample_state_x = true)
    by (vm_compute; reflexivity).
  assert (Hing : ingest_reply ["selected"] sample_state_x sample_world
                 = (Ok false, sample_state_x_ingested, sample_world))
    by (vm_compute; reflexivity).
  assert (He : py_eval "'x'=='x'" = Ok (VBool true))
    by (vm_compute; reflexivity).
  destruct (matching_rule_variables_reset sample_A4 _
              [rule_region; rule_y]
              [rule_x_late] sample_rule_x sample_state_x sample_state_x_ingested
              sample_world _ "'{{ selected }}'=='x'" "'x'=='x'" "C" (VBool true)
              eq_refl eq_refl Hexit Hres Hing
              sample_skipped_then_false sample_rule_x_renders He eq_refl)
    as (st' & w' & tv & Hrun & Hvars & Hin & Hout).
  assert (Htv : tv = ["selected"]) by (vm_compute in Hvars; congruence).
  subst tv.
  exists st', w'. split; [exact Hrun|].
  destruct (Hin "selected") as [H1 H2]; [in_list|].
  destruct (Hout "region") as [H3 _]; [not_in_list|].
  split; [exact H1|]. split; [exact H2|]. rewrite H3. vm_compute. reflexivity.
Defined.

(** The same turn: whatever the edge, the successor is [C]. *)
Lemma matching_rule_overrides_next_step_witness :
  ∃ st' w',
    user_input_with_step sample_A4 sample_state_x sample_world = (Ok tt, st', w')
    ∧ should_continue ["A"; "B"] "A" (Some "B") st'
      = ("C", set_go_to_step_id None st').
Proof.
  assert (Hexit : exit_keyword_received sample_state_x = Ok false)
    by (vm_compute; reflexivity).
  assert (Hres : resumes sample_A4 sample_state_x = true)
    by (vm_compute; reflexivity).
  assert (Hing : ingest_reply ["selected"] sample_state_x sample_world
                 = (Ok false, sample_state_x_ingested, sample_world))
    by (vm_compute; reflexivity).
  assert (He : py_eval "'x'=='x'" = Ok (VBool true))
    by (vm_compute; reflexivity).
  destruct (matching_rule_overrides_next_step sample_A4 _ [rule_region; rule_y]
              [rule_x_late] sample_rule_x sample_state_x sample_state_x_ingested
              sample_world _ "'{{ selected }}'=='x'" "'x'=='x'" "C" (VBool true)
              eq_refl eq_refl Hexit Hres Hing
              sample_skipped_then_false sample_rule_x_renders He eq_refl)
    as (st' & w' & Hrun & Hnext); [discriminate|].
  exists st', w'. split; [exact Hrun|apply Hnext].
Defined.

(** The reply [{selected: "y"}] at [A]: the rule is false and the run goes
    on to [B]. *)
Lemma no_matching_rule_follows_next_step_witness :
  ∃ st',
    user_input_with_step sample_A sample_state_y sample_world
    = (Ok tt, st',
       log_calls [CallParse "'{{ selected }}'=='x'";
                  CallRender (Some "'{{ selected }}'=='x'");
                  CallEval "'y'=='x'"] sample_world)
    ∧ task_state st' = TSStr (value completed)
    ∧ go_to_step_id st' = None
    ∧ should_continue ["A"; "B"; "C"] "A" (Some "B") st' = ("B", st').
Proof.
  assert (Hexit : exit_keyword_received sample_state_y = Ok false)
    by (vm_compute; reflexivity).
  assert (Hres : resumes sample_A sample_state_y = true)
    by (vm_compute; reflexivity).
  assert (Hing : ingest_reply ["selected"] sample_state_y sample_world
                 = (Ok false, sample_state_y_ingested, sample_world))
    by (vm_compute; reflexivity).
  destruct (no_matching_rule_follows_next_step sample_A _ [sample_rule_x]
              sample_state_y sample_state_y_ingested sample_world _
              eq_refl eq_refl Hexit Hres Hing sample_rule_x_not_y)
    as (st' & Hrun & Hts & Hgo & Hnext); [discriminate|].
  exists st'. split; [exact Hrun|]. split; [exact Hts|]. split; [exact Hgo|].
  apply Hnext; [discriminate|in_list].
Defined.

(** A rule without [go_to_step]. *)
Lemma malformed_rules_raise_witness :
  user_input_with_step sample_A_partial sample_state_x sample_world
  = (Raise (Exn "UnboundLocalError"
       "cannot access local variable 'template_variables' where it is not associated with a value"),
     sample_state_x_ingested, sample_world).
Proof.
  assert (Hexit : exit_keyword_received sample_state_x = Ok false)
    by (vm_compute; reflexivity).
  assert (Hres : resumes sample_A_partial sample_state_x = true)
    by (vm_compute; reflexivity).
  assert (Hing : ingest_reply ["selected"] sample_state_x sample_world
                 = (Ok false, sample_state_x_ingested, sample_world))
    by (vm_compute; reflexivity).
  refine (malformed_rules_raise sample_A_partial _ _ sample_state_x
            sample_state_x_ingested sample_world
            eq_refl eq_refl _ _ Hexit Hres Hing).
  - discriminate.
  - apply Forall_cons. split; [by right|apply Forall_nil_2].
Defined.

End RuleOutcomesSample.

(** ** The system-action handler: failures of the tool and the mappings *)

Section SystemActionMore.
Context {ext : Externals}.

(** The session raised, or its reply is not JSON. *)
Lemma call_tool_checked_raises (name : option string) (p em : pyval) (e : exn)
    (st : WorkflowState) (w : World) :
  mcp_call_tool (tool_calls w) name p = ToolRaise e
  ∨ (∃ text, mcp_call_tool (tool_calls w) name p = ToolText text
             ∧ json_loads text = Raise e) →
  call_tool_checked name p em st w
  = (Raise e, st, tick_tool (log_call (CallTool name p) w)).
Proof.
  intros [Htool|(text & Htool & Hjson)]; unfold call_tool_checked; run_M;
    rewrite Htool; [done|]. simpl. by rewrite Hjson.
Qed.

(** The reply parsed and the error mapping, resolved against it, is a
    dictionary. *)
Lemma call_tool_checked_reply (name : option string) (p em out : pyval)
    (text : string) (d : gmap string pyval) (st : WorkflowState) (w : World) :
  mcp_call_tool (tool_calls w) name p = ToolText text →
  json_loads text = Ok out →
  resolve_jsonpath_in_params em out = VDict d →
  call_tool_checked name p em st w
  = (if is_VStr (default VNone (d !! "error_status")) "error"
     then Raise (Exn "Exception"
            (py_str (default (VStr ("Tool " +:+ fmt_opt name +:+ " returned error"))
                       (d !! "error_message"))))
     else Ok out,
     st, tick_tool (log_call (CallTool name p) w)).
Proof.
  intros Htool Hjson Hem. unfold call_tool_checked. run_M.
  rewrite Htool. simpl. rewrite Hjson. simpl. rewrite Hem. simpl.
  by destruct (is_VStr (default VNone (d !! "error_status")) "error").
Qed.

(** The second [except] clause (lines 403-407). *)
Lemma invoke_and_map_call_raises (sd : StepDetail) (p : pyval) (e : exn)
    (st : WorkflowState) (w w1 : World) :
  call_tool_checked (sa_name (default no_system_action (system_action_details sd))) p
    (default (VDict ∅)
       (sa_error_mapping (default no_system_action (system_action_details sd)))) st w
  = (Raise e, st, w1) →
  exn_type e ≠ "TimeoutError" →
  invoke_and_map sd p st w
  = (Ok tt, set_output (summary (exn_msg e)) (set_task_state (TSStr (value failed)) st),
     w1).
Proof.
  intros Hcall Hne. unfold invoke_and_map.
  unfold bind at 1. unfold try_except. unfold bind at 1. rewrite Hcall.
  by rewrite (proj2 (String.eqb_neq _ _) Hne).
Qed.

(** X9. When the tool session raises anything but a timeout, or its reply
    is not JSON, the handler does not raise: it returns with [task_state]
    failed and the exception's text as [{summary: ...}] in [output]; the
    scratchpad is as the resolution of the inputs left it, so no mapping
    was applied. *)
Theorem tool_failure_reported (sd : StepDetail) (p : pyval) (e : exn)
    (st st1 : WorkflowState) (w w1 : World) :
  let sa := default no_system_action (system_action_details sd) in
  let tool_input := default VNone (sa_inputs sa) in
  resolve_tool_params tool_input st w = (Ok p, st1, w1) →
  mcp_call_tool (tool_calls w1) (sa_name sa) p = ToolRaise e
  ∨ (∃ text, mcp_call_tool (tool_calls w1) (sa_name sa) p = ToolText text
             ∧ json_loads text = Raise e) →
  exn_type e ≠ "TimeoutError" →
  ∃ st',
    system_control_with_step sd st w
    = (Ok tt, st', tick_tool (log_call (CallTool (sa_name sa) p) w1))
    ∧ task_state st' = TSStr (value failed)
    ∧ output st' = summary (exn_msg e)
    ∧ workflow_state st' = workflow_state st1
    ∧ go_to_step_id st' = go_to_step_id st1.
Proof.
  intros sa tool_input Hres Htool Hne. eexists.
  unfold system_control_with_step. fold sa. fold tool_input.
  unfold bind at 1. rewrite Hres.
  rewrite (invoke_and_map_call_raises sd p e st1 w1
             (tick_tool (log_call (CallTool (sa_name sa) p) w1)));
    [by repeat split| |done].
  by apply call_tool_checked_raises.
Qed.

(** X10. When the error mapping, resolved against the tool's reply, has
    [error_status] equal to the text [error], the step fails without
    raising: [output] is [{summary: ...}] with the mapping's
    [error_message], or [Tool <name> returned error] when the mapping has
    none, and neither the success nor the output mapping is applied. *)
Theorem error_mapping_fails_step (sd : StepDetail) (p out : pyval) (text : string)
    (d : gmap string pyval) (st st1 : WorkflowState) (w w1 : World) :
  let sa := default no_system_action (system_action_details sd) in
  let tool_input := default VNone (sa_inputs sa) in
  resolve_tool_params tool_input st w = (Ok p, st1, w1) →
  mcp_call_tool (tool_calls w1) (sa_name sa) p = ToolText text →
  json_loads text = Ok out →
  resolve_jsonpath_in_params (default (VDict ∅) (sa_error_mapping sa)) out = VDict d →
  d !! "error_status" = Some (VStr "error") →
  ∃ st',
    system_control_with_step sd st w
    = (Ok tt, st', tick_tool (log_call (CallTool (sa_name sa) p) w1))
    ∧ task_state st' = TSStr (value failed)
    ∧ output st'
      = summary (py_str (default (VStr ("Tool " +:+ fmt_opt (sa_name sa)
                                          +:+ " returned error"))
                           (d !! "error_message")))
    ∧ workflow_state st' = workflow_state st1.
Proof.
  intros sa tool_input Hres Htool Hjson Hem Hstatus. eexists.
  unfold system_control_with_step. fold sa. fold tool_input.
  unfold bind at 1. rewrite Hres.
  pose proof (call_tool_checked_reply (sa_name sa) p _ out text d st1 w1
                Htool Hjson Hem) as Hcall.
  rewrite Hstatus in Hcall. simpl in Hcall.
  rewrite (invoke_and_map_call_raises sd p _ st1 w1 _ Hcall); [|done].
  by repeat split.
Qed.

(** X11. The tool replied, the error mapping does not report an error and
    there is no success mapping with an entry: the step completes. Each
    key of the output mapping holds the value read from the reply (a text
    in its JSON-escaped form), every other key of the scratchpad is as the
    resolution of the inputs left it, and [output] and the routing hint
    are untouched. *)
Theorem system_action_completes (sd : StepDetail) (p out : pyval) (text : string)
    (d : gmap string pyval) (st st1 : WorkflowState) (w w1 : World) :
  let sa := default no_system_action (system_action_details sd) in
  let tool_input := default VNone (sa_inputs sa) in
  resolve_tool_params tool_input st w = (Ok p, st1, w1) →
  mcp_call_tool (tool_calls w1) (sa_name sa) p = ToolText text →
  json_loads text = Ok out →
  resolve_jsonpath_in_params (default (VDict ∅) (sa_error_mapping sa)) out = VDict d →
  d !! "error_status" ≠ Some (VStr "error") →
  (∀ sm, sa_success_mapping sa = Some (VDict sm) → sm = ∅) →
  ∃ st',
    system_control_with_step sd st w
    = (Ok tt, st', tick_tool (log_call (CallTool (sa_name sa) p) w1))
    ∧ task_state st' = TSStr (value completed)
    ∧ output st' = output st
    ∧ go_to_step_id st' = go_to_step_id st
    ∧ ∀ k,
        workflow_state st' !! k
        = match sa_output_mapping sa with
          | Some (VDict om) =>
              match om !! k with
              | Some json_path =>
                  Some (escape_extracted (extract_json_path_value out json_path))
              | None => workflow_state st1 !! k
              end
          | _ => workflow_state st1 !! k
          end.
Proof.
  intros sa tool_input Hres Htool Hjson Hem Hstatus Hsm.
  assert (Hfields : go_to_step_id st1 = go_to_step_id st ∧ output st1 = output st).
  { destruct (parse_tool_input tool_input) as [p0|e0] eqn:Hp.
    - destruct (py_truthy p0) eqn:Ht.
      + rewrite (resolve_tool_params_truthy _ _ _ _ Hp Ht) in Hres.
        by injection Hres as _ <- _.
      + rewrite (resolve_tool_params_falsy _ _ _ _ Hp Ht) in Hres.
        by injection Hres as _ <- _.
    - by rewrite (resolve_tool_params_unparsed _ _ _ _ Hp) in Hres. }
  destruct Hfields as [Hgo Hout].
  pose proof (call_tool_checked_reply (sa_name sa) p _ out text d st1 w1
                Htool Hjson Hem) as Hcall.
  assert (Hno : is_VStr (default VNone (d !! "error_status")) "error" = false).
  { destruct (d !! "error_status") as [[| | |s| |]|] eqn:Hs; try done.
    simpl. apply String.eqb_neq. intros ->. by apply Hstatus. }
  rewrite Hno in Hcall.
  unfold system_control_with_step. fold sa. fold tool_input.
  unfold bind at 1. rewrite Hres.
  unfold invoke_and_map. fold sa.
  unfold bind at 1. unfold try_except. unfold bind at 1. rewrite Hcall.
  unfold ret at 1. unfold bind at 1.
  assert (Hsuccess :
    ∀ s0 w0,
      match default (VDict ∅) (sa_success_mapping sa) with
      | VDict sm => apply_success_mapping (map_to_list sm) out
      | _ => ret tt
      end s0 w0 = (Ok tt, s0, w0)).
  { intros s0 w0. destruct (sa_success_mapping sa) as [[| | | | |sm]|] eqn:E;
      simpl; try done.
    by rewrite (Hsm sm eq_refl), map_to_list_empty. }
  rewrite Hsuccess. unfold bind at 1.
  destruct (sa_output_mapping sa) as [[| | | | |om]|] eqn:Hom; run_M;
    eexists; (split; [reflexivity|]); simpl;
    (split; [done|]); (split; [done|]); (split; [done|]); intros k; try done.
  apply apply_output_mapping_lookup.
Qed.

(** The final-response handler, whatever its outcome. *)
Lemma final_response_frame (sd : StepDetail) (st st' : WorkflowState) (w w' : World)
    (r : result unit) :
  final_response_with_step sd st w = (r, st', w') →
  go_to_step_id st' = None
  ∧ workflow_state st' = workflow_state st
  ∧ input_data st' = input_data st
  ∧ journal w' = journal w.
Proof.
  unfold final_response_with_step. run_M.
  destruct (negb (truthy_str _)); [by intros [= _ <- <-]|].
  destruct (jinja_from_string _) as [[]|e]; [|by intros [= _ <- <-]].
  destruct (jinja_render _ _) as [text|e]; by intros [= _ <- <-].
Qed.

(** X12. The final-response handler clears the routing hint first and
    never writes the scratchpad or the reply data, whether it returns or
    raises; so after a final step the successor function cannot follow a
    hint left by an earlier rule: with no configured next step it ends the
    run. *)
Theorem final_response_never_routes (sd : StepDetail) (st st' : WorkflowState)
    (w w' : World) (r : result unit) :
  final_response_with_step sd st w = (r, st', w') →
  go_to_step_id st' = None
  ∧ workflow_state st' = workflow_state st
  ∧ input_data st' = input_data st
  ∧ ∀ (scope : list string) (current : string),
      should_continue scope current None st' = (END, st').
Proof.
  intros Hrun.
  destruct (final_response_frame sd st st' w w' r Hrun) as (Hgo & Hws & Hdata & _).
  split; [done|]. split; [done|]. split; [done|].
  intros scope current. unfold should_continue. rewrite Hgo. simpl.
  by repeat destruct (String.eqb _ _).
Qed.

(** X13. With a response template that compiles and renders, the final
    step completes: [output] is the rendered text parsed as JSON, or
    [{summary: <text>}] when it is not JSON; the template is rendered once,
    against the scratchpad. *)
Theorem final_response_renders (sd : StepDetail) (ui : UserInteraction)
    (message rendered : string) (st : WorkflowState) (w : World) :
  user_interaction sd = Some ui →
  user_message ui = Some message → message ≠ "" →
  jinja_from_string (Some message) = Ok tt →
  jinja_render (Some message) (workflow_state st) = Ok rendered →
  ∃ st',
    final_response_with_step sd st w
    = (Ok tt, st', log_calls [CallRender (Some message)] w)
    ∧ task_state st' = TSStr (value completed)
    ∧ output st' = match json_loads rendered with
                   | Ok v => v
                   | Raise _ => summary rendered
                   end
    ∧ go_to_step_id st' = None
    ∧ workflow_state st' = workflow_state st.
Proof.
  intros Hui Hmsg Hne Hcompile Hrender. eexists.
  unfold final_response_with_step. rewrite Hui, Hmsg.
  rewrite (truthy_str_Some _ Hne). run_M. rewrite Hcompile. simpl.
  rewrite Hrender. simpl. by repeat split.
Qed.

(** X14. Without a response template (no [user_interaction], no
    [user_message], or an empty one) the final step fails: nothing is
    rendered and [output] is what the previous step left. *)
Theorem final_response_without_template (sd : StepDetail)
    (st : WorkflowState) (w : World) :
  truthy_str (match user_interaction sd with
              | Some ui => user_message ui
              | None => None
              end) = false →
  ∃ st',
    final_response_with_step sd st w = (Ok tt, st', w)
    ∧ task_state st' = TSStr (value failed)
    ∧ output st' = output st
    ∧ ∀ (scope : list string) (current : string) (next : option string),
        should_continue scope current next st' = (END, st').
Proof.
  intros Hnone. eexists. unfold final_response_with_step. run_M.
  rewrite Hnone. simpl. split; [reflexivity|]. by repeat split.
Qed.

End SystemActionMore.

Section SystemActionMoreSample.
Local Existing Instance Sample.externals.

(** The tool [down]: the connection fails. *)
Lemma tool_failure_reported_witness :
  ∃ st' w',
    system_control_with_step sample_B_down sample_state_B sample_world
    = (Ok tt, st', w')
    ∧ task_state st' = TSStr (value failed)
    ∧ output st' = summary "All connection attempts failed"
    ∧ workflow_state st' = {[ "selected" := VStr "x" ]}.
Proof.
  assert (Hres : resolve_tool_params (VDict {[ "q" := VStr "$.selected" ]})
                   sample_state_B sample_world
                 = (Ok (VDict {[ "q" := VStr "x" ]}),
                    set_workflow_state {[ "selected" := VStr "x" ]} sample_state_B,
                    sample_world))
    by (vm_compute; reflexivity).
  destruct (tool_failure_reported sample_B_down (VDict {[ "q" := VStr "x" ]})
              (Exn "ConnectionError" "All connection attempts failed")
              sample_state_B _ sample_world sample_world Hres)
    as (st' & Hrun & Hts & Hout & Hws & _).
  - left. reflexivity.
  - discriminate.
  - eexists st', _. split; [exact Hrun|]. split; [exact Hts|].
    split; [exact Hout|exact Hws].
Defined.

(** An error mapping that reports the reply's [r] as the error. *)
Lemma error_mapping_fails_step_witness :
  ∃ st' w',
    system_control_with_step sample_B_error sample_state_B sample_world
    = (Ok tt, st', w')
    ∧ task_state st' = TSStr (value failed)
    ∧ output st' = summary "42"
    ∧ workflow_state st' = {[ "selected" := VStr "x" ]}.
Proof.
  assert (Hres : resolve_tool_params (VDict {[ "q" := VStr "$.selected" ]})
                   sample_state_B sample_world
                 = (Ok (VDict {[ "q" := VStr "x" ]}),
                    set_workflow_state {[ "selected" := VStr "x" ]} sample_state_B,
                    sample_world))
    by (vm_compute; reflexivity).
  destruct (error_mapping_fails_step sample_B_error (VDict {[ "q" := VStr "x" ]})
              (VDict {[ "r" := VInt 42 ]}) Sample.reply_text
              (<["error_status" := VStr "error"]> {[ "error_message" := VInt 42 ]})
              sample_state_B _ sample_world sample_world Hres)
    as (st' & Hrun & Hts & Hout & Hws).
  - reflexivity.
  - vm_compute. reflexivity.
  - vm_compute. reflexivity.
  - vm_compute. reflexivity.
  - eexists st', _. split; [exact Hrun|]. split; [exact Hts|].
    split; [|exact Hws]. rewrite Hout. vm_compute. reflexivity.
Defined.

(** Scenario S5: the tool [lookup] replies and [answer] is mapped. *)
Lemma system_action_completes_witness :
  ∃ st' w',
    system_control_with_step sample_B sample_state_B sample_world = (Ok tt, st', w')
    ∧ task_state st' = TSStr (value completed)
    ∧ workflow_state st' !! "answer" = Some (VInt 42)
    ∧ workflow_state st' !! "selected" = Some (VStr "x")
    ∧ workflow_state st' !! "user_id" = None.
Proof.
  assert (Hres : resolve_tool_params (VDict {[ "q" := VStr "$.selected" ]})
                   sample_state_B sample_world
                 = (Ok (VDict {[ "q" := VStr "x" ]}),
                    set_workflow_state {[ "selected" := VStr "x" ]} sample_state_B,
                    sample_world))
    by (vm_compute; reflexivity).
  destruct (system_action_completes sample_B (VDict {[ "q" := VStr "x" ]})
              (VDict {[ "r" := VInt 42 ]}) Sample.reply_text ∅
              sample_state_B _ sample_world sample_world Hres)
    as (st' & Hrun & Hts & _ & _ & Hws).
  - reflexivity.
  - vm_compute. reflexivity.
  - vm_compute. reflexivity.
  - done.
  - intros sm [=].
  - eexists st', _. split; [exact Hrun|]. split; [exact Hts|].
    rewrite !Hws. split; [vm_compute; reflexivity|].
    split; vm_compute; reflexivity.
Defined.

(** Step [C] entered with a leftover routing hint. *)
Lemma final_response_never_routes_witness :
  ∃ st' w',
    final_response_with_step sample_C sample_state_C sample_world = (Ok tt, st', w')
    ∧ go_to_step_id sample_state_C = Some "A"
    ∧ go_to_step_id st' = None
    ∧ should_continue ["A"; "B"; "C"] "C" None st' = (END, st').
Proof.
  eexists _, _.
  assert (Hrun : final_response_with_step sample_C sample_state_C sample_world
                 = (Ok tt,
                    set_task_state (TSStr (value completed))
                      (set_output (summary "Done: 42")
                         (set_go_to_step_id None sample_state_C)),
                    log_calls [CallRender (Some "Done: {{ answer }}")] sample_world))
    by (vm_compute; reflexivity).
  destruct (final_response_never_routes sample_C sample_state_C _ sample_world _ _ Hrun)
    as (Hgo & _ & _ & Hnext).
  split; [exact Hrun|]. split; [reflexivity|]. split; [exact Hgo|]. apply Hnext.
Defined.

(** The answer of the sample workflow is not JSON: it is wrapped. *)
Lemma final_response_renders_witness :
  ∃ st',
    final_response_with_step sample_C sample_state_C sample_world
    = (Ok tt, st', log_calls [CallRender (Some "Done: {{ answer }}")] sample_world)
    ∧ task_state st' = TSStr (value completed)
    ∧ output st' = summary "Done: 42".
Proof.
  destruct (final_response_renders sample_C _ "Done: {{ answer }}" "Done: 42"
              sample_state_C sample_world eq_refl eq_refl)
    as (st' & Hrun & Hts & Hout & _).
  - discriminate.
  - reflexivity.
  - vm_compute. reflexivity.
  - exists st'. split; [exact Hrun|]. split; [exact Hts|].
    rewrite Hout. vm_compute. reflexivity.
Defined.

(** Step [C] without [user_interaction]. *)
Lemma final_response_without_template_witness :
  ∃ st',
    final_response_with_step sample_C_silent sample_state_C sample_world
    = (Ok tt, st', sample_world)
    ∧ task_state st' = TSStr (value failed)
    ∧ output st' = VDict ∅.
Proof.
  destruct (final_response_without_template sample_C_silent sample_state_C
              sample_world eq_refl)
    as (st' & Hrun & Hts & Hout & _).
  exists st'. split; [exact Hrun|]. split; [exact Hts|exact Hout].
Defined.

End SystemActionMoreSample.

(** ** The journal wrapper: a handler that returns *)

Lemma find_row_elem (key : option string) (tbl : list JournalRow) (row : JournalRow) :
  find_row key tbl = Some row → row ∈ tbl ∧ r_step_run_id row = key.
Proof.
  induction tbl as [|r tbl IH]; simpl; [done|].
  destruct (bool_decide (r_step_run_id r = key)) eqn:E.
  - intros [= <-]. apply bool_decide_eq_true_1 in E. split; [by left|done].
  - intros Hfind. destruct (IH Hfind) as [Hin Hkey]. split; [by right|done].
Qed.

Section JournalMore.
Context {ext : Externals}.

(** Lines 86-144: the status and the responses always come out, and only
    the scratchpad of a failed or canceled step is written. *)
Lemma completion_status_returns (sd : StepDetail) (rid : option string)
    (st : WorkflowState) (w : World) :
  ∃ status success error st3,
    completion_status sd rid st w = (Ok (status, success, error), st3, w)
    ∧ task_state st3 = task_state st
    ∧ output st3 = output st
    ∧ current_step_run_id st3 = current_step_run_id st
    ∧ go_to_step_id st3 = go_to_step_id st
    ∧ (ts_string (task_state st)
         ∈ [value failed; value canceled; value working; value input_required] →
       status = ts_string (task_state st))
    ∧ (ts_string (task_state st)
         ∉ [value failed; value canceled; value working; value input_required] →
       status = value completed)
    ∧ (ts_string (task_state st) = value failed →
       success = None
       ∧ (∃ d, error = Some (VDict d) ∧ d !! "error" = Some (output st))
       ∧ workflow_state st3
         = <["execution_phase" := VStr "FAILED"]> (workflow_state st))
    ∧ (ts_string (task_state st) ≠ value failed →
       error = None
       ∧ ∃ d, success = Some (VDict d)
              ∧ d !! "success" = Some (VBool true)
              ∧ d !! "step_completed" = Some (VStr (step_id sd))
              ∧ d !! "step_output" = Some (output st))
    ∧ (ts_string (task_state st) = value canceled →
       workflow_state st3
       = <["execution_phase" := VStr "CANCELED"]> (workflow_state st))
    ∧ (ts_string (task_state st) ≠ value failed →
       ts_string (task_state st) ≠ value canceled →
       workflow_state st3 = workflow_state st).
Proof.
  unfold completion_status. unfold bind at 1. unfold get_state at 1.
  destruct (String.eqb (ts_string (task_state st)) (value failed)) eqn:Ef.
  { apply String.eqb_eq in Ef. run_M. eexists _, _, _, _. split; [reflexivity|]. simpl.
    rewrite Ef. repeat split; try done.
    - intros Hn. exfalso. apply Hn. in_list.
    - eexists. split; [reflexivity|]. by simplify_map_eq. }
  apply String.eqb_neq in Ef.
  destruct (String.eqb (ts_string (task_state st)) (value canceled)) eqn:Ec.
  { apply String.eqb_eq in Ec. run_M. eexists _, _, _, _. split; [reflexivity|]. simpl.
    rewrite Ec. repeat split; try done.
    - intros Hn. exfalso. apply Hn. in_list.
    - eexists. split; [reflexivity|]. by simplify_map_eq. }
  apply String.eqb_neq in Ec.
  destruct (String.eqb (ts_string (task_state st)) (value working)) eqn:Ew.
  { apply String.eqb_eq in Ew. run_M. eexists _, _, _, _. split; [reflexivity|]. simpl.
    rewrite Ew. repeat split; try done.
    - intros Hn. exfalso. apply Hn. in_list.
    - eexists. split; [reflexivity|]. by simplify_map_eq. }
  apply String.eqb_neq in Ew.
  destruct (String.eqb (ts_string (task_state st)) (value input_required)) eqn:Ei.
  { apply String.eqb_eq in Ei. run_M. eexists _, _, _, _. split; [reflexivity|]. simpl.
    rewrite Ei. repeat split; try done.
    - intros Hn. exfalso. apply Hn. in_list.
    - eexists. split; [reflexivity|]. by simplify_map_eq. }
  apply String.eqb_neq in Ei.
  run_M. eexists _, _, _, _. split; [reflexivity|]. simpl.
  repeat split; try done.
  - intros Hin. exfalso. revert Hin. not_in_list.
  - eexists. split; [reflexivity|]. by simplify_map_eq.
Qed.

(** A handler that returns: the wrapper writes the completion row under the
    state's step-run id and, unless the step waits for input, draws a new
    step-run id. *)
Lemma process_workflow_run_returns (sd : StepDetail) (func : Handler)
    (st st1 st2 st3 : WorkflowState) (w w1 w2 : World) (started_at : Z)
    (outcome : string * option pyval * option pyval) :
  begin_step st w = (Ok started_at, st1, w1) →
  func st1
    (set_journal
       (upsert (initial_row sd st st1 started_at)
               (initial_conflict (initial_row sd st st1 started_at))
               (journal w1)) w1)
  = (Ok tt, st2, w2) →
  completion_status sd (workflow_run_id st) st2 w2 = (Ok outcome, st3, w2) →
  process_workflow_run sd func st w
  = (Ok tt,
     (if String.eqb (ts_string (task_state st3)) (value input_required)
      then st3
      else set_current_step_run_id (Some (uuid4 (uuid_calls w2))) st3),
     (if String.eqb (ts_string (task_state st3)) (value input_required)
      then fun w => w
      else tick_uuid)
       (set_journal
          (upsert
             (completion_row sd st st3 started_at (datetime_now (now_calls w2)) outcome)
             (completion_conflict
                (completion_row sd st st3 started_at (datetime_now (now_calls w2))
                   outcome))
             (journal w2))
          (tick_now w2))).
Proof.
  intros Hbegin Hfunc Hstatus. unfold process_workflow_run.
  unfold bind at 1. unfold get_state at 1.
  unfold bind at 1. rewrite Hbegin.
  unfold bind at 1. unfold get_state at 1.
  unfold try_except.
  unfold bind at 1. unfold execute_upsert at 1. unfold modify_world at 1.
  unfold bind at 1. rewrite Hfunc.
  unfold bind at 1. rewrite Hstatus.
  unfold now, new_uuid, execute_upsert. run_M.
  by destruct (String.eqb (ts_string (task_state st3)) "input-required").
Qed.

(** X15. When the handler returns, the wrapper returns too, and the row of
    the step run (the step-run id the handler ran under) is completed with
    the status of the task state the handler left: failed, canceled,
    working or input-required as they are, anything else as completed. A
    failed step has an error response carrying the step's [output] and no
    success response; any other step has a success response carrying it
    and no error response. The row's [workflow_state] column is the
    scratchpad the state leaves with. *)
Theorem step_outcome_journaled (sd : StepDetail) (func : Handler)
    (st st1 st2 : WorkflowState) (w w1 w2 : World) (started_at : Z) :
  begin_step st w = (Ok started_at, st1, w1) →
  func st1
    (set_journal
       (upsert (initial_row sd st st1 started_at)
               (initial_conflict (initial_row sd st st1 started_at))
               (journal w1)) w1)
  = (Ok tt, st2, w2) →
  ∃ st' w' row,
    process_workflow_run sd func st w = (Ok tt, st', w')
    ∧ find_row (current_step_run_id st2) (journal w') = Some row
    ∧ r_completed_at row = Some (datetime_now (now_calls w2))
    ∧ (ts_string (task_state st2)
         ∈ [value failed; value canceled; value working; value input_required] →
       r_status row = ts_string (task_state st2))
    ∧ (ts_string (task_state st2)
         ∉ [value failed; value canceled; value working; value input_required] →
       r_status row = value completed)
    ∧ (ts_string (task_state st2) = value failed →
       r_success_response row = None
       ∧ ∃ d, r_error_response row = Some (VDict d)
              ∧ d !! "error" = Some (output st2))
    ∧ (ts_string (task_state st2) ≠ value failed →
       r_error_response row = None
       ∧ ∃ d, r_success_response row = Some (VDict d)
              ∧ d !! "step_completed" = Some (VStr (step_id sd))
              ∧ d !! "step_output" = Some (output st2))
    ∧ r_workflow_state row = VDict (workflow_state st')
    ∧ task_state st' = task_state st2
    ∧ output st' = output st2.
Proof.
  intros Hbegin Hfunc.
  destruct (completion_status_returns sd (workflow_run_id st) st2 w2)
    as (status & success & error & st3 & Hstatus & Hts & Hout & Hid & _
        & Hnamed & Hother & Hfailed & Hnot_failed & _).
  rewrite (process_workflow_run_returns _ _ _ _ _ _ _ _ _ _ _ Hbegin Hfunc Hstatus).
  set (new := completion_row sd st st3 started_at (datetime_now (now_calls w2))
                (status, success, error)).
  pose proof (find_row_upsert new (completion_conflict new) (journal w2)
                (fun old => eq_refl)) as Hfind.
  change (r_step_run_id new) with (current_step_run_id st3) in Hfind.
  rewrite Hid in Hfind.
  eexists _, _, _. split; [reflexivity|].
  split.
  { destruct (String.eqb (ts_string (task_state st3)) (value input_required));
      exact Hfind. }
  assert (Hrow : ∀ old : option JournalRow,
    let row := match old with Some o => completion_conflict new o | None => new end in
    r_completed_at row = Some (datetime_now (now_calls w2))
    ∧ r_status row = status
    ∧ r_success_response row = success
    ∧ r_error_response row = error
    ∧ r_workflow_state row = VDict (workflow_state st3)).
  { by intros [o|]. }
  destruct (Hrow (find_row (current_step_run_id st2) (journal w2)))
    as (Hc & Hs & Hsucc & Herr & Hws).
  split; [exact Hc|]. rewrite Hs, Hsucc, Herr, Hws.
  split; [exact Hnamed|]. split; [exact Hother|].
  split.
  { intros Hf. destruct (Hfailed Hf) as (-> & Hd & _). by split. }
  split.
  { intros Hf. destruct (Hnot_failed Hf) as (-> & d & -> & _ & Hd1 & Hd2).
    split; [done|]. by exists d. }
  by destruct (String.eqb (ts_string (task_state st3)) (value input_required)).
Qed.

(** X16. The state a returning step leaves with: a step that waits for
    input keeps its step-run id (the next turn runs under the same row),
    any other step leaves with the next [uuid4]; a failed step has
    [execution_phase] [FAILED] written into its scratchpad, a canceled one
    [CANCELED], and no other key of the scratchpad is written. *)
Theorem step_run_id_after_step (sd : StepDetail) (func : Handler)
    (st st1 st2 : WorkflowState) (w w1 w2 : World) (started_at : Z) :
  begin_step st w = (Ok started_at, st1, w1) →
  func st1
    (set_journal
       (upsert (initial_row sd st st1 started_at)
               (initial_conflict (initial_row sd st st1 started_at))
               (journal w1)) w1)
  = (Ok tt, st2, w2) →
  ∃ st' w',
    process_workflow_run sd func st w = (Ok tt, st', w')
    ∧ (ts_string (task_state st2) = value input_required →
       current_step_run_id st' = current_step_run_id st2
       ∧ uuid_calls w' = uuid_calls w2)
    ∧ (ts_string (task_state st2) ≠ value input_required →
       current_step_run_id st' = Some (uuid4 (uuid_calls w2))
       ∧ uuid_calls w' = S (uuid_calls w2))
    ∧ (ts_string (task_state st2) = value failed →
       workflow_state st'
       = <["execution_phase" := VStr "FAILED"]> (workflow_state st2))
    ∧ (ts_string (task_state st2) = value canceled →
       workflow_state st'
       = <["execution_phase" := VStr "CANCELED"]> (workflow_state st2))
    ∧ (ts_string (task_state st2) ≠ value failed →
       ts_string (task_state st2) ≠ value canceled →
       workflow_state st' = workflow_state st2).
Proof.
  intros Hbegin Hfunc.
  destruct (completion_status_returns sd (workflow_run_id st) st2 w2)
    as (status & success & error & st3 & Hstatus & Hts & Hout & Hid & _
        & _ & _ & Hfailed & _ & Hcanceled & Hrest).
  rewrite (process_workflow_run_returns _ _ _ _ _ _ _ _ _ _ _ Hbegin Hfunc Hstatus).
  eexists _, _. split; [reflexivity|]. rewrite Hts.
  destruct (String.eqb (ts_string (task_state st2)) (value input_required)) eqn:E.
  - apply String.eqb_eq in E. split; [done|]. split; [done|].
    split; [intros Hf; by destruct (Hfailed Hf) as (_ & _ & ->)|].
    split; [done|done].
  - apply String.eqb_neq in E. split; [done|]. split; [done|]. simpl.
    split; [intros Hf; by destruct (Hfailed Hf) as (_ & _ & ->)|].
    split; [done|done].
Qed.

(** X17. A step that waits for input leaves a pending row for its run: the
    row of its step-run id has the run's id and status input-required
    (provided the row, if it was there before, belonged to the run), so the
    journal has a pending row for the run when the wrapper returns. *)
Theorem suspended_step_leaves_pending_row (sd : StepDetail) (func : Handler)
    (st st1 st2 : WorkflowState) (w w1 w2 : World) (started_at : Z) :
  begin_step st w = (Ok started_at, st1, w1) →
  func st1
    (set_journal
       (upsert (initial_row sd st st1 started_at)
               (initial_conflict (initial_row sd st st1 started_at))
               (journal w1)) w1)
  = (Ok tt, st2, w2) →
  ts_string (task_state st2) = value input_required →
  (∀ old, find_row (current_step_run_id st2) (journal w2) = Some old →
          r_workflow_run_id old = workflow_run_id st) →
  ∃ st' w' row,
    process_workflow_run sd func st w = (Ok tt, st', w')
    ∧ current_step_run_id st' = current_step_run_id st2
    ∧ find_row (current_step_run_id st') (journal w') = Some row
    ∧ r_workflow_run_id row = workflow_run_id st
    ∧ r_status row = value input_required
    ∧ has_pending_row (journal w') (workflow_run_id st).
Proof.
  intros Hbegin Hfunc Hwait Hown.
  destruct (completion_status_returns sd (workflow_run_id st) st2 w2)
    as (status & success & error & st3 & Hstatus & Hts & Hout & Hid & _
        & Hnamed & _).
  rewrite (process_workflow_run_returns _ _ _ _ _ _ _ _ _ _ _ Hbegin Hfunc Hstatus).
  rewrite Hts, Hwait. simpl.
  set (new := completion_row sd st st3 started_at (datetime_now (now_calls w2))
                (status, success, error)).
  pose proof (find_row_upsert new (completion_conflict new) (journal w2)
                (fun old => eq_refl)) as Hfind.
  change (r_step_run_id new) with (current_step_run_id st3) in Hfind.
  assert (Hst : status = value input_required).
  { rewrite <- Hwait. apply Hnamed. rewrite Hwait. in_list. }
  assert (Hrow :
    let row := match find_row (current_step_run_id st3) (journal w2) with
               | Some o => completion_conflict new o
               | None => new
               end in
    r_workflow_run_id row = workflow_run_id st ∧ r_status row = value input_required).
  { rewrite Hid. destruct (find_row (current_step_run_id st2) (journal w2)) as [o|] eqn:Ho;
      simpl; [|done]. split; [by apply Hown|done]. }
  destruct Hrow as [Hrun Hstat].
  eexists _, _, _. split; [reflexivity|]. split; [done|].
  split; [exact Hfind|]. split; [exact Hrun|]. split; [exact Hstat|].
  eexists. split; [|split; [exact Hrun|exact Hstat]].
  by apply (find_row_elem _ _ _ Hfind).
Qed.

(** X18. A step that finishes (it returns in a task state other than
    input-required, or it raises) does not leave its row pending: whatever
    the row said before, also input-required as on a resumed turn, its
    status is no longer input-required. *)
Theorem finished_step_row_not_pending (sd : StepDetail) (func : Handler)
    (st st1 st2 : WorkflowState) (w w1 w2 : World) (started_at : Z)
    (r : result unit) :
  begin_step st w = (Ok started_at, st1, w1) →
  func st1
    (set_journal
       (upsert (initial_row sd st st1 started_at)
               (initial_conflict (initial_row sd st st1 started_at))
               (journal w1)) w1)
  = (r, st2, w2) →
  (r = Ok tt → ts_string (task_state st2) ≠ value input_required) →
  ∃ st' w' row,
    process_workflow_run sd func st w = (r, st', w')
    ∧ find_row (current_step_run_id st2) (journal w') = Some row
    ∧ r_status row ≠ value input_required.
Proof.
  intros Hbegin Hfunc Hdone. destruct r as [[]|e].
  - specialize (Hdone eq_refl).
    destruct (completion_status_returns sd (workflow_run_id st) st2 w2)
      as (status & success & error & st3 & Hstatus & Hts & Hout & Hid & _
          & Hnamed & Hother & _).
    rewrite (process_workflow_run_returns _ _ _ _ _ _ _ _ _ _ _ Hbegin Hfunc Hstatus).
    rewrite Hts, (proj2 (String.eqb_neq _ _) Hdone).
    set (new := completion_row sd st st3 started_at (datetime_now (now_calls w2))
                  (status, success, error)).
    pose proof (find_row_upsert new (completion_conflict new) (journal w2)
                  (fun old => eq_refl)) as Hfind.
    change (r_step_run_id new) with (current_step_run_id st3) in Hfind.
    rewrite Hid in Hfind.
    eexists _, _, _. split; [reflexivity|]. split; [exact Hfind|].
    assert (Hst : status ≠ value input_required).
    { destruct (decide (ts_string (task_state st2)
                          ∈ [value failed; value canceled; value working;
                             value input_required])) as [Hin|Hout'].
      - by rewrite (Hnamed Hin).
      - by rewrite (Hother Hout'). }
    by destruct (find_row (current_step_run_id st2) (journal w2)).
  - rewrite (process_workflow_run_raises _ _ _ _ _ _ _ _ _ _ Hbegin Hfunc).
    set (new := error_row sd st st2 started_at (datetime_now (now_calls w2)) e).
    pose proof (find_row_upsert new (error_conflict new) (journal w2)
                  (fun old => eq_refl)) as Hfind.
    change (r_step_run_id new) with (current_step_run_id st2) in Hfind.
    eexists _, _, _. split; [reflexivity|]. split; [exact Hfind|].
    by destruct (find_row (current_step_run_id st2) (journal w2)).
Qed.

End JournalMore.

Section JournalMoreSample.
Local Existing Instance Sample.externals.

(** The tool [down] under the wrapper: the step fails without raising, and
    its row is failed with the tool's error. *)
Lemma step_outcome_journaled_witness :
  ∃ st' w' row d,
    process_workflow_run sample_B_down (system_control_with_step sample_B_down)
      sample_state_B sample_world
    = (Ok tt, st', w')
    ∧ find_row (Some "sr1") (journal w') = Some row
    ∧ r_status row = value failed
    ∧ r_success_response row = None
    ∧ r_error_response row = Some (VDict d)
    ∧ d !! "error" = Some (summary "All connection attempts failed")
    ∧ r_workflow_state row = VDict (workflow_state st').
Proof.
  destruct (step_outcome_journaled sample_B_down
              (system_control_with_step sample_B_down)
              sample_state_B sample_state_B sample_state_B_down
              sample_world (tick_now sample_world)
              (tick_tool (log_call (CallTool (Some "down") (VDict {[ "q" := VStr "x" ]}))
                            (sample_entered sample_B_down sample_state_B sample_world)))
              1000%Z)
    as (st' & w' & row & Hrun & Hfind & _ & Hnamed & _ & Hfailed & _ & Hws & _).
  - vm_compute. reflexivity.
  - vm_compute. reflexivity.
  - destruct Hfailed as (Hsucc & d & Herr & Hd); [reflexivity|].
    exists st', w', row, d. split; [exact Hrun|]. split; [exact Hfind|].
    split; [apply Hnamed; simpl; in_list|]. split; [exact Hsucc|].
    split; [exact Herr|]. split; [exact Hd|exact Hws].
Defined.

(** The same run: the state leaves with a new step-run id and with
    [execution_phase] in its scratchpad. *)
Lemma step_run_id_after_step_witness :
  ∃ st' w',
    process_workflow_run sample_B_down (system_control_with_step sample_B_down)
      sample_state_B sample_world
    = (Ok tt, st', w')
    ∧ current_step_run_id sample_state_B = Some "sr1"
    ∧ current_step_run_id st' = Some "uuid-0"
    ∧ workflow_state st' !! "execution_phase" = Some (VStr "FAILED").
Proof.
  destruct (step_run_id_after_step sample_B_down
              (system_control_with_step sample_B_down)
              sample_state_B sample_state_B sample_state_B_down
              sample_world (tick_now sample_world)
              (tick_tool (log_call (CallTool (Some "down") (VDict {[ "q" := VStr "x" ]}))
                            (sample_entered sample_B_down sample_state_B sample_world)))
              1000%Z)
    as (st' & w' & Hrun & _ & Hnew & Hfailed & _).
  - vm_compute. reflexivity.
  - vm_compute. reflexivity.
  - exists st', w'. split; [exact Hrun|]. split; [reflexivity|].
    split; [by apply Hnew|].
    rewrite Hfailed by reflexivity. by rewrite lookup_insert_eq.
Defined.

(** The first turn at [A]: the prompt leaves a pending row for [run1]. *)
Lemma suspended_step_leaves_pending_row_witness :
  ∃ st' w' row,
    process_workflow_run sample_A (user_input_with_step sample_A)
      (sample_turn (Some "hello") ∅ true (Some ["quit"])) sample_world
    = (Ok tt, st', w')
    ∧ current_step_run_id st' = Some "sr1"
    ∧ find_row (Some "sr1") (journal w') = Some row
    ∧ r_status row = value input_required
    ∧ has_pending_row (journal w') (Some "run1").
Proof.
  destruct (suspended_step_leaves_pending_row sample_A
              (user_input_with_step sample_A)
              (sample_turn (Some "hello") ∅ true (Some ["quit"]))
              (sample_turn (Some "hello") ∅ true (Some ["quit"]))
              sample_state_prompted
              sample_world (tick_now sample_world)
              (log_calls [CallRender (Some "Pick a region")]
                 (sample_entered sample_A
                    (sample_turn (Some "hello") ∅ true (Some ["quit"])) sample_world))
              1000%Z)
    as (st' & w' & row & Hrun & Hid & Hfind & _ & Hstatus & Hpending).
  - vm_compute. reflexivity.
  - vm_compute. reflexivity.
  - reflexivity.
  - intros old Hold. vm_compute in Hold. by injection Hold as <-.
  - exists st', w', row. split; [exact Hrun|]. split; [exact Hid|].
    split; [by rewrite Hid in Hfind|]. split; [exact Hstatus|exact Hpending].
Defined.

(** The resumed turn at [A] with the reply [y], under the pending row
    [sr1]: the row is completed. *)
Lemma finished_step_row_not_pending_witness :
  ∃ st' w' row,
    process_workflow_run sample_A (user_input_with_step sample_A)
      sample_state_y sample_world_pending
    = (Ok tt, st', w')
    ∧ find_row (Some "sr1") (journal sample_world_pending) = Some sample_pending_row
    ∧ find_row (Some "sr1") (journal w') = Some row
    ∧ r_status row ≠ value input_required.
Proof.
  destruct (finished_step_row_not_pending sample_A
              (user_input_with_step sample_A)
              sample_state_y sample_state_y
              (set_task_state (TSStr (value completed))
                 (reset_state ["selected"] sample_state_y_ingested))
              sample_world_pending (tick_now sample_world_pending)
              (log_calls [CallParse "'{{ selected }}'=='x'";
                          CallRender (Some "'{{ selected }}'=='x'");
                          CallEval "'y'=='x'"]
                 (sample_entered sample_A sample_state_y sample_world_pending))
              1000%Z (Ok tt))
    as (st' & w' & row & Hrun & Hfind & Hstatus).
  - vm_compute. reflexivity.
  - vm_compute. reflexivity.
  - intros _. discriminate.
  - exists st', w', row. split; [exact Hrun|]. split; [reflexivity|].
    split; [exact Hfind|exact Hstatus].
Defined.

End JournalMoreSample.

(** ** What the handlers and their decorators leave alone *)

Lemma find_row_upsert_ne (new : JournalRow) (upd : JournalRow -> JournalRow)
    (tbl : list JournalRow) (k : option string) :
  (∀ old, r_step_run_id (upd old) = r_step_run_id old) →
  k ≠ r_step_run_id new →
  find_row k (upsert new upd tbl) = find_row k tbl.
Proof.
  intros Hkey Hne. induction tbl as [|r tbl IH]; simpl.
  - by rewrite bool_decide_eq_false_2.
  - destruct (bool_decide (r_step_run_id r = r_step_run_id new)) eqn:E; simpl.
    + apply bool_decide_eq_true_1 in E.
      rewrite Hkey.
      by rewrite !bool_decide_eq_false_2 by (rewrite ?E; done).
    + by rewrite IH.
Qed.

Section Frame.
Context {ext : Externals}.
Context {F G : Type} (f : WorkflowState -> F) (g : World -> G).

Lemma keeps_ret {A} (a : A) : keeps f g (ret a).
Proof. by intros st w r st' w' [= _ <- <-]. Qed.

Lemma keeps_raise {A} (e : exn) : keeps f g (raise (A := A) e).
Proof. by intros st w r st' w' [= _ <- <-]. Qed.

Lemma keeps_lift_result {A} (x : result A) : keeps f g (lift_result x).
Proof. by intros st w r st' w' [= _ <- <-]. Qed.

Lemma keeps_get_state : keeps f g get_state.
Proof. by intros st w r st' w' [= _ <- <-]. Qed.

Lemma keeps_get_world : keeps f g get_world.
Proof. by intros st w r st' w' [= _ <- <-]. Qed.

Lemma keeps_modify (h : WorkflowState -> WorkflowState) :
  (∀ st, f (h st) = f st) → keeps f g (modify h).
Proof. intros Hh st w r st' w' [= _ <- <-]. by rewrite Hh. Qed.

Lemma keeps_modify_world (h : World -> World) :
  (∀ w, g (h w) = g w) → keeps f g (modify_world h).
Proof. intros Hh st w r st' w' [= _ <- <-]. by rewrite Hh. Qed.

Lemma keeps_bind {A B} (m : M A) (k : A -> M B) :
  keeps f g m → (∀ a, keeps f g (k a)) → keeps f g (bind m k).
Proof.
  intros Hm Hk st w r st' w'. unfold bind.
  destruct (m st w) as [[[a|e] st1] w1] eqn:E;
    destruct (Hm _ _ _ _ _ E) as [Hf Hg].
  - intros Hrun. destruct (Hk a _ _ _ _ _ Hrun) as [Hf' Hg'].
    by rewrite Hf', Hg'.
  - by intros [= _ <- <-].
Qed.

Lemma keeps_try_except {A} (m : M A) (h : exn -> M A) :
  keeps f g m → (∀ e, keeps f g (h e)) → keeps f g (try_except m h).
Proof.
  intros Hm Hh st w r st' w'. unfold try_except.
  destruct (m st w) as [[[a|e] st1] w1] eqn:E;
    destruct (Hm _ _ _ _ _ E) as [Hf Hg].
  - by intros [= _ <- <-].
  - intros Hrun. destruct (Hh e _ _ _ _ _ Hrun) as [Hf' Hg'].
    by rewrite Hf', Hg'.
Qed.

Lemma keeps_call_ext {A} (c : ExtCall) (x : result A) :
  (∀ w, g (log_call c w) = g w) → keeps f g (call_ext c x).
Proof.
  intros Hc. unfold call_ext.
  apply keeps_bind; [by apply keeps_modify_world|intros _; apply keeps_lift_result].
Qed.

End Frame.

Lemma keeps_weaken {A F G F' G' : Type}
    (f : WorkflowState -> F) (g : World -> G)
    (f' : WorkflowState -> F') (g' : World -> G') (m : M A) :
  (∀ st st', f st' = f st → f' st' = f' st) →
  (∀ w w', g w' = g w → g' w' = g' w) →
  keeps f g m → keeps f' g' m.
Proof.
  intros Hf Hg Hm st w r st' w' Hrun.
  destruct (Hm _ _ _ _ _ Hrun). split; [by apply Hf|by apply Hg].
Qed.

(** One step of a frame proof: a combinator of the monad, a conditional or
    a case distinction. *)
Ltac keeps_step :=
  lazymatch goal with
  | |- keeps _ _ (bind _ _) => apply keeps_bind; [|intros ?]
  | |- keeps _ _ (try_except _ _) => apply keeps_try_except; [|intros ?]
  | |- keeps _ _ (ret _) => apply keeps_ret
  | |- keeps _ _ (raise _) => apply keeps_raise
  | |- keeps _ _ (lift_result _) => apply keeps_lift_result
  | |- keeps _ _ get_state => apply keeps_get_state
  | |- keeps _ _ get_world => apply keeps_get_world
  | |- keeps _ _ (call_ext _ _) => apply keeps_call_ext; intros; reflexivity
  | |- keeps _ _ (modify _) => apply keeps_modify; intros; reflexivity
  | |- keeps _ _ (modify_world _) => apply keeps_modify_world; intros; reflexivity
  | |- keeps _ _ (if ?b then _ else _) => destruct b
  | |- keeps _ _ (match ?x with _ => _ end) => destruct x
  end.

Section HandlerFrame.
Context {ext : Externals}.

Lemma reset_fold_frame (tv : list string) (st : WorkflowState) :
  handler_frame
    (fold_left
       (fun st temp_var =>
          set_input_data (<[temp_var := VNone]> (input_data st))
            (set_workflow_state (<[temp_var := VNone]> (workflow_state st)) st))
       tv st)
  = handler_frame st.
Proof.
  revert st. induction tv as [|x tv IH]; intros st; simpl; [done|].
  by rewrite IH.
Qed.

Lemma process_rule_keeps (r : OrchestrationRule) (tv : option (list string)) :
  keeps handler_frame world_frame (process_rule r tv).
Proof. unfold process_rule. repeat keeps_step. Qed.

Lemma rules_loop_keeps (rules : list OrchestrationRule) (tv : option (list string)) :
  keeps handler_frame world_frame (rules_loop rules tv).
Proof.
  revert tv. induction rules as [|r rules IH]; intros tv; simpl.
  - apply keeps_ret.
  - apply keeps_bind; [apply process_rule_keeps|]. intros [stop tv'].
    simpl. destruct stop; [apply keeps_ret|apply IH].
Qed.

Lemma user_input_with_step_keeps (sd : StepDetail) :
  keeps handler_frame world_frame (user_input_with_step sd).
Proof.
  unfold user_input_with_step.
  apply keeps_bind; [apply keeps_get_state|]. intros st.
  apply keeps_bind; [apply keeps_lift_result|]. intros [|].
  { repeat keeps_step. }
  destruct (resumes sd st).
  - apply keeps_bind.
    { unfold ingest_reply. repeat keeps_step. }
    intros [|]; [apply keeps_ret|].
    apply keeps_bind; [|intros _; keeps_step].
    unfold evaluate_rules.
    destruct (match user_interaction sd with
              | Some ui => orchestration_rules ui
              | None => None
              end) as [[|r rules]|]; [apply keeps_ret| |apply keeps_ret].
    apply keeps_bind; [apply rules_loop_keeps|]. intros [tv|].
    + apply keeps_modify. intros st0. apply reset_fold_frame.
    + apply keeps_raise.
  - unfold prompt_user. repeat keeps_step.
Qed.

Lemma apply_success_mapping_keeps (items : list (string * pyval)) (out : pyval) :
  keeps handler_frame world_frame (apply_success_mapping items out).
Proof.
  induction items as [|[key json_path] items IH]; simpl; [apply keeps_ret|].
  apply keeps_bind; [unfold getattr; repeat keeps_step|]. intros _. apply IH.
Qed.

Lemma system_control_with_step_keeps (sd : StepDetail) :
  keeps handler_frame world_frame (system_control_with_step sd).
Proof.
  unfold system_control_with_step.
  apply keeps_bind.
  { unfold resolve_tool_params. repeat keeps_step. }
  intros p. unfold invoke_and_map.
  apply keeps_bind.
  { apply keeps_try_except.
    - apply keeps_bind; [|intros ?; apply keeps_ret].
      unfold call_tool_checked. repeat keeps_step.
    - intros e. repeat keeps_step. }
  intros [out|]; [|apply keeps_ret].
  apply keeps_bind.
  { destruct (default (VDict ∅) _); try apply keeps_ret.
    apply apply_success_mapping_keeps. }
  intros _. repeat keeps_step.
Qed.

Lemma final_response_with_step_keeps (sd : StepDetail) :
  keeps handler_frame world_frame (final_response_with_step sd).
Proof. unfold final_response_with_step. repeat keeps_step. Qed.

(** X19. None of the three handlers writes anything but the scratchpad,
    the reply data, [task_state], [output] and the routing hint: the
    request, the identity, the workflow definition, the event log and the
    step-run id of the run state are as before, whether the handler
    returns or raises; and none of them writes the journal or reads the
    clock or the id generator. *)
Theorem handlers_keep_run_definition (sd : StepDetail) :
  keeps handler_frame world_frame (user_input_with_step sd)
  ∧ keeps handler_frame world_frame (system_control_with_step sd)
  ∧ keeps handler_frame world_frame (final_response_with_step sd).
Proof.
  split; [apply user_input_with_step_keeps|].
  split; [apply system_control_with_step_keeps|apply final_response_with_step_keeps].
Qed.

(** The handler behind a node, without its decorators. *)
Lemma node_handler_eq (sd : StepDetail) :
  ∃ func,
    node_handler sd = timed (timed_label sd) (process_workflow_run sd func)
    ∧ keeps handler_frame world_frame func.
Proof.
  unfold node_handler, timed_label.
  destruct (String.eqb (step_type sd) "USER_INPUT");
    [eexists; split; [reflexivity|apply user_input_with_step_keeps]|].
  destruct (String.eqb (step_type sd) "FINAL_RESPONSE");
    eexists; (split; [reflexivity|]);
    [apply final_response_with_step_keeps|apply system_control_with_step_keeps].
Qed.

(** The journal wrapper keeps what its handler keeps, apart from the
    step-run id, the journal, the clock and the id generator. *)
Lemma process_workflow_run_keeps (sd : StepDetail) (func : Handler) :
  keeps handler_frame world_frame func →
  keeps (fun st => (run_definition st, event_log st)) timed_calls
    (process_workflow_run sd func).
Proof.
  intros Hfunc.
  assert (Hfunc' : keeps (fun st => (run_definition st, event_log st)) timed_calls func).
  { revert Hfunc. apply keeps_weaken.
    - intros st st' H.
      exact (f_equal (fun x => (fst (fst x), snd (fst x))) H).
    - intros w w' H. exact (f_equal snd H). }
  unfold process_workflow_run, begin_step, now, new_uuid, completion_status,
    execute_upsert.
  repeat first [exact Hfunc' | keeps_step].
Qed.

(** The rows of the other step runs are not written. *)
Lemma process_workflow_run_rows (sd : StepDetail) (func : Handler)
    (st st' : WorkflowState) (w w' : World) (r : result unit) (k : option string) :
  keeps handler_frame world_frame func →
  process_workflow_run sd func st w = (r, st', w') →
  k ≠ step_run_key st w →
  find_row k (journal w') = find_row k (journal w).
Proof.
  intros Hfunc Hrun Hk.
  assert (∃ t st1 w1,
    begin_step st w = (Ok t, st1, w1)
    ∧ current_step_run_id st1 = step_run_key st w
    ∧ journal w1 = journal w) as (t & st1 & w1 & Hbegin & Hkey & Hj).
  { unfold begin_step, new_uuid, now, step_run_key. run_M.
    destruct (truthy_str (current_step_run_id st)); simpl;
      eexists _, _, _; (split; [reflexivity|]); split; reflexivity. }
  set (wI := set_journal
               (upsert (initial_row sd st st1 t)
                  (initial_conflict (initial_row sd st st1 t)) (journal w1)) w1).
  assert (HwI : find_row k (journal wI) = find_row k (journal w)).
  { unfold wI. simpl. rewrite <- Hj. apply find_row_upsert_ne; [done|].
    simpl. by rewrite Hkey. }
  destruct (func st1 wI) as [[[[]|e] st2] w2] eqn:Hfunc_run;
    destruct (Hfunc _ _ _ _ _ Hfunc_run) as [Hst2 Hw2];
    pose proof (f_equal snd Hst2) as Hid2;
    pose proof (f_equal (fun x => fst (fst (fst x))) Hw2) as Hj2;
    simpl in Hid2, Hj2.
  - destruct (completion_status_returns sd (workflow_run_id st) st2 w2)
      as (status & success & error & st3 & Hstatus & _ & _ & Hid3 & _).
    rewrite (process_workflow_run_returns _ _ _ _ _ _ _ _ _ _ _
               Hbegin Hfunc_run Hstatus) in Hrun.
    injection Hrun as _ _ <-.
    assert (Hrows :
      find_row k
        (upsert (completion_row sd st st3 t (datetime_now (now_calls w2))
                   (status, success, error))
           (completion_conflict
              (completion_row sd st st3 t (datetime_now (now_calls w2))
                 (status, success, error)))
           (journal w2))
      = find_row k (journal w)).
    { rewrite find_row_upsert_ne; [by rewrite Hj2|done|].
      simpl. by rewrite Hid3, Hid2, Hkey. }
    by destruct (String.eqb (ts_string (task_state st3)) "input-required").
  - rewrite (process_workflow_run_raises _ _ _ _ _ _ _ _ _ _ Hbegin Hfunc_run) in Hrun.
    injection Hrun as _ _ <-. simpl.
    rewrite find_row_upsert_ne; [by rewrite Hj2|done|].
    simpl. by rewrite Hid2, Hkey.
Qed.

(** X20. A node of the graph, with its two decorators, leaves the request,
    the identity and the workflow definition of the run state as they are
    and appends exactly one entry to the event log, the timing message of
    its step type, whether the step returns or raises. *)
Theorem node_appends_one_event (sd : StepDetail) (st st' : WorkflowState)
    (w w' : World) (r : result unit) :
  node_handler sd st w = (r, st', w') →
  run_definition st' = run_definition st
  ∧ event_log st'
    = event_log st
      ++ [timed_label sd +:+ " execution time: "
            +:+ duration_text (timed_calls w) +:+ " seconds"]
  ∧ timed_calls w' = S (timed_calls w).
Proof.
  destruct (node_handler_eq sd) as (func & -> & Hfunc).
  unfold timed.
  destruct (process_workflow_run sd func st w) as [[r1 st1] w1] eqn:Hrun.
  destruct (process_workflow_run_keeps sd func Hfunc _ _ _ _ _ Hrun) as [Hst Hw].
  pose proof (f_equal fst Hst) as Hdef. pose proof (f_equal snd Hst) as Hlog.
  simpl in Hdef, Hlog.
  intros [= _ <- <-]. simpl. by rewrite Hlog, Hw.
Qed.

(** X21. A node writes the journal row of its own step run only: the row
    under any other step-run id is as before, whether the step returns or
    raises. The step's own id is the one the state came with, or the next
    [uuid4] when it came without. *)
Theorem node_writes_own_row_only (sd : StepDetail) (st st' : WorkflowState)
    (w w' : World) (r : result unit) (k : option string) :
  node_handler sd st w = (r, st', w') →
  k ≠ step_run_key st w →
  find_row k (journal w') = find_row k (journal w).
Proof.
  destruct (node_handler_eq sd) as (func & -> & Hfunc).
  unfold timed.
  destruct (process_workflow_run sd func st w) as [[r1 st1] w1] eqn:Hrun.
  intros [= _ _ <-] Hk. simpl.
  by apply (process_workflow_run_rows sd func st st1 w w1 r1 k).
Qed.

End HandlerFrame.

Section HandlerFrameSample.
Local Existing Instance Sample.externals.

(** The final node of the sample workflow: one timing entry. *)
Lemma node_appends_one_event_witness :
  ∃ r st' w',
    node_handler sample_C sample_state_C sample_world = (r, st', w')
    ∧ steps st' = [sample_A; sample_B; sample_C]
    ∧ event_log st' = ["Final Step execution time: 0.00 seconds"].
Proof.
  destruct (node_handler sample_C sample_state_C sample_world)
    as [[r st'] w'] eqn:Hrun.
  destruct (node_appends_one_event sample_C sample_state_C st' sample_world w' r Hrun)
    as (Hdef & Hlog & _).
  exists r, st', w'. split; [reflexivity|]. split; [|exact Hlog].
  exact (f_equal (fun x => snd (fst (fst (fst x)))) Hdef).
Defined.

(** The node [B] with the tool [down], run under the step-run id [sr2]
    while the journal holds the pending row [sr1]: that row is as
    before. *)
Lemma node_writes_own_row_only_witness :
  ∃ r st' w',
    node_handler sample_B_down
      (set_current_step_run_id (Some "sr2") sample_state_B) sample_world_pending
    = (r, st', w')
    ∧ find_row (Some "sr1") (journal w') = Some sample_pending_row.
Proof.
  destruct (node_handler sample_B_down
              (set_current_step_run_id (Some "sr2") sample_state_B)
              sample_world_pending)
    as [[r st'] w'] eqn:Hrun.
  exists r, st', w'. split; [reflexivity|].
  rewrite (node_writes_own_row_only sample_B_down _ st' _ w' r (Some "sr1") Hrun).
  - reflexivity.
  - discriminate.
Defined.

End HandlerFrameSample.

(** ** The graph: the successor and the declared targets *)

Section GraphMore.
Context {ext : Externals}.

Lemma step_ids_used_for_edges_subseteq (start : option string) (ids : list string)
    (x : string) :
  x ∈ step_ids_used_for_edges start ids → x ∈ ids.
Proof.
  unfold step_ids_used_for_edges. destruct start as [s|]; [|done].
  destruct (bool_decide (s ∈ ids)); [|done].
  intros Hx. by apply (subseteq_drop (index s ids) ids).
Qed.

(** X22. The name that the successor function of an edge returns is among
    the targets declared for that edge ([END], the configured next step in
    edge scope, every step id) exactly when the routing hint, if set, is
    [END] or a step id of the workflow: the target of a rule is not
    checked against the step ids when the rule fires. *)
Theorem successor_within_targets
    (ws : WorkflowState) (g : Graph) (sid : string)
    (path : WorkflowState -> string * WorkflowState) (targets : gset string)
    (st : WorkflowState) :
  build_graph ws = Some g →
  (sid, path, targets) ∈ g_cond_edges g →
  fst (path st) ∈ targets
  ↔ (∀ t, go_to_step_id st = Some t → t ≠ "" → t = END ∨ t ∈ step_ids ws).
Proof.
  intros Hg Hin.
  rewrite (build_graph_cond_edges _ _ Hg) in Hin.
  destruct (truthy_str (start_step_id ws)); [|by apply elem_of_nil in Hin].
  apply list_elem_of_fmap in Hin as (sid' & [= -> -> ->] & Hscope).
  set (scope := step_ids_used_for_edges (start_step_id ws) (step_ids ws)).
  set (next := step_to_next_get (steps ws) sid').
  assert (Hend : END ∈ possible_targets scope (step_ids ws) next).
  { unfold possible_targets. apply elem_of_union_l, elem_of_union_l.
    by apply elem_of_singleton. }
  assert (Hids : ∀ t, t ∈ step_ids ws → t ∈ possible_targets scope (step_ids ws) next).
  { intros t Ht. unfold possible_targets. apply elem_of_union_r.
    by apply elem_of_list_to_set. }
  assert (Hinv : ∀ t, t ∈ possible_targets scope (step_ids ws) next →
                      t = END ∨ t ∈ step_ids ws).
  { intros t. unfold possible_targets.
    rewrite !elem_of_union, elem_of_singleton, elem_of_list_to_set.
    intros [[->|Hn]|Ht]; [by left| |by right].
    destruct next as [n|]; [|by apply elem_of_empty in Hn].
    destruct (negb (String.eqb n "") && bool_decide (n ∈ scope)) eqn:E;
      [|by apply elem_of_empty in Hn].
    apply elem_of_singleton in Hn as ->. right.
    apply andb_true_iff in E as [_ E]. apply bool_decide_eq_true_1 in E.
    by apply (step_ids_used_for_edges_subseteq (start_step_id ws)). }
  assert (Hnormal : truthy_str (go_to_step_id st) = false →
            fst (should_continue scope sid' next st)
              ∈ possible_targets scope (step_ids ws) next).
  { intros Hu. unfold should_continue. rewrite Hu.
    destruct (String.eqb _ (value input_required)); [done|].
    destruct (_ || _); [done|].
    destruct next as [n|]; [|done].
    destruct (negb (String.eqb n "") && bool_decide (n ∈ scope)) eqn:E; [|done].
    simpl. unfold possible_targets. rewrite E.
    apply elem_of_union_l, elem_of_union_r. by apply elem_of_singleton. }
  destruct (go_to_step_id st) as [t|] eqn:Hgo.
  - destruct (String.eqb t "") eqn:Et.
    + split; [|intros _; apply Hnormal; simpl; by rewrite Et].
      apply String.eqb_eq in Et as ->. by intros _ t [= <-] Hne.
    + assert (Hfst : fst (should_continue scope sid' next st) = t).
      { unfold should_continue. rewrite Hgo. simpl. by rewrite Et. }
      rewrite Hfst. apply String.eqb_neq in Et. split.
      * intros Ht t' [= <-] _. by apply Hinv.
      * intros Hok. destruct (Hok t eq_refl Et) as [->|Ht]; [done|by apply Hids].
  - split; [by intros _ t [=]|]. intros _. by apply Hnormal.
Qed.

End GraphMore.

Section GraphMoreSample.
Local Existing Instance Sample.externals.

(** The edge of [A] in the sample workflow: a hint to [C] stays within the
    declared targets, a hint to the unknown step [Z] does not. *)
Lemma successor_within_targets_witness :
  ∃ g path targets,
    build_graph sample_state = Some g
    ∧ ("A", path, targets) ∈ g_cond_edges g
    ∧ fst (path (set_go_to_step_id (Some "C") sample_state)) ∈ targets
    ∧ fst (path (set_go_to_step_id (Some "Z") sample_state)) ∉ targets.
Proof.
  destruct (build_graph sample_state) as [g|] eqn:Hg; [|discriminate Hg].
  pose proof (build_graph_cond_edges _ _ Hg) as He. simpl in He.
  eexists g, _, _. split; [done|].
  assert (Hin : ("A",
                 should_continue ["A"; "B"; "C"] "A" (Some "B"),
                 possible_targets ["A"; "B"; "C"] ["A"; "B"; "C"] (Some "B"))
                ∈ g_cond_edges g).
  { rewrite He. apply elem_of_cons. by left. }
  split; [exact Hin|]. split.
  - apply (proj2 (successor_within_targets sample_state g "A" _ _
                    (set_go_to_step_id (Some "C") sample_state) Hg Hin)).
    intros t [= <-] _. right. simpl. in_list.
  - intros Hz.
    pose proof (proj1 (successor_within_targets sample_state g "A" _ _
                         (set_go_to_step_id (Some "Z") sample_state) Hg Hin) Hz)
      as Hok.
    destruct (Hok "Z" eq_refl) as [Hend|Hids]; [discriminate|discriminate|].
    revert Hids. simpl. not_in_list.
Defined.

End GraphMoreSample.

(** ** The manager: lookup, start step, resumption *)

Lemma first_unreferenced_None (ids next_ids : list string) :
  (∀ x, x ∈ ids → x ∈ next_ids) → first_unreferenced ids next_ids = None.
Proof.
  unfold first_unreferenced. induction ids as [|y ids IH]; intros Hall; [done|].
  rewrite filter_cons_False by (intros Hy; apply Hy, Hall; by left).
  apply IH. intros x Hx. apply Hall. by right.
Qed.

(** X23. The start step of a fresh run is the earliest step id that no
    step of the workflow names as its next step; there is none exactly
    when every step id is named. *)
Theorem start_step_is_first_unreferenced (ids next_ids : list string) :
  (∀ s, first_unreferenced ids next_ids = Some s
        ↔ ∃ pre post, ids = pre ++ s :: post
                      ∧ (s ∉ next_ids)
                      ∧ ∀ x, x ∈ pre → x ∈ next_ids)
  ∧ (first_unreferenced ids next_ids = None ↔ ∀ x, x ∈ ids → x ∈ next_ids).
Proof.
  unfold first_unreferenced. induction ids as [|y ids [IHs IHn]].
  - split.
    + intros s. split; [done|]. intros (pre & post & Heq & _). by destruct pre.
    + split; [by intros _ x ?%elem_of_nil|done].
  - destruct (decide (y ∈ next_ids)) as [Hy|Hy].
    + rewrite filter_cons_False by (by intros ?). split.
      * intros s. rewrite IHs. split.
        -- intros (pre & post & -> & Hs & Hpre). exists (y :: pre), post.
           split; [done|]. split; [done|].
           intros x [->|Hx]%elem_of_cons; [done|by apply Hpre].
        -- intros (pre & post & Heq & Hs & Hpre).
           destruct pre as [|y' pre]; simpl in Heq.
           ++ injection Heq as -> _. done.
           ++ injection Heq as -> ->. exists pre, post. split; [done|].
              split; [done|]. intros x Hx. apply Hpre. by right.
      * rewrite IHn. split.
        -- intros Hall x [->|Hx]%elem_of_cons; [done|by apply Hall].
        -- intros Hall x Hx. apply Hall. by right.
    + rewrite filter_cons_True by done. simpl. split.
      * intros s. split.
        -- intros [= <-]. exists [], ids. split; [done|]. split; [done|].
           by intros x ?%elem_of_nil.
        -- intros (pre & post & Heq & Hs & Hpre).
           destruct pre as [|y' pre]; simpl in Heq.
           ++ by injection Heq as ->.
           ++ injection Heq as -> _. exfalso. apply Hy, Hpre. by left.
      * split; [done|]. intros Hall. exfalso. apply Hy, Hall. by left.
Qed.

Section ManagerMore.
Context {ext : Externals}.
Variable get_steps_by_workflow_id :
  option string -> list string -> result (option Workflow).
Variable ainvoke : Graph -> WorkflowState -> World -> result WorkflowState * World.

(** X24. When the catalogue has no workflow for the id and the caller's
    roles (the id of the pending row when the run waits for input, the
    request's otherwise), [process_workflow] raises [ValueError] naming the
    id and the roles; the graph is not built or run, and the journal is
    not written. *)
Theorem workflow_not_found (agent_input : AgentInputMessage.t) (w w1 : World)
    (user_id user_roles : pyval) (roles : list string)
    (pending : option JournalRow) :
  get_user_info (AgentInputMessage.token agent_input) w
  = (Ok (user_id, user_roles), w1) →
  as_roles user_roles = Ok roles →
  get_input_required_step (journal w1) (AgentInputMessage.task_id agent_input)
  = pending →
  get_steps_by_workflow_id
    (match pending with
     | Some row => r_workflow_id row
     | None => AgentInputMessage.workflow_id agent_input
     end) roles = Ok None →
  process_workflow get_steps_by_workflow_id ainvoke agent_input w
  = (Raise (Exn "ValueError"
       ("Workflow '"
          +:+ fmt_opt (match pending with
                       | Some row => r_workflow_id row
                       | None => AgentInputMessage.workflow_id agent_input
                       end)
          +:+ "' not found or access denied for roles '"
          +:+ py_str user_roles +:+ "'")), w1)
  ∧ journal w1 = journal w.
Proof.
  intros Hinfo Hroles Hpending Hnone.
  split; [|by apply (get_user_info_journal _ _ _ _ Hinfo)].
  unfold process_workflow, seed_state. rewrite Hinfo, Hpending, Hroles.
  destruct pending as [row|]; by rewrite Hnone.
Qed.

(** X25. While a run waits for input, the [workflow_id] of the request is
    not read: a request with any other workflow id is processed alike,
    down to the reply and the final world. *)
Theorem resume_ignores_request_workflow (agent_input : AgentInputMessage.t)
    (wid : option string) (w : World) :
  has_pending_row (journal w) (AgentInputMessage.task_id agent_input) →
  process_workflow get_steps_by_workflow_id ainvoke
    (with_workflow_id wid agent_input) w
  = process_workflow get_steps_by_workflow_id ainvoke agent_input w.
Proof.
  intros Hpending. unfold process_workflow.
  assert (Hseed : seed_state get_steps_by_workflow_id
                    (with_workflow_id wid agent_input) w
                  = seed_state get_steps_by_workflow_id agent_input w);
    [|by rewrite Hseed].
  unfold seed_state. simpl.
  destruct (get_user_info (AgentInputMessage.token agent_input) w)
    as [[[uid roles]|e] w1] eqn:Hinfo; [|done].
  rewrite (get_user_info_journal _ _ _ _ Hinfo).
  destruct (get_input_required_step (journal w)
              (AgentInputMessage.task_id agent_input)) as [row|] eqn:Hprobe;
    [done|].
  exfalso. by apply get_input_required_step_None in Hprobe.
Qed.

(** X26. A resumed run takes up the pending row: the workflow of the row
    is looked up, and the run state handed to the graph starts at the
    row's step, under the row's step-run id, as a continued conversation,
    with the request's text and data; its scratchpad is the row's
    [workflow_state] when that names a workflow. *)
Theorem resumed_state_from_pending_row (agent_input : AgentInputMessage.t)
    (w w1 : World) (user_id user_roles : pyval) (roles : list string)
    (row : JournalRow) (workflow : Workflow) (scratch : gmap string pyval)
    (name : pyval) :
  get_user_info (AgentInputMessage.token agent_input) w
  = (Ok (user_id, user_roles), w1) →
  as_roles user_roles = Ok roles →
  get_input_required_step (journal w1) (AgentInputMessage.task_id agent_input)
  = Some row →
  get_steps_by_workflow_id (r_workflow_id row) roles = Ok (Some workflow) →
  r_workflow_state row = VDict scratch →
  scratch !! "workflow_name" = Some name → py_truthy name = true →
  ∃ st,
    seed_state get_steps_by_workflow_id agent_input w = (Ok st, w1)
    ∧ start_step_id st = Some (r_step_id row)
    ∧ current_step_run_id st = r_step_run_id row
    ∧ workflow_id st = r_workflow_id row
    ∧ workflow_run_id st = AgentInputMessage.task_id agent_input
    ∧ is_new_conversation st = false
    ∧ workflow_state st = scratch
    ∧ input st = AgentInputMessage.input agent_input
    ∧ input_data st = default ∅ (AgentInputMessage.input_data agent_input)
    ∧ task_state st = TSStr (value working)
    ∧ go_to_step_id st = None
    ∧ steps st = wf_steps workflow.
Proof.
  intros Hinfo Hroles Hprobe Hwf Hscratch Hname Htruthy.
  unfold seed_state. rewrite Hinfo, Hprobe, Hroles, Hwf, Hscratch. simpl.
  rewrite Hname. simpl. rewrite Htruthy.
  eexists. split; [reflexivity|]. by repeat split.
Qed.

(** X27. A workflow without steps: [build_graph] returns nothing, and
    [process_workflow] raises [AttributeError] when it asks the missing
    graph to run. *)
Theorem empty_workflow_raises (agent_input : AgentInputMessage.t) (w w1 : World)
    (user_id user_roles : pyval) (roles : list string) (workflow : Workflow) :
  get_user_info (AgentInputMessage.token agent_input) w
  = (Ok (user_id, user_roles), w1) →
  as_roles user_roles = Ok roles →
  get_input_required_step (journal w1) (AgentInputMessage.task_id agent_input)
  = None →
  get_steps_by_workflow_id (AgentInputMessage.workflow_id agent_input) roles
  = Ok (Some workflow) →
  wf_steps workflow = [] →
  process_workflow get_steps_by_workflow_id ainvoke agent_input w
  = (Raise (Exn "AttributeError" "'NoneType' object has no attribute 'ainvoke'"),
     w1).
Proof.
  intros Hinfo Hroles Hprobe Hwf Hsteps.
  unfold process_workflow, seed_state.
  rewrite Hinfo, Hprobe, Hroles, Hwf, Hsteps. reflexivity.
Qed.

(** X28. A fresh run of a workflow in which every step id is named as
    some step's next step has no start step: the graph that is built has
    its nodes but no entry edge and no conditional edge. *)
Theorem cyclic_workflow_no_entry (agent_input : AgentInputMessage.t) (w w1 : World)
    (user_id user_roles : pyval) (roles : list string) (workflow : Workflow) :
  get_user_info (AgentInputMessage.token agent_input) w
  = (Ok (user_id, user_roles), w1) →
  as_roles user_roles = Ok roles →
  get_input_required_step (journal w1) (AgentInputMessage.task_id agent_input)
  = None →
  get_steps_by_workflow_id (AgentInputMessage.workflow_id agent_input) roles
  = Ok (Some workflow) →
  wf_steps workflow ≠ [] →
  (∀ x, x ∈ map step_id (wf_steps workflow) →
        x ∈ omap next_step_id (wf_steps workflow)) →
  ∃ st g,
    seed_state get_steps_by_workflow_id agent_input w = (Ok st, w1)
    ∧ start_step_id st = None
    ∧ build_graph st = Some g
    ∧ g_entry g = None
    ∧ g_cond_edges g = []
    ∧ process_workflow get_steps_by_workflow_id ainvoke agent_input w
      = match ainvoke g st w1 with
        | (Raise e, w2) => (Raise e, w2)
        | (Ok final, w2) =>
            (Ok {| AgentOutputMessage.output := output final;
                   AgentOutputMessage.task_state := task_state final;
                   AgentOutputMessage.status := status final;
                   AgentOutputMessage.event_log := event_log final;
                   AgentOutputMessage.workflow_id := workflow_id final;
                   AgentOutputMessage.workflow_name := workflow_name final |}, w2)
        end.
Proof.
  intros Hinfo Hroles Hprobe Hwf Hne Hall.
  assert (Hstart : first_unreferenced (map step_id (wf_steps workflow))
                     (omap next_step_id (wf_steps workflow)) = None).
  { by apply first_unreferenced_None. }
  unfold process_workflow, seed_state.
  rewrite Hinfo, Hprobe, Hroles, Hwf. simpl. rewrite Hstart.
  destruct (wf_steps workflow) as [|sd sts] eqn:Hsteps; [done|].
  eexists _, _. split; [reflexivity|]. split; [reflexivity|].
  unfold build_graph. simpl. split; [reflexivity|]. split; [reflexivity|].
  split; reflexivity.
Qed.

End ManagerMore.

Section ManagerMoreSample.
Local Existing Instance Sample.externals.

(** The identity reply of the sample tool server. *)
Lemma sample_user_info :
  get_user_info (Some "secret") sample_world
  = (Ok (VStr "u1", VList [VStr "admin"]),
     tick_tool (log_call (CallTool (Some "get_user_info")
                            (VDict {[ "token" := VStr "secret" ]})) sample_world)).
Proof. vm_compute. reflexivity. Qed.

Lemma sample_user_info_pending :
  get_user_info (Some "secret") sample_world_pending
  = (Ok (VStr "u1", VList [VStr "admin"]),
     tick_tool (log_call (CallTool (Some "get_user_info")
                            (VDict {[ "token" := VStr "secret" ]}))
                  sample_world_pending)).
Proof. vm_compute. reflexivity. Qed.

(** A request for the workflow [wf9], which the catalogue does not have. *)
Lemma workflow_not_found_witness :
  ∃ w1,
    process_workflow sample_catalogue_S1 sequential_ainvoke
      sample_request_unknown sample_world
    = (Raise (Exn "ValueError"
         ("Workflow 'wf9' not found or access denied for roles '"
            +:+ py_str (VList [VStr "admin"]) +:+ "'")), w1)
    ∧ journal w1 = [].
Proof.
  eexists.
  refine (workflow_not_found sample_catalogue_S1 sequential_ainvoke
            sample_request_unknown sample_world _ (VStr "u1") (VList [VStr "admin"])
            ["admin"] None sample_user_info _ _ _).
  - reflexivity.
  - reflexivity.
  - reflexivity.
Defined.

(** The run [run1] waits at [A]: a request that names the workflow [wf9]
    resumes it all the same. *)
Lemma resume_ignores_request_workflow_witness :
  process_workflow sample_catalogue sequential_ainvoke
    (with_workflow_id (Some "wf9") (sample_request true)) sample_world_pending
  = process_workflow sample_catalogue sequential_ainvoke
      (sample_request true) sample_world_pending.
Proof.
  apply (resume_ignores_request_workflow sample_catalogue sequential_ainvoke
           (sample_request true) (Some "wf9") sample_world_pending).
  exists sample_pending_row. split; [in_list|]. by split.
Defined.

(** The same run: the state starts at [A] under [sr1]. *)
Lemma resumed_state_from_pending_row_witness :
  ∃ st w1,
    seed_state sample_catalogue (sample_request true) sample_world_pending
    = (Ok st, w1)
    ∧ start_step_id st = Some "A"
    ∧ current_step_run_id st = Some "sr1"
    ∧ is_new_conversation st = false
    ∧ input_data st = {[ "selected" := VStr "x" ]}.
Proof.
  destruct (resumed_state_from_pending_row sample_catalogue (sample_request true)
              sample_world_pending _ (VStr "u1") (VList [VStr "admin"]) ["admin"]
              sample_pending_row sample_workflow_bare
              (<["workflow_name" := VStr "Sample"]> {[ "workflow_id" := VStr "wf1" ]})
              (VStr "Sample") sample_user_info_pending)
    as (st & Hseed & Hstart & Hid & _ & _ & Hnew & _ & _ & Hdata & _).
  - reflexivity.
  - vm_compute. reflexivity.
  - vm_compute. reflexivity.
  - reflexivity.
  - vm_compute. reflexivity.
  - reflexivity.
  - eexists st, _. split; [exact Hseed|]. split; [exact Hstart|].
    split; [exact Hid|]. split; [exact Hnew|exact Hdata].
Defined.

(** A workflow without steps. *)
Lemma empty_workflow_raises_witness :
  ∃ w1,
    process_workflow (sample_catalogue_of sample_workflow_empty) sequential_ainvoke
      sample_first_request sample_world
    = (Raise (Exn "AttributeError" "'NoneType' object has no attribute 'ainvoke'"),
       w1).
Proof.
  eexists.
  refine (empty_workflow_raises (sample_catalogue_of sample_workflow_empty)
            sequential_ainvoke sample_first_request sample_world _
            (VStr "u1") (VList [VStr "admin"]) ["admin"] sample_workflow_empty
            sample_user_info _ _ _ _); reflexivity.
Defined.

(** Two steps that name each other. *)
Lemma cyclic_workflow_no_entry_witness :
  ∃ st g w1,
    seed_state (sample_catalogue_of sample_workflow_cycle) sample_first_request
      sample_world
    = (Ok st, w1)
    ∧ start_step_id st = None
    ∧ build_graph st = Some g
    ∧ g_entry g = None
    ∧ g_cond_edges g = [].
Proof.
  destruct (cyclic_workflow_no_entry (sample_catalogue_of sample_workflow_cycle)
              sequential_ainvoke sample_first_request sample_world _
              (VStr "u1") (VList [VStr "admin"]) ["admin"] sample_workflow_cycle
              sample_user_info)
    as (st & g & Hseed & Hstart & Hg & Hentry & Hedges & _).
  - reflexivity.
  - reflexivity.
  - reflexivity.
  - discriminate.
  - intros x Hx. simpl in *. revert Hx. rewrite !elem_of_cons, elem_of_nil.
    intros [->|[->|[]]]; auto.
  - eexists st, g, _. split; [exact Hseed|].
    split; [exact Hstart|]. split; [exact Hg|]. split; [exact Hentry|exact Hedges].
Defined.

End ManagerMoreSample.
